(** * A discrete-time TCP congestion-control simulator (src/main.py)

    Shallow embedding of the Python program and the properties of its
    window-evolution engine.

    Modelling conventions.
    - Python [int] values are [Z].  In the model of the simulation loop,
      Python [float] values are modelled by exact rationals [Q]: every
      arithmetic operation is the mathematically exact one; [round(x, 2)]
      is rounding to the nearest multiple of 1/100, ties to even, as
      CPython does on the exact value.
    - Where a statement depends on the rounding of a single operation
      (the values [update_cwnd] returns, the steps the input loops compute
      from the times entered), the functions are modelled a second time
      on Python's own numbers, in module [B64]: an [int] or an IEEE 754
      binary64 float, with every operation rounded to nearest, ties to
      even.
    - Python exceptions are explicit: every fallible operation returns a
      [result], and an exception aborts the computation.
    - A Python list is a [list]; indexing follows Python: a negative index
      [-len <= i < 0] addresses element [len + i], any other index outside
      [0, len) raises [IndexError].
    - [input()] reads from a tape of operator entries.
    - The plotting calls (matplotlib) only draw; they are left out. *)

From Stdlib Require Import ZArith QArith Qround Qreduction Lia Lqa Bool.
From Stdlib Require Import SpecFloat.
From stdpp Require Import list.

Open Scope Z_scope.

(** ** Exceptions and the error monad *)

Inductive exn : Set :=
| IndexError
| ZeroDivisionError
| ValueError
| EOFError
| OverflowError.

Inductive result (A : Type) : Type :=
| Ok (a : A)
| Raise (e : exn).

Arguments Ok {A} a.
Arguments Raise {A} e.

#[global] Instance result_ret : MRet result := fun A a => Ok a.
#[global] Instance result_bind : MBind result := fun A B f m =>
  match m with
  | Ok a => f a
  | Raise e => Raise e
  end.

(** ** Python numbers *)

Module Py.

(** [a < b] on numbers. *)
Definition ltb (a b : Q) : bool := (Qnum a * QDen b <? Qnum b * QDen a)%Z.

(** [a == b] on numbers. *)
Definition eqb (a b : Q) : bool := Qeq_bool a b.

Definition add (a b : Q) : Q := Qred (a + b).
Definition sub (a b : Q) : Q := Qred (a - b).

(** [a / b]: true division, [ZeroDivisionError] on a zero divisor. *)
Definition div (a b : Q) : result Q :=
  if eqb b 0 then Raise ZeroDivisionError else Ok (Qred (a / b)).

(** [int(x)]: truncation towards zero. *)
Definition int (x : Q) : Z := Z.quot (Qnum x) (QDen x).

(** [math.floor(x)] and [math.ceil(x)]. *)
Definition floor (x : Q) : Z := Qfloor x.
Definition ceil (x : Q) : Z := Qceiling x.

(** Nearest integer, ties to even. *)
Definition round_half_even (y : Q) : Z :=
  let n := Qfloor y in
  match (y - inject_Z n ?= 1 # 2)%Q with
  | Lt => n
  | Gt => n + 1
  | Eq => if Z.even n then n else n + 1
  end.

(** [round(x, 2)]. *)
Definition round2 (x : Q) : Q := Qred (round_half_even (x * 100) # 100).

(** [max(a, b)] and [min(a, b)] of two arguments: the first argument
    is kept unless the second is strictly larger (smaller). *)
Definition max (a b : Q) : Q := if ltb a b then b else a.
Definition min (a b : Z) : Z := if (b <? a)%Z then b else a.

(** *** Lists *)

(** The position a Python index denotes in a list of length [len]. *)
Definition index (len : nat) (i : Z) : result nat :=
  let n := Z.of_nat len in
  if (0 <=? i) && (i <? n) then Ok (Z.to_nat i)
  else if (- n <=? i) && (i <? 0) then Ok (Z.to_nat (n + i))
  else Raise IndexError.

(** [l[i]] *)
Definition get {A} (l : list A) (i : Z) : result A :=
  k ← index (length l) i;
  match l !! k with
  | Some x => Ok x
  | None => Raise IndexError
  end.

(** [l[i] = x] *)
Definition set {A} (l : list A) (i : Z) (x : A) : result (list A) :=
  k ← index (length l) i;
  Ok (<[k := x]> l).

(** [for i in range(lo, hi): s = body(i, s)] *)
Fixpoint for_loop {S} (n : nat) (i : Z) (body : Z -> S -> result S)
    (s : S) : result S :=
  match n with
  | O => Ok s
  | Datatypes.S n' => s' ← body i s; for_loop n' (i + 1) body s'
  end.

Definition for_range {S} (lo hi : Z) (body : Z -> S -> result S)
    (s : S) : result S :=
  for_loop (Z.to_nat (hi - lo)) lo body s.

(** The list after [for x in range(k, len(l)): l[x] = v]. *)
Definition fill_from {A} (k : nat) (v : A) (l : list A) : list A :=
  take k l ++ replicate (length l - k) v.

(** [for _ in range(n): s = body(s)] *)
Definition repeat_n {S} (n : Z) (body : S -> result S) (s : S) : result S :=
  for_range 0 n (fun _ => body) s.

End Py.

(** ** Operator input *)

Definition tape := list Q.

(** [get_user_input(prompt)] with the default conversion [float]. *)
Definition get_user_input (tp : tape) : result (Q * tape) :=
  match tp with
  | [] => Raise EOFError
  | x :: tp' => Ok (x, tp')
  end.

(** [int(entry)]: an entry that is not an integer literal makes the
    conversion raise [ValueError]. *)
Definition entry_int (x : Q) : result Z :=
  if Z.eqb (Zpos (Qden (Qred x))) 1 then Ok (Qnum (Qred x))
  else Raise ValueError.

(** [get_user_input(prompt, int)] *)
Definition get_user_input_int (tp : tape) : result (Z * tape) :=
  '(x, tp') ← get_user_input tp;
  z ← entry_int x;
  Ok (z, tp').

(** ** [initialize_parameters] *)

Record parameters := {
  p_total_data : Z;
  p_mss : Z;
  p_rtt : Q;
  p_total_packets : Q;
  p_ssthresh : list Q;
  p_rcwnd : list Q
}.

Definition initialize_parameters (tp : tape) : result (parameters * tape) :=
  '(total_data, tp) ← get_user_input_int tp;
  '(mss, tp) ← get_user_input_int tp;
  total_packets ← Py.div (inject_Z total_data) (inject_Z mss);
  '(rtt, tp) ← get_user_input tp;
  '(ssthresh_val, tp) ← get_user_input_int tp;
  ssthresh0 ← Py.div (inject_Z ssthresh_val) (inject_Z mss);
  Ok ({| p_total_data := total_data; p_mss := mss; p_rtt := rtt;
         p_total_packets := total_packets;
         p_ssthresh := replicate 65 ssthresh0;
         p_rcwnd := replicate 65 1%Q |}, tp).

(** ** [update_rcwnd] *)

Fixpoint update_rcwnd (rcwnd : list Q) (rtt : Q) (mss : Z) (tp : tape)
    {struct tp} : result (list Q * tape) :=
  match tp with
  | [] => Raise EOFError
  | x :: tp1 =>
      update_time ← Py.div x rtt;
      if Py.ltb 65 update_time then Ok (rcwnd, tp1)
      else
        match tp1 with
        | [] => Raise EOFError
        | v :: tp2 =>
            new_int ← entry_int v;
            new_val ← Py.div (inject_Z new_int) (inject_Z mss);
            rcwnd' ← Py.for_range (Py.int update_time) 65
                       (fun idx r => Py.set r idx new_val) rcwnd;
            update_rcwnd rcwnd' rtt mss tp2
        end
  end.

(** ** [get_working_binary] *)

Fixpoint get_working_binary_from (working_binary : list Z) (rtt : Q)
    (tp : tape) {struct tp} : result (list Z * tape) :=
  match tp with
  | [] => Raise EOFError
  | x :: tp1 =>
      start_error ← Py.div x rtt;
      if Py.ltb 100 start_error then Ok (working_binary, tp1)
      else
        match tp1 with
        | [] => Raise EOFError
        | y :: tp2 =>
            end_error ← Py.div y rtt;
            working_binary' ←
              Py.for_range (Py.int start_error) (Py.int end_error)
                (fun idx w => Py.set w idx (-1)) working_binary;
            get_working_binary_from working_binary' rtt tp2
        end
  end.

Definition get_working_binary (rtt : Q) (tp : tape) : result (list Z * tape) :=
  get_working_binary_from (replicate 65 0) rtt tp.

(** ** [update_cwnd] *)

(** One pass of the body of the acknowledgment loop (lines 82-85). *)
Definition ack_increment (t : Z) (ssthresh : list Q) (cwnd : list Q)
    : result (list Q) :=
  cw ← Py.get cwnd t;
  ss ← Py.get ssthresh t;
  if Py.ltb cw ss then Py.set cwnd t (Py.add cw 1)
  else
    inv ← Py.div 1 cw;
    Py.set cwnd t (Py.add cw inv).

(** [update_cwnd(cwnd, t, sndwnd, ssthresh, rcwnd)]: the two lists it
    mutates are returned together with the returned value. *)
Definition update_cwnd (cwnd : list Q) (t : Z) (sndwnd : list Z)
    (ssthresh rcwnd : list Q) : result (list Q * list Z * Q) :=
  prev ← Py.get cwnd (t - 1);
  cwnd ← Py.set cwnd t prev;
  acks ← Py.get sndwnd (t - 1);
  cwnd ← Py.repeat_n acks (ack_increment t ssthresh) cwnd;
  rc ← Py.get rcwnd t;
  cw ← Py.get cwnd t;
  sndwnd ← Py.set sndwnd t (Py.min (Py.int rc) (Py.int cw));
  sw ← Py.get sndwnd t;
  cw ← Py.get cwnd t;
  cwnd ← (if (sw =? Py.int cw) && Py.ltb (55 # 100) (Py.sub cw (inject_Z (Py.int cw)))
          then Py.set cwnd t (inject_Z (Py.ceil cw))
          else Ok cwnd);
  cw ← Py.get cwnd t;
  cwnd ← Py.set cwnd t (Py.round2 cw);
  cw ← Py.get cwnd t;
  Ok (cwnd, sndwnd, cw).

(** ** [simulate_tcp_behavior] *)

Record sim_state := {
  cwnd : list Q;
  sndwnd : list Z;
  ssthresh : list Q;
  back_off : Z;
  total_sent : Z;
  t : Z;
  flight_size : Z
}.

(** How one pass of the [while] body ends: it falls through to the next
    test of the loop condition, or leaves through [break] (line 136). *)
Inductive flow := Next | Break.

(** How the [while] loop was left: its condition became false (line 114)
    or [break] was executed (line 136). *)
Inductive exit := ExitCond | ExitBreak.

(** The loop is still [Running] when the fuel ran out before it was left. *)
Inductive status := Running | Exited (e : exit).

Section Simulation.

Variable total_data : Z.
Variable total_packets : Q.
Variable rcwnd : list Q.
Variable working_binary : list Z.

(** The state on entry (lines 108-112). *)
Definition init_state (ssthresh0 : list Q) : sim_state :=
  {| cwnd := replicate 65 1%Q; sndwnd := replicate 65 1;
     ssthresh := ssthresh0; back_off := 2; total_sent := 0; t := 0;
     flight_size := 0 |}.

(** [total_sent < total_packets and t < 65] *)
Definition loop_cond (st : sim_state) : bool :=
  Py.ltb (inject_Z (total_sent st)) total_packets && (t st <? 65).

(** The body of the [while] loop (lines 115-151). *)
Definition loop_body (st : sim_state) : result (sim_state * flow) :=
  rc ← Py.get rcwnd (t st);
  cw ← Py.get (cwnd st) (t st);
  sndwnd1 ← Py.set (sndwnd st) (t st) (Py.min (Py.int rc) (Py.int cw));
  sw ← Py.get sndwnd1 (t st);
  let flight :=
    Py.min sw (Py.int (Py.sub total_packets (inject_Z (total_sent st)))) in
  wb ← Py.get working_binary (t st);
  if wb =? 0 then
    let sent := total_sent st + flight in
    if Py.eqb (inject_Z sent) total_packets then
      Ok ({| cwnd := cwnd st; sndwnd := sndwnd1; ssthresh := ssthresh st;
             back_off := 2; total_sent := sent; t := t st;
             flight_size := flight |}, Break)
    else
      let t1 := t st + 1 in
      '(cwnd1, sndwnd2, v) ← update_cwnd (cwnd st) t1 sndwnd1 (ssthresh st) rcwnd;
      cwnd2 ← Py.set cwnd1 t1 v;
      Ok ({| cwnd := cwnd2; sndwnd := sndwnd2; ssthresh := ssthresh st;
             back_off := 2; total_sent := sent; t := t1;
             flight_size := flight |}, Next)
  else if wb =? -1 then
    let t1 := t st + back_off st in
    cwnd1 ← Py.set (cwnd st) t1 1%Q;
    ssthresh1 ← Py.for_range t1 65
                  (fun x s => Py.set s x (Py.max 2 (inject_Z flight / 2)))
                  (ssthresh st);
    sw1 ← Py.get sndwnd1 t1;
    Ok ({| cwnd := cwnd1; sndwnd := sndwnd1; ssthresh := ssthresh1;
           back_off := back_off st * 2; total_sent := total_sent st;
           t := t1;
           flight_size := Py.min sw1 (total_data - total_sent st) |}, Next)
  else
    Ok ({| cwnd := cwnd st; sndwnd := sndwnd1; ssthresh := ssthresh st;
           back_off := back_off st; total_sent := total_sent st; t := t st;
           flight_size := flight |}, Next).

(** The [while] loop, run for at most [fuel] passes. *)
Fixpoint while_loop (fuel : nat) (st : sim_state)
    : result (sim_state * status) :=
  match fuel with
  | O => Ok (st, Running)
  | S fuel' =>
      if loop_cond st then
        '(st', f) ← loop_body st;
        match f with
        | Break => Ok (st', Exited ExitBreak)
        | Next => while_loop fuel' st'
        end
      else Ok (st, Exited ExitCond)
  end.

(** The trailing loops (lines 153-159). *)
Definition finalize (st : sim_state) : result sim_state :=
  sndwnd1 ← Py.for_range (t st) 65 (fun i s => Py.set s i (-1)) (sndwnd st);
  sndwnd2 ← Py.for_range 0 65
              (fun x s =>
                 wb ← Py.get working_binary x;
                 if wb =? -1 then Py.set s x (-1) else Ok s)
              sndwnd1;
  Ok {| cwnd := cwnd st; sndwnd := sndwnd2; ssthresh := ssthresh st;
        back_off := back_off st; total_sent := total_sent st;
        t := Z.max (t st) 65; flight_size := flight_size st |}.

(** The simulation for a given loss schedule: the loop, then the trailing
    loops once the loop has been left. *)
Definition run_simulation (fuel : nat) (ssthresh0 : list Q)
    : result (sim_state * status) :=
  '(st, s) ← while_loop fuel (init_state ssthresh0);
  match s with
  | Running => Ok (st, Running)
  | Exited e => st' ← finalize st; Ok (st', Exited e)
  end.

End Simulation.

(** [simulate_tcp_behavior(total_data, mss, rtt, total_packets, ssthresh,
    rcwnd)]: the loss schedule is read from the operator first. *)
Definition simulate_tcp_behavior (fuel : nat) (total_data mss : Z) (rtt : Q)
    (total_packets : Q) (ssthresh0 rcwnd : list Q) (tp : tape)
    : result (sim_state * status * tape) :=
  '(working_binary, tp) ← get_working_binary rtt tp;
  r ← run_simulation total_data total_packets rcwnd working_binary fuel ssthresh0;
  Ok (r, tp).

(** [main()] *)
Definition main (fuel : nat) (tp : tape) : result (sim_state * status * tape) :=
  '(p, tp) ← initialize_parameters tp;
  '(rcwnd, tp) ← update_rcwnd (p_rcwnd p) (p_rtt p) (p_mss p) tp;
  '(_, tp) ← get_working_binary (p_rtt p) tp;
  simulate_tcp_behavior fuel (p_total_data p) (p_mss p) (p_rtt p)
    (p_total_packets p) (p_ssthresh p) rcwnd tp.


(** ** Auxiliary notions used in the statements *)

(** A number with at most two decimal digits. *)
Definition cent (x : Q) : Prop := exists k : Z, (x == inject_Z k * (1 # 100))%Q.


(** The value of [cwnd[t]] after one pass of the acknowledgment loop, and
    after [n] passes, as functions of the running value. *)
Definition grow_once (ss cw : Q) : result Q :=
  if Py.ltb cw ss then Ok (Py.add cw 1)
  else inv ← Py.div 1 cw; Ok (Py.add cw inv).

Fixpoint grow (n : nat) (ss cw : Q) : result Q :=
  match n with
  | O => Ok cw
  | S n' => cw' ← grow_once ss cw; grow n' ss cw'
  end.

(** The rounding tie-break of lines 89-90. *)
Definition tie_break (sw : Z) (cw : Q) : Q :=
  if (sw =? Py.int cw) && Py.ltb (55 # 100) (Py.sub cw (inject_Z (Py.int cw)))
  then inject_Z (Py.ceil cw)
  else cw.

(** The pair [(cwnd[t], sndwnd[t])] that [update_cwnd] leaves, from
    [cwnd[t-1]], [sndwnd[t-1]], [ssthresh[t]] and [rcwnd[t]]. *)
Definition next_window (prev : Q) (acks : Z) (ss rc : Q) : result (Q * Z) :=
  g ← grow (Z.to_nat acks) ss prev;
  let sw := Py.min (Py.int rc) (Py.int g) in
  Ok (Py.round2 (tie_break sw g), sw).

(** A state whose three arrays have the 65 entries they are created with,
    at a step that is not negative. *)
Definition wf (st : sim_state) : Prop :=
  length (cwnd st) = 65%nat /\ length (sndwnd st) = 65%nat /\
  length (ssthresh st) = 65%nat /\ 0 <= t st.

(** The send window and the flight size computed at the top of a pass
    (lines 115-116). *)
Definition send_window (rc cw : Q) : Z := Py.min (Py.int rc) (Py.int cw).

Definition flight (total_packets : Q) (st : sim_state) (sw : Z) : Z :=
  Py.min sw (Py.int (Py.sub total_packets (inject_Z (total_sent st)))).

(** The threshold a loss step writes (line 149). *)
Definition revised_ssthresh (fl : Z) : Q := Py.max 2 (inject_Z fl / 2).

(** ** The passes of the loop as a step relation *)

Section Steps.

Variable total_data : Z.
Variable total_packets : Q.
Variable rcwnd : list Q.
Variable working_binary : list Z.

(** [step st st' f]: a pass of the loop body started in [st] ends in
    [st'] with flow [f].  One rule per path through lines 115-151. *)
Inductive step (st : sim_state) : sim_state -> flow -> Prop :=
| step_break (rc cw : Q) :
    rcwnd !! Z.to_nat (t st) = Some rc ->
    cwnd st !! Z.to_nat (t st) = Some cw ->
    working_binary !! Z.to_nat (t st) = Some 0 ->
    Py.eqb (inject_Z (total_sent st
                      + flight total_packets st (send_window rc cw)))
           total_packets = true ->
    step st
      {| cwnd := cwnd st;
         sndwnd := <[Z.to_nat (t st) := send_window rc cw]> (sndwnd st);
         ssthresh := ssthresh st; back_off := 2;
         total_sent := total_sent st
                       + flight total_packets st (send_window rc cw);
         t := t st;
         flight_size := flight total_packets st (send_window rc cw) |}
      Break
| step_normal (rc cw ss1 rc1 v : Q) (sw1 : Z) :
    t st < 64 ->
    rcwnd !! Z.to_nat (t st) = Some rc ->
    cwnd st !! Z.to_nat (t st) = Some cw ->
    working_binary !! Z.to_nat (t st) = Some 0 ->
    Py.eqb (inject_Z (total_sent st
                      + flight total_packets st (send_window rc cw)))
           total_packets = false ->
    ssthresh st !! Z.to_nat (t st + 1) = Some ss1 ->
    rcwnd !! Z.to_nat (t st + 1) = Some rc1 ->
    next_window cw (send_window rc cw) ss1 rc1 = Ok (v, sw1) ->
    step st
      {| cwnd := <[Z.to_nat (t st + 1) := v]> (cwnd st);
         sndwnd := <[Z.to_nat (t st + 1) := sw1]>
                     (<[Z.to_nat (t st) := send_window rc cw]> (sndwnd st));
         ssthresh := ssthresh st; back_off := 2;
         total_sent := total_sent st
                       + flight total_packets st (send_window rc cw);
         t := t st + 1;
         flight_size := flight total_packets st (send_window rc cw) |}
      Next
| step_loss (rc cw : Q) (sw1 : Z) :
    t st + back_off st < 65 ->
    rcwnd !! Z.to_nat (t st) = Some rc ->
    cwnd st !! Z.to_nat (t st) = Some cw ->
    working_binary !! Z.to_nat (t st) = Some (-1) ->
    <[Z.to_nat (t st) := send_window rc cw]> (sndwnd st)
      !! Z.to_nat (t st + back_off st) = Some sw1 ->
    step st
      {| cwnd := <[Z.to_nat (t st + back_off st) := 1%Q]> (cwnd st);
         sndwnd := <[Z.to_nat (t st) := send_window rc cw]> (sndwnd st);
         ssthresh :=
           Py.fill_from (Z.to_nat (t st + back_off st))
             (revised_ssthresh (flight total_packets st (send_window rc cw)))
             (ssthresh st);
         back_off := back_off st * 2; total_sent := total_sent st;
         t := t st + back_off st;
         flight_size := Py.min sw1 (total_data - total_sent st) |}
      Next
| step_idle (rc cw : Q) (wb : Z) :
    rcwnd !! Z.to_nat (t st) = Some rc ->
    cwnd st !! Z.to_nat (t st) = Some cw ->
    working_binary !! Z.to_nat (t st) = Some wb ->
    wb <> 0 -> wb <> -1 ->
    step st
      {| cwnd := cwnd st;
         sndwnd := <[Z.to_nat (t st) := send_window rc cw]> (sndwnd st);
         ssthresh := ssthresh st; back_off := back_off st;
         total_sent := total_sent st; t := t st;
         flight_size := flight total_packets st (send_window rc cw) |}
      Next.

(** [loss_run st k st']: [k] loss steps in a row, with no pass of any
    other kind in between, lead from [st] to [st']. *)
Inductive loss_run (st : sim_state) : nat -> sim_state -> Prop :=
| loss_run_0 : loss_run st 0 st
| loss_run_S (k : nat) (st1 st2 : sim_state) :
    loss_run st k st1 ->
    loop_cond total_packets st1 = true ->
    working_binary !! Z.to_nat (t st1) = Some (-1) ->
    loop_body total_data total_packets rcwnd working_binary st1
      = Ok (st2, Next) ->
    loss_run st (S k) st2.

End Steps.

(** ** Example inputs *)

(** No step is lost. *)
Definition no_loss : list Z := replicate 65 0.

(** Every step is lost. *)
Definition all_lost : list Z := replicate 65 (-1).

(** The receiver window [initialize_parameters] starts from. *)
Definition rcwnd_default : list Q := replicate 65 1%Q.

(** A receiver window of 100 segments at every step. *)
Definition rcwnd_wide : list Q := replicate 65 100%Q.

(** A uniform threshold. *)
Definition ssthresh_uniform (v : Q) : list Q := replicate 65 v.

(** The states the loop can be in: the arrays keep their 65 entries, the
    step stays below 65, the backoff multiplier is at least 2, and every
    congestion window is at least 1 and has at most two decimal digits. *)
Definition good (st : sim_state) : Prop :=
  wf st /\ t st < 65 /\ 2 <= back_off st /\
  Forall (fun c => 1 <= c)%Q (cwnd st) /\ Forall cent (cwnd st).

(** The state after the first two passes when every step is lost. *)
Definition after_two_losses : sim_state :=
  {| cwnd := <[6%nat := 1%Q]> (<[2%nat := 1%Q]> (replicate 65 1%Q));
     sndwnd := <[2%nat := 1]> (<[0%nat := 1]> (replicate 65 1));
     ssthresh := replicate 65 2%Q;
     back_off := 8; total_sent := 0; t := 6; flight_size := 1 |}.


(** ** Outcomes *)

(** The two terminal outcomes of the loop, read off the state it was left
    in: [COMPLETE] is the exit through [break]; [HORIZON_EXHAUSTED] is the
    exit through the loop condition with the step budget used up and
    packets still to send. *)
Definition COMPLETE (r : sim_state * status) : Prop :=
  snd r = Exited ExitBreak.

Definition HORIZON_EXHAUSTED (total_packets : Q) (r : sim_state * status) : Prop :=
  snd r = Exited ExitCond /\ 65 <= t (fst r) /\
  (inject_Z (total_sent (fst r)) < total_packets)%Q.

(** An operator session: a file of 1000 kbyte in segments of 1 kbyte, a
    round trip of half a second, an initial threshold of 100 kbyte, then
    the entry 100 at each of the three prompts that take 100 as "exit":
    no receiver-window override and no loss interval. *)
Definition session_long_transfer : tape :=
  [1000; 1; 1 # 2; 100; 100; 100; 100]%Q.

(** ** Claims that the code does not satisfy, as stated *)

(** "ssthresh is non-increasing in response to loss": in every run started
    from a threshold of at least 2, the value a loss step writes into an
    entry is at most the value the entry held before. *)
Definition ssthresh_non_increasing : Prop :=
  forall (total_data : Z) (total_packets : Q) (rcwnd : list Q)
         (working_binary : list Z) (ssthresh0 : list Q)
         (fuel : nat) (st st' : sim_state) (s : status) (x : Z) (old new : Q),
    length rcwnd = 65%nat -> length working_binary = 65%nat ->
    length ssthresh0 = 65%nat ->
    Forall (fun v => 2 <= v)%Q ssthresh0 ->
    while_loop total_data total_packets rcwnd working_binary fuel
      (init_state ssthresh0) = Ok (st, s) ->
    loop_cond total_packets st = true ->
    working_binary !! Z.to_nat (t st) = Some (-1) ->
    loop_body total_data total_packets rcwnd working_binary st = Ok (st', Next) ->
    t st' <= x <= 64 ->
    ssthresh st !! Z.to_nat x = Some old ->
    ssthresh st' !! Z.to_nat x = Some new ->
    (new <= old)%Q.

(** "ssthresh[t] >= 2 for all t", for the threshold array that
    [initialize_parameters] builds from the operator's entries. *)
Definition initial_ssthresh_at_least_2 : Prop :=
  forall (tp tp' : tape) (p : parameters),
    initialize_parameters tp = Ok (p, tp') ->
    Forall (fun v => 2 <= v)%Q (p_ssthresh p).

(** A loss schedule whose only lost step is 4. *)
Definition loss_at_4 : list Z := <[4%nat := -1]> no_loss.

(** The run with a threshold of 2 segments, a receiver window of 100
    segments and step 4 lost: the state in which the loss is processed
    (after four passes), and the state the loss step leaves. *)
Definition state_at_loss : sim_state :=
  {| cwnd := [1; 2; 3; 4; 5]%Q ++ replicate 60 1%Q;
     sndwnd := [1; 2; 3; 4; 4] ++ replicate 60 1;
     ssthresh := replicate 65 2%Q;
     back_off := 2; total_sent := 10; t := 4; flight_size := 4 |}.

Definition state_after_loss : sim_state :=
  {| cwnd := [1; 2; 3; 4; 5]%Q ++ replicate 60 1%Q;
     sndwnd := [1; 2; 3; 4; 5] ++ replicate 60 1;
     ssthresh := replicate 6 2%Q ++ replicate 59 (5 # 2)%Q;
     back_off := 4; total_sent := 10; t := 6; flight_size := 1 |}.

(** An operator session with a file of 100 kbyte, segments of 10 kbyte, a
    round trip of half a second and an initial threshold of 10 kbyte. *)
Definition session_low_threshold : tape := [100; 10; 1 # 2; 10]%Q.

(** The run for a total of two and a half packets through the default
    receiver window, without loss, after three passes: two packets are
    sent and half a packet is left. *)
Definition state_half_packet_left : sim_state :=
  {| cwnd := [1; 2; 3; 4]%Q ++ replicate 61 1%Q;
     sndwnd := replicate 65 1;
     ssthresh := replicate 65 100%Q;
     back_off := 2; total_sent := 2; t := 3; flight_size := 0 |}.




(** ** What a run shows

    A state without the last value of [flight_size], which is only a
    local of the loop. *)
Definition forget_flight (st : sim_state) : sim_state :=
  {| cwnd := cwnd st; sndwnd := sndwnd st; ssthresh := ssthresh st;
     back_off := back_off st; total_sent := total_sent st; t := t st;
     flight_size := 0 |}.

Definition observe {A} (r : result (sim_state * A)) : result (sim_state * A) :=
  '(st, a) ← r; Ok (forget_flight st, a).

(** ** Reference notions for the statements *)

(** Truncation towards zero, written with the floor and ceiling of the
    rationals: what [int()] is expected to compute. *)
Definition truncate (x : Q) : Z :=
  if Qle_bool 0 x then Qfloor x else Qceiling x.

(** A receiver window of one segment at steps 0 and 1 and of -3 segments
    from step 2 on, as left by an override of -3 segments entered for
    step 2. *)
Definition rcwnd_negative_from_2 : list Q := [1; 1]%Q ++ replicate 63 (- (3))%Q.

(** The run for a total of two and a half packets through that window,
    without loss, after two passes: two packets are sent, half a packet is
    left, and the send window of step 2 is -3. *)
Definition state_negative_window : sim_state :=
  {| cwnd := [1; 2; 3]%Q ++ replicate 62 1%Q;
     sndwnd := [1; 1; -3] ++ replicate 62 1;
     ssthresh := replicate 65 100%Q;
     back_off := 2; total_sent := 2; t := 2; flight_size := 1 |}.

(** "Once the fractional remainder total_packets - total_sent drops below
    1 every subsequent flight size is 0", for the flight size of every
    pass a run executes with less than one packet left. *)
Definition flights_stop_below_one_packet : Prop :=
  forall (total_data : Z) (total_packets : Q) (rcwnd : list Q)
         (working_binary : list Z) (ssthresh0 : list Q)
         (fuel : nat) (st : sim_state) (s : status) (rc cw : Q),
    length rcwnd = 65%nat -> length working_binary = 65%nat ->
    length ssthresh0 = 65%nat ->
    (forall z : Z, ~ (total_packets == inject_Z z)%Q) ->
    while_loop total_data total_packets rcwnd working_binary fuel
      (init_state ssthresh0) = Ok (st, s) ->
    loop_cond total_packets st = true ->
    (total_packets - inject_Z (total_sent st) < 1)%Q ->
    rcwnd !! Z.to_nat (t st) = Some rc ->
    cwnd st !! Z.to_nat (t st) = Some cw ->
    flight total_packets st (send_window rc cw) = 0.

(** * Python numbers in binary64

    Where the outcome of a computation depends on rounding, the numbers
    are Python's own: an [int] of any size, or a [float], an IEEE 754
    binary64 value on which every operation rounds to nearest, ties to
    even. *)

Module B64.

Definition prec : Z := 53.
Definition emax : Z := 1024.

Inductive num :=
| Int (z : Z)
| Float (f : spec_float).

(** ** Values *)

(** [m * 2^e] *)
Definition scale (m e : Z) : Q :=
  match e with
  | Z0 => inject_Z m
  | Zpos p => inject_Z (m * 2 ^ Zpos p)
  | Zneg p => m # (2 ^ p)%positive
  end.

(** A number is not-a-number, an infinity, or has a rational value. *)
Inductive xreal :=
| XNaN
| XInf (negative : bool)
| XFin (q : Q).

Definition fval (f : spec_float) : xreal :=
  match f with
  | S754_nan => XNaN
  | S754_infinity s => XInf s
  | S754_zero _ => XFin 0
  | S754_finite s m e => XFin (scale (cond_Zopp s (Zpos m)) e)
  end.

Definition val (x : num) : xreal :=
  match x with
  | Int z => XFin (inject_Z z)
  | Float f => fval f
  end.

(** ** Comparisons

    Between two floats, two ints, or an int and a float, the comparison is
    that of the values; any comparison with not-a-number is false. *)

Definition xcompare (a b : xreal) : option comparison :=
  match a, b with
  | XNaN, _ | _, XNaN => None
  | XInf true, XInf true | XInf false, XInf false => Some Eq
  | XInf true, _ => Some Lt
  | XInf false, _ => Some Gt
  | _, XInf true => Some Gt
  | _, XInf false => Some Lt
  | XFin p, XFin q => Some (p ?= q)%Q
  end.

(** [a < b] and [a == b] *)
Definition ltb (a b : num) : bool :=
  match xcompare (val a) (val b) with
  | Some Lt => true
  | _ => false
  end.

Definition eqb (a b : num) : bool :=
  match xcompare (val a) (val b) with
  | Some Eq => true
  | _ => false
  end.

(** ** Conversions *)

(** The float nearest to [n / d]: what [float()] makes of a decimal
    entry, and the value of a decimal literal. *)
Definition nearest (n : Z) (d : positive) : spec_float :=
  match n with
  | Z0 => S754_zero false
  | Zpos p => SFdiv prec emax (S754_finite false p 0) (S754_finite false d 0)
  | Zneg p => SFdiv prec emax (S754_finite true p 0) (S754_finite false d 0)
  end.

Definition of_Q (q : Q) : spec_float := nearest (Qnum q) (Qden q).

(** An int operand of a float operation is converted first;
    [OverflowError] when it is too large for a float. *)
Definition of_int (z : Z) : result spec_float :=
  match binary_normalize prec emax z 0 false with
  | S754_infinity _ => Raise OverflowError
  | f => Ok f
  end.

Definition to_float (x : num) : result spec_float :=
  match x with
  | Int z => of_int z
  | Float f => Ok f
  end.

(** ** Arithmetic *)

(** [a + b] and [a - b]: exact on two ints, in binary64 otherwise. *)
Definition add (a b : num) : result num :=
  match a, b with
  | Int x, Int y => Ok (Int (x + y))
  | _, _ => x ← to_float a; y ← to_float b; Ok (Float (SFadd prec emax x y))
  end.

Definition sub (a b : num) : result num :=
  match a, b with
  | Int x, Int y => Ok (Int (x - y))
  | _, _ => x ← to_float a; y ← to_float b; Ok (Float (SFsub prec emax x y))
  end.

Definition is_zero (f : spec_float) : bool :=
  match f with
  | S754_zero _ => true
  | _ => false
  end.

(** [a / b] on two ints: the float nearest to the quotient,
    [ZeroDivisionError] on a zero divisor, [OverflowError] when the
    quotient is too large for a float. *)
Definition div_int (a b : Z) : result spec_float :=
  if b =? 0 then Raise ZeroDivisionError
  else
    let q := match a with
             | Z0 => S754_zero (b <? 0)
             | _ => SFdiv prec emax
                      (S754_finite (a <? 0) (Z.to_pos (Z.abs a)) 0)
                      (S754_finite (b <? 0) (Z.to_pos (Z.abs b)) 0)
             end in
    match q with
    | S754_infinity _ => Raise OverflowError
    | _ => Ok q
    end.

(** [a / b]: true division. *)
Definition div (a b : num) : result num :=
  match a, b with
  | Int x, Int y => q ← div_int x y; Ok (Float q)
  | _, _ =>
      x ← to_float a;
      y ← to_float b;
      if is_zero y then Raise ZeroDivisionError
      else Ok (Float (SFdiv prec emax x y))
  end.

(** ** Integer parts *)

(** [int(x)]: truncation towards zero. *)
Definition int (x : num) : result Z :=
  match x with
  | Int z => Ok z
  | Float S754_nan => Raise ValueError
  | Float (S754_infinity _) => Raise OverflowError
  | Float (S754_zero _) => Ok 0
  | Float (S754_finite s m e) => Ok (cond_Zopp s (Z.shiftl (Zpos m) e))
  end.

(** [math.ceil(x)] *)
Definition ceil (x : num) : result Z :=
  match x with
  | Int z => Ok z
  | Float S754_nan => Raise ValueError
  | Float (S754_infinity _) => Raise OverflowError
  | Float (S754_zero _) => Ok 0
  | Float (S754_finite s m e) => Ok (- Z.shiftl (cond_Zopp (negb s) (Zpos m)) e)
  end.

(** ** Rounding to two decimals *)

(** The float nearest to [k / 100], for [k >= 0], with the sign [s]. *)
Definition hundredths (s : bool) (k : Z) : spec_float :=
  match k with
  | Zpos p => SFdiv prec emax (S754_finite s p 0) (S754_finite false 100 0)
  | _ => S754_zero s
  end.

(** [round(x, 2)]: an int is returned as it is; a finite float is
    rounded, on its exact value and with ties to even, to the nearest
    multiple of 1/100, and the float nearest to that is returned. *)
Definition round2 (x : num) : num :=
  match x with
  | Int z => Int z
  | Float (S754_finite s m e) =>
      Float (hundredths s (Py.round_half_even (scale (Zpos m) e * 100)))
  | Float f => Float f
  end.

(** ** [update_cwnd] *)

(** The literal [0.55]. *)
Definition d055 : num := Float (of_Q (55 # 100)).

(** One pass of the body of the acknowledgment loop (lines 82-85). *)
Definition ack_increment (t : Z) (ssthresh : list num) (cwnd : list num)
    : result (list num) :=
  cw ← Py.get cwnd t;
  ss ← Py.get ssthresh t;
  if ltb cw ss then
    v ← add cw (Int 1);
    Py.set cwnd t v
  else
    cw0 ← Py.get cwnd t;
    cw1 ← Py.get cwnd t;
    inv ← div (Int 1) cw1;
    v ← add cw0 inv;
    Py.set cwnd t v.

(** [update_cwnd(cwnd, t, sndwnd, ssthresh, rcwnd)] (lines 80-93): the two
    lists it mutates are returned together with the returned value. *)
Definition update_cwnd (cwnd : list num) (t : Z) (sndwnd : list Z)
    (ssthresh rcwnd : list num) : result (list num * list Z * num) :=
  prev ← Py.get cwnd (t - 1);
  cwnd ← Py.set cwnd t prev;
  acks ← Py.get sndwnd (t - 1);
  cwnd ← Py.repeat_n acks (ack_increment t ssthresh) cwnd;
  rc ← Py.get rcwnd t;
  irc ← int rc;
  cw ← Py.get cwnd t;
  icw ← int cw;
  sndwnd ← Py.set sndwnd t (Py.min irc icw);
  sw ← Py.get sndwnd t;
  cw ← Py.get cwnd t;
  icw ← int cw;
  cwnd ← (if sw =? icw then
            cw ← Py.get cwnd t;
            cw' ← Py.get cwnd t;
            icw ← int cw';
            fr ← sub cw (Int icw);
            if ltb d055 fr then
              cw ← Py.get cwnd t;
              c ← ceil cw;
              Py.set cwnd t (Int c)
            else Ok cwnd
          else Ok cwnd);
  cw ← Py.get cwnd t;
  cwnd ← Py.set cwnd t (round2 cw);
  cw ← Py.get cwnd t;
  Ok (cwnd, sndwnd, cw).

(** ** The input loops *)

(** [get_user_input(prompt)]: the entry converted by [float()]. *)
Definition get_user_input (tp : tape) : result (num * tape) :=
  match tp with
  | [] => Raise EOFError
  | x :: tp' => Ok (Float (of_Q x), tp')
  end.

(** [update_rcwnd(rcwnd, rtt, mss)] (lines 41-48) *)
Fixpoint update_rcwnd (rcwnd : list num) (rtt : num) (mss : Z) (tp : tape)
    {struct tp} : result (list num * tape) :=
  match tp with
  | [] => Raise EOFError
  | x :: tp1 =>
      update_time ← div (Float (of_Q x)) rtt;
      if ltb (Int 65) update_time then Ok (rcwnd, tp1)
      else
        match tp1 with
        | [] => Raise EOFError
        | v :: tp2 =>
            new_int ← entry_int v;
            new_val ← div (Int new_int) (Int mss);
            lo ← int update_time;
            rcwnd' ← Py.for_range lo 65
                       (fun idx r => Py.set r idx new_val) rcwnd;
            update_rcwnd rcwnd' rtt mss tp2
        end
  end.

(** [get_working_binary(rtt)] (lines 58-66), from the schedule built so
    far. *)
Fixpoint get_working_binary_from (working_binary : list Z) (rtt : num)
    (tp : tape) {struct tp} : result (list Z * tape) :=
  match tp with
  | [] => Raise EOFError
  | x :: tp1 =>
      start_error ← div (Float (of_Q x)) rtt;
      if ltb (Int 100) start_error then Ok (working_binary, tp1)
      else
        match tp1 with
        | [] => Raise EOFError
        | y :: tp2 =>
            end_error ← div (Float (of_Q y)) rtt;
            lo ← int start_error;
            hi ← int end_error;
            working_binary' ←
              Py.for_range lo hi (fun idx w => Py.set w idx (-1)) working_binary;
            get_working_binary_from working_binary' rtt tp2
        end
  end.

Definition get_working_binary (rtt : num) (tp : tape) : result (list Z * tape) :=
  get_working_binary_from (replicate 65 0) rtt tp.

End B64.

(** ** The update rule

    The rule of the specification for [update_cwnd], on Python numbers,
    with the integer parts and the rounding given by their mathematical
    definitions on the value of a number. *)

Module Rule.

Import B64.

(** One acknowledgment: 1 is added when the running window is below the
    threshold, the inverse of the running window otherwise. *)
Definition increment (ss cw : num) : result num :=
  if ltb cw ss then add cw (Int 1)
  else inv ← div (Int 1) cw; add cw inv.

Fixpoint increments (n : nat) (ss cw : num) : result num :=
  match n with
  | O => Ok cw
  | S n' => cw' ← increment ss cw; increments n' ss cw'
  end.

(** The part of a number before the decimal point. *)
Definition truncation (x : num) : result Z :=
  match val x with
  | XNaN => Raise ValueError
  | XInf _ => Raise OverflowError
  | XFin q => Ok (truncate q)
  end.

(** The least integer that is not below a number. *)
Definition ceiling (x : num) : result Z :=
  match val x with
  | XNaN => Raise ValueError
  | XInf _ => Raise OverflowError
  | XFin q => Ok (Qceiling q)
  end.

(** The integer nearest to a rational; of two that are equally near, the
    even one. *)
Definition nearest_even (y : Q) : Z :=
  let lo := Qfloor y in
  let hi := Qceiling y in
  match (y - inject_Z lo ?= inject_Z hi - y)%Q with
  | Lt => lo
  | Gt => hi
  | Eq => if Z.even lo then lo else hi
  end.

(** Rounding to two decimal digits: the float nearest to the multiple of
    1/100 nearest to the value (an int has no decimal digits). *)
Definition two_decimals (x : num) : num :=
  match x with
  | Float (S754_finite s m e) =>
      Float (hundredths s (nearest_even (scale (Zpos m) e * 100)))
  | _ => x
  end.

(** The window capped by itself, whose part after the decimal point (a
    binary64 difference) exceeds the float 0.55, is replaced by its
    ceiling. *)
Definition tie_break (sw : Z) (cw : num) : result num :=
  i ← truncation cw;
  if sw =? i then
    fr ← sub cw (Int i);
    if ltb d055 fr then c ← ceiling cw; Ok (Int c)
    else Ok cw
  else Ok cw.

(** The pair [(cwnd[t], sndwnd[t])] from [cwnd[t-1]], [sndwnd[t-1]],
    [ssthresh[t]] and [rcwnd[t]]. *)
Definition update (prev : num) (acks : Z) (ss rc : num) : result (num * Z) :=
  cw ← increments (Z.to_nat acks) ss prev;
  a ← truncation rc;
  b ← truncation cw;
  let sw := Z.min a b in
  cw' ← tie_break sw cw;
  Ok (two_decimals cw', sw).

End Rule.

(** "then setting sndwnd[t] = min(floor(rcwnd[t]), floor(cwnd[t]))", for
    the window [cwnd[t]] that the increments leave. *)
Definition send_window_is_min_of_floors : Prop :=
  forall (cwnd : list B64.num) (t : Z) (sndwnd : list Z)
         (ssthresh rcwnd : list B64.num) (prev ss rc cw : B64.num) (acks : Z)
         (qrc qcw : Q) (cwnd' : list B64.num) (sndwnd' : list Z) (v : B64.num),
    1 <= t <= 64 ->
    length cwnd = 65%nat -> length sndwnd = 65%nat ->
    cwnd !! Z.to_nat (t - 1) = Some prev ->
    sndwnd !! Z.to_nat (t - 1) = Some acks ->
    ssthresh !! Z.to_nat t = Some ss ->
    rcwnd !! Z.to_nat t = Some rc ->
    Rule.increments (Z.to_nat acks) ss prev = Ok cw ->
    B64.val rc = B64.XFin qrc -> B64.val cw = B64.XFin qcw ->
    B64.update_cwnd cwnd t sndwnd ssthresh rcwnd = Ok (cwnd', sndwnd', v) ->
    sndwnd' !! Z.to_nat t = Some (Z.min (Qfloor qrc) (Qfloor qcw)).

(** Example inputs: a window of four segments at step 3, a receiver
    window of minus half a segment, and the floats 10.0, 5.0 and 10.1. *)
Definition cwnd64_four_at_3 : list B64.num :=
  <[3%nat := B64.Int 4]> (replicate 65 (B64.Int 1)).

Definition rcwnd64_minus_half : list B64.num :=
  replicate 65 (B64.Float (B64.of_Q (- (1) # 2))).

Definition ten : B64.num := B64.Float (S754_finite false 5629499534213120 (-49)).
Definition five : B64.num := B64.Float (S754_finite false 5629499534213120 (-50)).
Definition ten_point_one : B64.num :=
  B64.Float (S754_finite false 5685794529555251 (-49)).

(** A threshold of 100.0 segments, a receiver window of 100.0 segments,
    and windows of 1.6 and of 9.55 segments at step 3. *)
Definition hundred : B64.num := B64.Float (S754_finite false 7036874417766400 (-46)).

Definition ssthresh64_hundred : list B64.num := replicate 65 hundred.
Definition rcwnd64_hundred : list B64.num := replicate 65 hundred.

Definition cwnd64_1_6_at_3 : list B64.num :=
  <[3%nat := B64.Float (B64.of_Q (16 # 10))]> (replicate 65 (B64.Int 1)).

Definition cwnd64_9_55_at_3 : list B64.num :=
  <[3%nat := B64.Float (B64.of_Q (955 # 100))]> (replicate 65 (B64.Int 1)).

(** The float 2.23. *)
Definition two_point_23 : B64.num :=
  B64.Float (S754_finite false 5021513584518103 (-51)).

(** A window of 10.0 segments at step 3 and a threshold of 5 segments. *)
Definition cwnd64_ten_at_3 : list B64.num :=
  <[3%nat := ten]> (replicate 65 (B64.Int 1)).

Definition ssthresh64_five : list B64.num := replicate 65 (B64.Int 5).

(** ** Operator sessions in binary64 *)

(** An override as entered, with the step [int(time / rtt)] and the window
    [value / mss] that [update_rcwnd] computes for it. *)
Record override := {
  o_time : Q;
  o_value : Z;
  o_step : Z;
  o_window : B64.num
}.

(** The quotient [time / rtt] does not exceed 65, its integer part is the
    step, and the quotient [value / mss] is the window. *)
Definition override_read (rtt : B64.num) (mss : Z) (o : override) : Prop :=
  exists q,
    B64.div (B64.Float (B64.of_Q (o_time o))) rtt = Ok q /\
    B64.ltb (B64.Int 65) q = false /\
    B64.int q = Ok (o_step o) /\
    B64.div (B64.Int (o_value o)) (B64.Int mss) = Ok (o_window o).

(** An entry whose quotient by [rtt] exceeds [bound]: it closes the input
    loop. *)
Definition closes (rtt : B64.num) (bound : Z) (x : Q) : Prop :=
  exists q,
    B64.div (B64.Float (B64.of_Q x)) rtt = Ok q /\
    B64.ltb (B64.Int bound) q = true.

Fixpoint overrides_entries (ovs : list override) : tape :=
  match ovs with
  | [] => []
  | o :: r => o_time o :: inject_Z (o_value o) :: overrides_entries r
  end.

(** The window in force at step [i]: that of the last override entered
    whose step is at most [i], if any. *)
Fixpoint window_in_force (ovs : list override) (i : Z) : option B64.num :=
  match ovs with
  | [] => None
  | o :: r =>
      match window_in_force r i with
      | Some w => Some w
      | None => if o_step o <=? i then Some (o_window o) else None
      end
  end.

(** A loss interval as entered, with the steps [int(start / rtt)] and
    [int(end / rtt)] that [get_working_binary] computes for it. *)
Record interval := {
  i_start : Q;
  i_end : Q;
  i_first : Z;
  i_stop : Z
}.

Definition interval_read (rtt : B64.num) (iv : interval) : Prop :=
  exists q q',
    B64.div (B64.Float (B64.of_Q (i_start iv))) rtt = Ok q /\
    B64.ltb (B64.Int 100) q = false /\
    B64.int q = Ok (i_first iv) /\
    B64.div (B64.Float (B64.of_Q (i_end iv))) rtt = Ok q' /\
    B64.int q' = Ok (i_stop iv).

Fixpoint intervals_entries (ivs : list interval) : tape :=
  match ivs with
  | [] => []
  | iv :: r => i_start iv :: i_end iv :: intervals_entries r
  end.

(** Step [i] lies in one of the intervals. *)
Definition marked (ivs : list interval) (i : Z) : bool :=
  existsb (fun iv => (i_first iv <=? i) && (i <? i_stop iv)) ivs.

(** A round trip of 0.1 seconds. *)
Definition tenth : B64.num := B64.Float (S754_finite false 7205759403792794 (-56)).

(** Three overrides for segments of 2 kbyte and a round trip of 0.1 s:
    0.3 s (the quotient is 2.9999999999999996, step 2), 0.5 s (step 5) and
    then 0.4 s (step 4). *)
Definition overrides_tenth : list override :=
  [ {| o_time := 3 # 10; o_value := 8; o_step := 2;
       o_window := B64.Float (S754_finite false 4503599627370496 (-50)) |};
    {| o_time := 5 # 10; o_value := -1; o_step := 5;
       o_window := B64.Float (S754_finite true 4503599627370496 (-53)) |};
    {| o_time := 4 # 10; o_value := 6; o_step := 4;
       o_window := B64.Float (S754_finite false 6755399441055744 (-51)) |} ].

(** Three loss intervals for a round trip of 0.1 s: 0.3 s to 0.5 s (steps
    2 to 5), 0.4 s to 0.7 s (steps 4 to 6, the quotient of the end being
    6.999999999999999) and 0.9 s to 0.2 s (steps 9 to 2, empty). *)
Definition intervals_tenth : list interval :=
  [ {| i_start := 3 # 10; i_end := 5 # 10; i_first := 2; i_stop := 5 |};
    {| i_start := 4 # 10; i_end := 7 # 10; i_first := 4; i_stop := 6 |};
    {| i_start := 9 # 10; i_end := 2 # 10; i_first := 9; i_stop := 2 |} ].

(** The receiver window those overrides leave, from one segment at every
    step: 4.0 from step 2 and 3.0 from step 4. *)
Definition rcwnd64_after_overrides : list B64.num :=
  [B64.Int 1; B64.Int 1;
   B64.Float (S754_finite false 4503599627370496 (-50));
   B64.Float (S754_finite false 4503599627370496 (-50))]
  ++ replicate 61 (B64.Float (S754_finite false 6755399441055744 (-51))).

(** The schedule those intervals leave: steps 2 to 5 are lost. *)
Definition working_binary_after_intervals : list Z :=
  [0; 0; -1; -1; -1; -1] ++ replicate 59 0.
(** * Properties *)

(** ** The error monad *)

Lemma bind_ok {A B} (m : result A) (f : A -> result B) (b : B) :
  (m ≫= f) = Ok b -> exists a, m = Ok a /\ f a = Ok b.
Proof. destruct m as [a|e]; simpl; [eauto | discriminate]. Qed.

(** ** Python indexing *)

Lemma index_in_range (len : nat) (i : Z) :
  0 <= i < Z.of_nat len -> Py.index len i = Ok (Z.to_nat i).
Proof.
  intros H. unfold Py.index.
  destruct (Z.leb_spec 0 i), (Z.ltb_spec i (Z.of_nat len)); simpl; (reflexivity || lia).
Qed.

Lemma index_above (len : nat) (i : Z) :
  Z.of_nat len <= i -> Py.index len i = Raise IndexError.
Proof.
  intros H. unfold Py.index.
  destruct (Z.leb_spec 0 i), (Z.ltb_spec i (Z.of_nat len)),
    (Z.leb_spec (- Z.of_nat len) i), (Z.ltb_spec i 0); simpl; (reflexivity || lia).
Qed.

Lemma index_ok_lt (len : nat) (i : Z) (k : nat) :
  Py.index len i = Ok k -> (k < len)%nat.
Proof.
  unfold Py.index.
  destruct (Z.leb_spec 0 i), (Z.ltb_spec i (Z.of_nat len)),
    (Z.leb_spec (- Z.of_nat len) i), (Z.ltb_spec i 0); simpl;
    intros [= <-]; lia.
Qed.

Lemma get_in_range {A} (l : list A) (i : Z) (x : A) :
  0 <= i -> l !! Z.to_nat i = Some x -> Py.get l i = Ok x.
Proof.
  intros Hi Hx. unfold Py.get.
  rewrite index_in_range; [simpl; now rewrite Hx |].
  apply lookup_lt_Some in Hx. lia.
Qed.

Lemma get_above {A} (l : list A) (i : Z) :
  Z.of_nat (length l) <= i -> Py.get l i = Raise IndexError.
Proof. intros H. unfold Py.get. now rewrite index_above. Qed.

Lemma set_in_range {A} (l : list A) (i : Z) (x : A) :
  0 <= i < Z.of_nat (length l) -> Py.set l i x = Ok (<[Z.to_nat i := x]> l).
Proof. intros H. unfold Py.set. now rewrite index_in_range. Qed.

Lemma set_above {A} (l : list A) (i : Z) (x : A) :
  Z.of_nat (length l) <= i -> Py.set l i x = Raise IndexError.
Proof. intros H. unfold Py.set. now rewrite index_above. Qed.

Lemma set_length {A} (l l' : list A) (i : Z) (x : A) :
  Py.set l i x = Ok l' -> length l' = length l.
Proof.
  unfold Py.set. intros H. apply bind_ok in H as (k & _ & [= <-]).
  apply length_insert.
Qed.

Lemma lookup_in_range {A} (l : list A) (i : Z) :
  0 <= i < Z.of_nat (length l) -> exists x, l !! Z.to_nat i = Some x.
Proof.
  intros H. destruct (lookup_lt_is_Some_2 l (Z.to_nat i)) as [x Hx]; [lia | eauto].
Qed.

Lemma fill_from_length {A} (k : nat) (v : A) (l : list A) :
  length (Py.fill_from k v l) = length l.
Proof.
  unfold Py.fill_from. rewrite length_app, length_take, length_replicate. lia.
Qed.

Lemma fill_from_lookup_lt {A} (k i : nat) (v : A) (l : list A) :
  (i < k)%nat -> Py.fill_from k v l !! i = l !! i.
Proof.
  intros H. unfold Py.fill_from.
  destruct (Nat.lt_ge_cases i (length l)).
  - rewrite lookup_app_l by (rewrite length_take; lia). now apply lookup_take_lt.
  - rewrite (lookup_ge_None_2 l) by lia. apply lookup_ge_None_2.
    rewrite length_app, length_take, length_replicate. lia.
Qed.

Lemma fill_from_lookup_ge {A} (k i : nat) (v : A) (l : list A) :
  (k <= i < length l)%nat -> Py.fill_from k v l !! i = Some v.
Proof.
  intros H. unfold Py.fill_from.
  rewrite lookup_app_r by (rewrite length_take; lia).
  apply lookup_replicate_2. rewrite length_take. lia.
Qed.

Lemma fill_from_insert {A} (k : nat) (v : A) (l : list A) :
  (k < length l)%nat -> Py.fill_from (S k) v (<[k := v]> l) = Py.fill_from k v l.
Proof.
  intros H. apply list_eq. intros i.
  destruct (Nat.lt_ge_cases i (length l)) as [Hi|Hi].
  - destruct (Nat.lt_ge_cases i k).
    + rewrite !fill_from_lookup_lt by lia. apply list_lookup_insert_ne. lia.
    + rewrite (fill_from_lookup_ge k) by lia.
      destruct (Nat.eq_dec i k) as [->|].
      * rewrite fill_from_lookup_lt by lia. now apply list_lookup_insert_eq.
      * apply fill_from_lookup_ge. rewrite length_insert. lia.
  - rewrite !lookup_ge_None_2; auto; rewrite fill_from_length, ?length_insert; lia.
Qed.

Lemma fill_from_all {A} (k : nat) (v : A) (l : list A) :
  (length l <= k)%nat -> Py.fill_from k v l = l.
Proof.
  intros H. unfold Py.fill_from. rewrite take_ge by lia.
  replace (length l - k)%nat with 0%nat by lia. apply app_nil_r.
Qed.

Lemma for_loop_fill {A} (n : nat) (k : nat) (v : A) (l : list A) :
  (k + n = length l)%nat ->
  Py.for_loop n (Z.of_nat k) (fun x s => Py.set s x v) l = Ok (Py.fill_from k v l).
Proof.
  revert k l. induction n as [|n IH]; intros k l H; simpl.
  - now rewrite fill_from_all by lia.
  - rewrite set_in_range by lia. simpl. rewrite Nat2Z.id.
    replace (Z.of_nat k + 1) with (Z.of_nat (S k)) by lia.
    rewrite IH by (rewrite length_insert; lia).
    f_equal. apply fill_from_insert. lia.
Qed.

Lemma for_range_fill {A} (lo : Z) (v : A) (l : list A) :
  0 <= lo <= Z.of_nat (length l) ->
  Py.for_range lo (Z.of_nat (length l)) (fun x s => Py.set s x v) l
  = Ok (Py.fill_from (Z.to_nat lo) v l).
Proof.
  intros H. unfold Py.for_range.
  replace lo with (Z.of_nat (Z.to_nat lo)) at 2 by lia.
  apply for_loop_fill. lia.
Qed.

(** ** Python numbers *)

Lemma ltb_lt (a b : Q) : Py.ltb a b = true <-> (a < b)%Q.
Proof. unfold Py.ltb, Qlt. apply Z.ltb_lt. Qed.

Lemma ltb_ge (a b : Q) : Py.ltb a b = false <-> (b <= a)%Q.
Proof. unfold Py.ltb, Qle. apply Z.ltb_ge. Qed.

Lemma eqb_eq (a b : Q) : Py.eqb a b = true <-> (a == b)%Q.
Proof. apply Qeq_bool_iff. Qed.

Lemma add_eq (a b : Q) : (Py.add a b == a + b)%Q.
Proof. apply Qred_correct. Qed.

Lemma sub_eq (a b : Q) : (Py.sub a b == a - b)%Q.
Proof. apply Qred_correct. Qed.

Lemma div_ok (a b : Q) :
  ~ (b == 0)%Q -> exists q, Py.div a b = Ok q /\ (q == a / b)%Q.
Proof.
  intros H. unfold Py.div. destruct (Py.eqb b 0) eqn:E.
  - apply eqb_eq in E. contradiction.
  - eexists; split; [reflexivity | apply Qred_correct].
Qed.

Lemma int_floor (x : Q) : (0 <= x)%Q -> Py.int x = Py.floor x.
Proof.
  intros H. unfold Py.int, Py.floor, Qfloor. destruct x as [n d]; simpl.
  unfold Qle in H; simpl in H. apply Z.quot_div_nonneg; lia.
Qed.

Lemma int_inject (z : Z) : Py.int (inject_Z z) = z.
Proof. unfold Py.int; simpl. apply Z.quot_1_r. Qed.

Lemma int_nonneg (x : Q) : (0 <= x)%Q -> 0 <= Py.int x.
Proof.
  intros H. rewrite int_floor by assumption. unfold Py.floor.
  rewrite <- (Qfloor_Z 0). now apply Qfloor_resp_le.
Qed.

Lemma int_le (x : Q) : (0 <= x)%Q -> (inject_Z (Py.int x) <= x)%Q.
Proof. intros H. rewrite int_floor by assumption. apply Qfloor_le. Qed.

Lemma int_small (x : Q) : (0 <= x)%Q -> (x < 1)%Q -> Py.int x = 0.
Proof.
  intros H0 H1. rewrite int_floor by assumption. unfold Py.floor.
  pose proof (Qfloor_le x) as Hl. pose proof (Qlt_floor x) as Hu.
  assert (inject_Z (Qfloor x) < inject_Z 1)%Q as A by (change (inject_Z 1) with 1%Q; lra).
  assert (inject_Z 0 < inject_Z (Qfloor x + 1))%Q as B by (change (inject_Z 0) with 0%Q; lra).
  rewrite <- Zlt_Qlt in A, B. lia.
Qed.

Lemma int_ge_1 (x : Q) : (1 <= x)%Q -> 1 <= Py.int x.
Proof.
  intros H. rewrite int_floor by lra. unfold Py.floor.
  rewrite <- (Qfloor_Z 1). now apply Qfloor_resp_le.
Qed.

Lemma min_spec (a b : Z) : Py.min a b = Z.min a b.
Proof. unfold Py.min. destruct (Z.ltb_spec b a); lia. Qed.

Lemma max_ge_l (a b : Q) : (a <= Py.max a b)%Q.
Proof.
  unfold Py.max. destruct (Py.ltb a b) eqn:E; [apply ltb_lt in E; lra | lra].
Qed.

Lemma max_ge_r (a b : Q) : (b <= Py.max a b)%Q.
Proof.
  unfold Py.max. destruct (Py.ltb a b) eqn:E; [lra | apply ltb_ge in E; lra].
Qed.

Lemma max_cases (a b : Q) : Py.max a b = a \/ Py.max a b = b.
Proof. unfold Py.max. destruct (Py.ltb a b); auto. Qed.

(** *** Rounding *)

(** Turns hypotheses on [Qcompare] into order facts. *)
Ltac qcompare :=
  repeat match goal with
  | H : (_ ?= _)%Q = Eq |- _ => apply <- Qeq_alt in H
  | H : (_ ?= _)%Q = Lt |- _ => apply <- Qlt_alt in H
  | H : (_ ?= _)%Q = Gt |- _ => apply <- Qgt_alt in H
  end.

Lemma round_half_even_bounds (y : Q) :
  Qfloor y <= Py.round_half_even y <= Qfloor y + 1.
Proof.
  unfold Py.round_half_even.
  destruct (y - inject_Z (Qfloor y) ?= 1 # 2)%Q; [destruct (Z.even _) | |]; lia.
Qed.

Lemma round_half_even_comp (x y : Q) :
  (x == y)%Q -> Py.round_half_even x = Py.round_half_even y.
Proof.
  intros H. unfold Py.round_half_even.
  rewrite (Qfloor_comp x y H).
  assert (x - inject_Z (Qfloor y) == y - inject_Z (Qfloor y))%Q as E by (rewrite H; reflexivity).
  now rewrite (Qcompare_comp _ _ E _ _ (Qeq_refl (1 # 2))).
Qed.

Lemma round_half_even_Z (k : Z) : Py.round_half_even (inject_Z k) = k.
Proof.
  unfold Py.round_half_even. rewrite Qfloor_Z.
  destruct (inject_Z k - inject_Z k ?= 1 # 2)%Q eqn:C;
    [qcompare; lra | reflexivity | qcompare; lra].
Qed.

Lemma round_half_even_mono (x y : Q) :
  (x <= y)%Q -> Py.round_half_even x <= Py.round_half_even y.
Proof.
  intros H. pose proof (Qfloor_resp_le x y H) as Hf.
  pose proof (round_half_even_bounds x). pose proof (round_half_even_bounds y).
  destruct (Z.eq_dec (Qfloor x) (Qfloor y)) as [E|]; [| lia].
  unfold Py.round_half_even. rewrite E.
  destruct (x - inject_Z (Qfloor y) ?= 1 # 2)%Q eqn:Cx;
    destruct (y - inject_Z (Qfloor y) ?= 1 # 2)%Q eqn:Cy;
    try (destruct (Z.even (Qfloor y))); try lia; exfalso; qcompare; lra.
Qed.

Lemma round2_eq (x : Q) :
  (Py.round2 x == inject_Z (Py.round_half_even (x * 100)) * (1 # 100))%Q.
Proof.
  unfold Py.round2. rewrite Qred_correct, Qmake_Qdiv. field.
Qed.

Lemma round2_mono (x y : Q) : (x <= y)%Q -> (Py.round2 x <= Py.round2 y)%Q.
Proof.
  intros H. rewrite !round2_eq.
  assert (Py.round_half_even (x * 100) <= Py.round_half_even (y * 100)) as M
    by (apply round_half_even_mono; lra).
  rewrite Zle_Qle in M. lra.
Qed.

Lemma round2_cent (x : Q) : cent (Py.round2 x).
Proof. eexists. apply round2_eq. Qed.

Lemma round2_fix (x : Q) : cent x -> (Py.round2 x == x)%Q.
Proof.
  intros [k Hk]. rewrite round2_eq.
  rewrite (round_half_even_comp (x * 100) (inject_Z k)).
  - rewrite round_half_even_Z. now symmetry.
  - rewrite Hk. field.
Qed.

Lemma cent_Z (k : Z) : cent (inject_Z k).
Proof.
  exists (k * 100). rewrite inject_Z_mult. field.
Qed.

Lemma round2_ge (c x : Q) : cent c -> (c <= x)%Q -> (c <= Py.round2 x)%Q.
Proof.
  intros Hc H. rewrite <- (round2_fix c Hc). now apply round2_mono.
Qed.

(** ** [update_cwnd] as a function of four values *)

Lemma get_set_same {A} (l : list A) (i : Z) (x : A) :
  0 <= i < Z.of_nat (length l) -> Py.get (<[Z.to_nat i := x]> l) i = Ok x.
Proof.
  intros H. apply get_in_range; [lia |]. apply list_lookup_insert_eq. lia.
Qed.

(** Resolves reads and writes at an index known to be in range. *)
Ltac len := rewrite ?length_insert; lia.
Ltac bnd := cbn [mbind result_bind].
Ltac py_step :=
  first [ rewrite get_set_same by len
        | rewrite set_in_range by len
        | rewrite list_insert_insert_eq ]; bnd.

Lemma ack_increment_eq (t : Z) (ssthresh cwnd : list Q) (cw ss : Q) :
  0 <= t ->
  cwnd !! Z.to_nat t = Some cw ->
  ssthresh !! Z.to_nat t = Some ss ->
  ack_increment t ssthresh cwnd
  = (v ← grow_once ss cw; Ok (<[Z.to_nat t := v]> cwnd)).
Proof.
  intros Ht Hc Hs. unfold ack_increment, grow_once.
  rewrite (get_in_range _ _ _ Ht Hc), (get_in_range _ _ _ Ht Hs). simpl.
  assert (0 <= t < Z.of_nat (length cwnd)) as R
    by (apply lookup_lt_Some in Hc; lia).
  destruct (Py.ltb cw ss).
  - now rewrite set_in_range.
  - destruct (Py.div 1 cw); simpl; [now rewrite set_in_range | reflexivity].
Qed.

Lemma repeat_ack_eq (n : nat) (i t : Z) (ssthresh cwnd : list Q) (cw ss : Q) :
  0 <= t ->
  cwnd !! Z.to_nat t = Some cw ->
  ssthresh !! Z.to_nat t = Some ss ->
  Py.for_loop n i (fun _ => ack_increment t ssthresh) cwnd
  = (v ← grow n ss cw; Ok (<[Z.to_nat t := v]> cwnd)).
Proof.
  intros Ht. revert i cwnd cw. induction n as [|n IH]; intros i cwnd cw Hc Hs; simpl.
  - now rewrite list_insert_id.
  - rewrite (ack_increment_eq _ _ _ _ _ Ht Hc Hs).
    destruct (grow_once ss cw) as [v1|e]; simpl; [| reflexivity].
    rewrite (IH _ _ v1); [| apply list_lookup_insert_eq; now apply lookup_lt_Some in Hc | assumption].
    destruct (grow n ss v1); simpl; [| reflexivity].
    now rewrite list_insert_insert_eq.
Qed.

Lemma update_cwnd_eq (cwnd : list Q) (t : Z) (sndwnd : list Z)
    (ssthresh rcwnd : list Q) (prev : Q) (acks : Z) (ss rc : Q) :
  1 <= t < Z.of_nat (length cwnd) ->
  t < Z.of_nat (length sndwnd) ->
  cwnd !! Z.to_nat (t - 1) = Some prev ->
  sndwnd !! Z.to_nat (t - 1) = Some acks ->
  ssthresh !! Z.to_nat t = Some ss ->
  rcwnd !! Z.to_nat t = Some rc ->
  update_cwnd cwnd t sndwnd ssthresh rcwnd
  = ('(v, sw) ← next_window prev acks ss rc;
     Ok (<[Z.to_nat t := v]> cwnd, <[Z.to_nat t := sw]> sndwnd, v)).
Proof.
  intros Ht Hts Hp Ha Hs Hr. unfold update_cwnd, next_window, Py.repeat_n, Py.for_range.
  assert (0 <= t - 1) as Ht1 by lia. assert (0 <= t) as Ht0 by lia.
  rewrite (get_in_range _ _ _ Ht1 Hp). simpl.
  rewrite set_in_range by lia. simpl.
  rewrite (get_in_range _ _ _ Ht1 Ha). simpl.
  rewrite (repeat_ack_eq _ _ t ssthresh _ prev ss); try assumption; try lia;
    [| apply list_lookup_insert_eq; lia].
  rewrite Z.sub_0_r.
  destruct (grow (Z.to_nat acks) ss prev) as [g|e]; simpl; [| reflexivity].
  rewrite list_insert_insert_eq.
  rewrite (get_in_range _ _ _ Ht0 Hr). simpl.
  repeat py_step.
  fold (tie_break (Py.min (Py.int rc) (Py.int g)) g). unfold tie_break.
  destruct ((Py.min (Py.int rc) (Py.int g) =? Py.int g) && _); simpl;
    repeat py_step; reflexivity.
Qed.

(** ** One pass of the simulation loop *)

Section Pass.

Variable total_data : Z.
Variable total_packets : Q.
Variable rcwnd : list Q.
Variable working_binary : list Z.

Hypothesis rcwnd_length : length rcwnd = 65%nat.
Hypothesis working_binary_length : length working_binary = 65%nat.

Local Abbreviation body := (loop_body total_data total_packets rcwnd working_binary).
Local Abbreviation cond := (loop_cond total_packets).

Lemma loop_cond_true (st : sim_state) :
  cond st = true <->
  (inject_Z (total_sent st) < total_packets)%Q /\ t st < 65.
Proof.
  unfold loop_cond. rewrite andb_true_iff, ltb_lt, Z.ltb_lt. reflexivity.
Qed.

(** A normal step that completes the transfer leaves through [break]. *)
Lemma loop_body_break (st : sim_state) (rc cw : Q) :
  wf st -> t st < 65 ->
  rcwnd !! Z.to_nat (t st) = Some rc ->
  cwnd st !! Z.to_nat (t st) = Some cw ->
  working_binary !! Z.to_nat (t st) = Some 0 ->
  let sw := send_window rc cw in
  let fl := flight total_packets st sw in
  Py.eqb (inject_Z (total_sent st + fl)) total_packets = true ->
  body st =
  Ok ({| cwnd := cwnd st; sndwnd := <[Z.to_nat (t st) := sw]> (sndwnd st);
         ssthresh := ssthresh st; back_off := 2;
         total_sent := total_sent st + fl; t := t st; flight_size := fl |},
      Break).
Proof.
  intros (Hc & Hs & Hss & Ht) Hlt Hrc Hcw Hwb sw fl Heq.
  unfold loop_body.
  rewrite (get_in_range _ _ _ Ht Hrc), (get_in_range _ _ _ Ht Hcw). bnd.
  rewrite (set_in_range (sndwnd st) (t st)) by lia. bnd.
  rewrite (get_set_same (sndwnd st) (t st)) by lia. bnd.
  rewrite (get_in_range _ _ _ Ht Hwb). bnd.
  fold (send_window rc cw). fold sw. fold (flight total_packets st sw). fold fl.
  now rewrite Heq.
Qed.

(** A normal step that does not complete the transfer calls
    [update_cwnd] for the next step. *)
Lemma loop_body_normal (st : sim_state) (rc cw ss1 rc1 : Q) :
  wf st -> t st < 64 ->
  rcwnd !! Z.to_nat (t st) = Some rc ->
  cwnd st !! Z.to_nat (t st) = Some cw ->
  working_binary !! Z.to_nat (t st) = Some 0 ->
  ssthresh st !! Z.to_nat (t st + 1) = Some ss1 ->
  rcwnd !! Z.to_nat (t st + 1) = Some rc1 ->
  let sw := send_window rc cw in
  let fl := flight total_packets st sw in
  Py.eqb (inject_Z (total_sent st + fl)) total_packets = false ->
  body st =
  ('(v, sw1) ← next_window cw sw ss1 rc1;
   Ok ({| cwnd := <[Z.to_nat (t st + 1) := v]> (cwnd st);
          sndwnd := <[Z.to_nat (t st + 1) := sw1]>
                      (<[Z.to_nat (t st) := sw]> (sndwnd st));
          ssthresh := ssthresh st; back_off := 2;
          total_sent := total_sent st + fl; t := t st + 1;
          flight_size := fl |}, Next)).
Proof.
  intros (Hc & Hs & Hss & Ht) Hlt Hrc Hcw Hwb Hss1 Hrc1 sw fl Heq.
  unfold loop_body.
  rewrite (get_in_range _ _ _ Ht Hrc), (get_in_range _ _ _ Ht Hcw). bnd.
  rewrite (set_in_range (sndwnd st) (t st)) by lia. bnd.
  rewrite (get_set_same (sndwnd st) (t st)) by lia. bnd.
  rewrite (get_in_range _ _ _ Ht Hwb). bnd.
  fold (send_window rc cw). fold sw. fold (flight total_packets st sw). fold fl.
  rewrite Heq.
  rewrite (update_cwnd_eq _ _ _ _ _ cw sw ss1 rc1); try assumption; try len.
  - destruct (next_window cw sw ss1 rc1) as [[v sw1]|e]; simpl; [| reflexivity].
    repeat py_step. reflexivity.
  - replace (t st + 1 - 1) with (t st) by lia. assumption.
  - replace (t st + 1 - 1) with (t st) by lia.
    apply list_lookup_insert_eq. lia.
Qed.

(** A normal step at the last index calls [update_cwnd] with [t = 65]. *)
Lemma loop_body_normal_last (st : sim_state) (rc cw : Q) :
  wf st -> t st = 64 ->
  rcwnd !! Z.to_nat (t st) = Some rc ->
  cwnd st !! Z.to_nat (t st) = Some cw ->
  working_binary !! Z.to_nat (t st) = Some 0 ->
  let sw := send_window rc cw in
  let fl := flight total_packets st sw in
  Py.eqb (inject_Z (total_sent st + fl)) total_packets = false ->
  body st = Raise IndexError.
Proof.
  intros (Hc & Hs & Hss & Ht) Hlt Hrc Hcw Hwb sw fl Heq.
  unfold loop_body.
  rewrite (get_in_range _ _ _ Ht Hrc), (get_in_range _ _ _ Ht Hcw). bnd.
  rewrite (set_in_range (sndwnd st) (t st)) by lia. bnd.
  rewrite (get_set_same (sndwnd st) (t st)) by lia. bnd.
  rewrite (get_in_range _ _ _ Ht Hwb). bnd.
  fold (send_window rc cw). fold sw. fold (flight total_packets st sw). fold fl.
  rewrite Heq. unfold update_cwnd.
  replace (t st + 1 - 1) with (t st) by lia.
  rewrite (get_in_range _ _ _ Ht Hcw). bnd.
  rewrite set_above by lia. reflexivity.
Qed.

(** A loss step whose skip stays inside the arrays. *)
Lemma loop_body_loss (st : sim_state) (rc cw : Q) (sw1 : Z) :
  wf st -> t st < 65 -> 0 <= back_off st -> t st + back_off st < 65 ->
  rcwnd !! Z.to_nat (t st) = Some rc ->
  cwnd st !! Z.to_nat (t st) = Some cw ->
  working_binary !! Z.to_nat (t st) = Some (-1) ->
  let sw := send_window rc cw in
  let fl := flight total_packets st sw in
  let t1 := t st + back_off st in
  <[Z.to_nat (t st) := sw]> (sndwnd st) !! Z.to_nat t1 = Some sw1 ->
  body st =
  Ok ({| cwnd := <[Z.to_nat t1 := 1%Q]> (cwnd st);
         sndwnd := <[Z.to_nat (t st) := sw]> (sndwnd st);
         ssthresh := Py.fill_from (Z.to_nat t1) (revised_ssthresh fl) (ssthresh st);
         back_off := back_off st * 2; total_sent := total_sent st; t := t1;
         flight_size := Py.min sw1 (total_data - total_sent st) |}, Next).
Proof.
  intros (Hc & Hs & Hss & Ht) Hlt Hb Hlt1 Hrc Hcw Hwb sw fl t1 Hsw1.
  unfold loop_body.
  rewrite (get_in_range _ _ _ Ht Hrc), (get_in_range _ _ _ Ht Hcw). bnd.
  rewrite (set_in_range (sndwnd st) (t st)) by lia. bnd.
  rewrite (get_set_same (sndwnd st) (t st)) by lia. bnd.
  rewrite (get_in_range _ _ _ Ht Hwb). bnd.
  fold (send_window rc cw). fold sw. fold (flight total_packets st sw). fold fl.
  fold t1. fold (revised_ssthresh fl).
  rewrite set_in_range by (subst t1; lia). bnd.
  replace 65 with (Z.of_nat (length (ssthresh st))) by lia.
  rewrite for_range_fill by (subst t1; lia). bnd.
  assert (0 <= t1) as Ht1 by (subst t1; lia).
  rewrite (get_in_range _ _ _ Ht1 Hsw1). reflexivity.
Qed.

(** A loss step whose skip leaves the arrays. *)
Lemma loop_body_loss_over (st : sim_state) (rc cw : Q) :
  wf st -> t st < 65 -> 65 <= t st + back_off st ->
  rcwnd !! Z.to_nat (t st) = Some rc ->
  cwnd st !! Z.to_nat (t st) = Some cw ->
  working_binary !! Z.to_nat (t st) = Some (-1) ->
  body st = Raise IndexError.
Proof.
  intros (Hc & Hs & Hss & Ht) Hlt Hover Hrc Hcw Hwb.
  unfold loop_body.
  rewrite (get_in_range _ _ _ Ht Hrc), (get_in_range _ _ _ Ht Hcw). bnd.
  rewrite (set_in_range (sndwnd st) (t st)) by lia. bnd.
  rewrite (get_set_same (sndwnd st) (t st)) by lia. bnd.
  rewrite (get_in_range _ _ _ Ht Hwb). bnd.
  rewrite set_above by lia. reflexivity.
Qed.

End Pass.

Section PassSteps.

Variable total_data : Z.
Variable total_packets : Q.
Variable rcwnd : list Q.
Variable working_binary : list Z.

Hypothesis rcwnd_length : length rcwnd = 65%nat.
Hypothesis working_binary_length : length working_binary = 65%nat.

Local Abbreviation body := (loop_body total_data total_packets rcwnd working_binary).
Local Abbreviation step' := (step total_data total_packets rcwnd working_binary).

Lemma loop_body_idle (st : sim_state) (rc cw : Q) (wb : Z) :
  wf st -> t st < 65 ->
  rcwnd !! Z.to_nat (t st) = Some rc ->
  cwnd st !! Z.to_nat (t st) = Some cw ->
  working_binary !! Z.to_nat (t st) = Some wb ->
  wb <> 0 -> wb <> -1 ->
  body st =
  Ok ({| cwnd := cwnd st;
         sndwnd := <[Z.to_nat (t st) := send_window rc cw]> (sndwnd st);
         ssthresh := ssthresh st; back_off := back_off st;
         total_sent := total_sent st; t := t st;
         flight_size := flight total_packets st (send_window rc cw) |}, Next).
Proof.
  intros (Hc & Hs & Hss & Ht) Hlt Hrc Hcw Hwb H0 H1.
  unfold loop_body.
  rewrite (get_in_range _ _ _ Ht Hrc), (get_in_range _ _ _ Ht Hcw). bnd.
  rewrite (set_in_range (sndwnd st) (t st)) by lia. bnd.
  rewrite (get_set_same (sndwnd st) (t st)) by lia. bnd.
  rewrite (get_in_range _ _ _ Ht Hwb). bnd.
  destruct (Z.eqb_spec wb 0); [contradiction |].
  destruct (Z.eqb_spec wb (-1)); [contradiction |]. reflexivity.
Qed.

(** Every pass that returns follows one of the four rules. *)
Lemma loop_body_step (st st' : sim_state) (f : flow) :
  wf st -> 0 <= back_off st -> t st < 65 ->
  body st = Ok (st', f) -> step' st st' f.
Proof.
  intros Hwf Hb Hlt Hbody.
  pose proof Hwf as (Hc & Hs & Hss & Ht).
  destruct (lookup_in_range rcwnd (t st)) as [rc Hrc]; [lia |].
  destruct (lookup_in_range (cwnd st) (t st)) as [cw Hcw]; [lia |].
  destruct (lookup_in_range working_binary (t st)) as [wb Hwb]; [lia |].
  destruct (Z.eq_dec wb 0) as [-> | Hn0].
  - destruct (Py.eqb (inject_Z (total_sent st
               + flight total_packets st (send_window rc cw))) total_packets) eqn:E.
    + rewrite (loop_body_break _ _ _ _ rcwnd_length working_binary_length
                 st rc cw Hwf Hlt Hrc Hcw Hwb E) in Hbody.
      injection Hbody as <- <-. now apply (step_break _ _ _ _ _ rc cw).
    + destruct (Z.eq_dec (t st) 64) as [E64 | N64].
      * rewrite (loop_body_normal_last _ _ _ _ rcwnd_length working_binary_length
                   st rc cw Hwf E64 Hrc Hcw Hwb E) in Hbody. discriminate.
      * destruct (lookup_in_range rcwnd (t st + 1)) as [rc1 Hrc1]; [lia |].
        destruct (lookup_in_range (ssthresh st) (t st + 1)) as [ss1 Hss1]; [lia |].
        rewrite (loop_body_normal _ _ _ _ rcwnd_length working_binary_length
                   st rc cw ss1 rc1 Hwf ltac:(lia) Hrc Hcw Hwb Hss1 Hrc1 E) in Hbody.
        destruct (next_window cw (send_window rc cw) ss1 rc1) as [[v sw1]|e] eqn:W;
          [| discriminate].
        cbn [mbind result_bind] in Hbody. injection Hbody as <- <-.
        apply (step_normal _ _ _ _ _ rc cw ss1 rc1 v sw1); auto. lia.
  - destruct (Z.eq_dec wb (-1)) as [-> | Hn1].
    + destruct (Z_lt_le_dec (t st + back_off st) 65) as [Hin | Hout].
      * destruct (lookup_in_range
                    (<[Z.to_nat (t st) := send_window rc cw]> (sndwnd st))
                    (t st + back_off st)) as [sw1 Hsw1]; [len |].
        rewrite (loop_body_loss _ _ _ _ rcwnd_length working_binary_length
                   st rc cw sw1 Hwf Hlt Hb Hin Hrc Hcw Hwb Hsw1) in Hbody.
        injection Hbody as <- <-. now apply (step_loss _ _ _ _ _ rc cw sw1).
      * rewrite (loop_body_loss_over _ _ _ _ rcwnd_length working_binary_length
                   st rc cw Hwf Hlt Hout Hrc Hcw Hwb) in Hbody. discriminate.
    + rewrite (loop_body_idle st rc cw wb Hwf Hlt Hrc Hcw Hwb Hn0 Hn1) in Hbody.
      injection Hbody as <- <-. now apply (step_idle _ _ _ _ _ rc cw wb).
Qed.

End PassSteps.

(** ** Growth of the window inside [update_cwnd] *)

Lemma grow_once_ok (ss cw : Q) :
  (0 < cw)%Q -> exists cw', grow_once ss cw = Ok cw' /\ (cw <= cw')%Q.
Proof.
  intros H. unfold grow_once. destruct (Py.ltb cw ss).
  - eexists; split; [reflexivity |]. rewrite add_eq. lra.
  - destruct (div_ok 1 cw) as (q & -> & Hq); [lra |].
    eexists; split; [reflexivity |]. cbn [mbind result_bind].
    rewrite add_eq, Hq.
    assert (0 < / cw)%Q by now apply Qinv_lt_0_compat.
    unfold Qdiv. lra.
Qed.

Lemma grow_ok (n : nat) (ss cw : Q) :
  (0 < cw)%Q -> exists g, grow n ss cw = Ok g /\ (cw <= g)%Q.
Proof.
  revert cw. induction n as [|n IH]; intros cw H; simpl.
  - exists cw; split; [reflexivity | lra].
  - destruct (grow_once_ok ss cw H) as (cw' & -> & Hle). cbn [mbind result_bind].
    destruct (IH cw') as (g & -> & Hg); [lra |].
    exists g; split; [reflexivity | lra].
Qed.

Lemma tie_break_ge (sw : Z) (g : Q) : (g <= tie_break sw g)%Q.
Proof.
  unfold tie_break. destruct (_ && _); [apply Qle_ceiling | lra].
Qed.

(** [update_cwnd] never lowers the window it starts from. *)
Lemma next_window_ok (prev : Q) (acks : Z) (ss rc : Q) :
  (1 <= prev)%Q -> cent prev ->
  exists v sw, next_window prev acks ss rc = Ok (v, sw) /\
               (prev <= v)%Q /\ cent v.
Proof.
  intros H1 Hc. unfold next_window.
  destruct (grow_ok (Z.to_nat acks) ss prev) as (g & -> & Hg); [lra |].
  cbn [mbind result_bind]. do 2 eexists. split; [reflexivity |]. split.
  - apply round2_ge; [assumption |].
    pose proof (tie_break_ge (Py.min (Py.int rc) (Py.int g)) g). lra.
  - apply round2_cent.
Qed.

Lemma next_window_inv (prev : Q) (acks : Z) (ss rc v : Q) (sw : Z) :
  (1 <= prev)%Q -> cent prev ->
  next_window prev acks ss rc = Ok (v, sw) ->
  (prev <= v)%Q /\ cent v.
Proof.
  intros H1 Hc E.
  destruct (next_window_ok prev acks ss rc H1 Hc) as (v' & sw' & E' & H).
  rewrite E in E'. now injection E' as -> ->.
Qed.

Lemma cent_1 : cent 1.
Proof. apply (cent_Z 1). Qed.

(** ** Runs of the loop *)

Ltac proj := cbn [cwnd sndwnd ssthresh back_off total_sent t flight_size].

Lemma good_init (ss0 : list Q) :
  length ss0 = 65%nat -> good (init_state ss0).
Proof.
  intros H. unfold good, wf, init_state; proj.
  rewrite !length_replicate.
  repeat split; try reflexivity; try lia; try assumption.
  - apply Forall_replicate. lra.
  - apply Forall_replicate. apply cent_1.
Qed.

Section Run.

Variable total_data : Z.
Variable total_packets : Q.
Variable rcwnd : list Q.
Variable working_binary : list Z.

Hypothesis rcwnd_length : length rcwnd = 65%nat.
Hypothesis working_binary_length : length working_binary = 65%nat.

Local Abbreviation body := (loop_body total_data total_packets rcwnd working_binary).
Local Abbreviation cond := (loop_cond total_packets).
Local Abbreviation loop := (while_loop total_data total_packets rcwnd working_binary).
Local Abbreviation step' := (step total_data total_packets rcwnd working_binary).

(** A property kept by every pass holds in every state the loop reaches. *)
Lemma while_loop_invariant (P : sim_state -> Prop) :
  (forall st st' f, P st -> cond st = true -> body st = Ok (st', f) -> P st') ->
  forall fuel st st' s, P st -> loop fuel st = Ok (st', s) -> P st'.
Proof.
  intros Hpass. induction fuel as [|fuel IH]; intros st st' s HP Hrun; simpl in Hrun.
  - now injection Hrun as <- <-.
  - destruct (cond st) eqn:C.
    + destruct (body st) as [[st1 f]|e] eqn:B; [| discriminate].
      cbn [mbind result_bind] in Hrun.
      specialize (Hpass _ _ _ HP C B).
      destruct f; [eauto | now injection Hrun as <- <-].
    + now injection Hrun as <- <-.
Qed.

(** Once an exception is raised, more fuel does not change the outcome. *)
Lemma while_loop_raise (n m : nat) (st : sim_state) (e : exn) :
  loop n st = Raise e -> loop (n + m) st = Raise e.
Proof.
  revert st. induction n as [|n IH]; intros st H; simpl in *; [discriminate |].
  destruct (cond st); [| discriminate].
  destruct (body st) as [[st1 f]|e1]; cbn [mbind result_bind] in *; [| assumption].
  destruct f; [now apply IH | discriminate].
Qed.

Lemma while_loop_exited (n m : nat) (st st' : sim_state) (x : exit) :
  loop n st = Ok (st', Exited x) -> loop (n + m) st = Ok (st', Exited x).
Proof.
  revert st. induction n as [|n IH]; intros st H; simpl in *; [discriminate |].
  destruct (cond st); [| assumption].
  destruct (body st) as [[st1 f]|e1]; cbn [mbind result_bind] in *; [| assumption].
  destruct f; [now apply IH | assumption].
Qed.

Lemma step_good (st st' : sim_state) (f : flow) :
  good st -> step' st st' f -> good st'.
Proof.
  intros ((Hc & Hs & Hss & Ht) & Hlt & Hb & H1 & Hcent) Hstep.
  destruct Hstep as
    [rc cw Hrc Hcw Hwb Heq
    | rc cw ss1 rc1 v sw1 Hlt64 Hrc Hcw Hwb Heq Hss1 Hrc1 Hnw
    | rc cw sw1 Hin Hrc Hcw Hwb Hsw1
    | rc cw wb Hrc Hcw Hwb Hn0 Hn1];
    unfold good, wf; proj;
    rewrite ?length_insert, ?fill_from_length;
    repeat split; try assumption; try lia.
  - destruct (next_window_inv cw _ ss1 rc1 v sw1
                (Forall_lookup_1 _ _ _ _ H1 Hcw)
                (Forall_lookup_1 _ _ _ _ Hcent Hcw) Hnw) as [Hle _].
    apply Forall_insert; [assumption |].
    pose proof (Forall_lookup_1 _ _ _ _ H1 Hcw) as Hcw1. simpl in Hcw1. lra.
  - destruct (next_window_inv cw _ ss1 rc1 v sw1
                (Forall_lookup_1 _ _ _ _ H1 Hcw)
                (Forall_lookup_1 _ _ _ _ Hcent Hcw) Hnw) as [_ Hcv].
    now apply Forall_insert.
  - apply Forall_insert; [assumption | lra].
  - apply Forall_insert; [assumption | apply cent_1].
Qed.

Lemma pass_good (st st' : sim_state) (f : flow) :
  good st -> body st = Ok (st', f) -> good st'.
Proof.
  intros Hg Hb. apply (step_good st st' f Hg).
  destruct Hg as (Hwf & Hlt & Hbo & _).
  apply loop_body_step; auto. lia.
Qed.

Lemma run_good (ss0 : list Q) (fuel : nat) (st : sim_state) (s : status) :
  length ss0 = 65%nat ->
  loop fuel (init_state ss0) = Ok (st, s) -> good st.
Proof.
  intros Hss Hrun.
  refine (while_loop_invariant good _ fuel _ st s (good_init ss0 Hss) Hrun).
  intros st0 st1 f Hg _ Hb. eapply pass_good; eauto.
Qed.

End Run.

(** * The claims *)

Section Backoff.

Variable total_data : Z.
Variable total_packets : Q.
Variable rcwnd : list Q.
Variable working_binary : list Z.

Hypothesis rcwnd_length : length rcwnd = 65%nat.
Hypothesis working_binary_length : length working_binary = 65%nat.

Local Abbreviation body := (loop_body total_data total_packets rcwnd working_binary).
Local Abbreviation step' := (step total_data total_packets rcwnd working_binary).

Lemma step_back_off (st st' : sim_state) (f : flow) :
  step' st st' f ->
  (working_binary !! Z.to_nat (t st) = Some 0 -> back_off st' = 2) /\
  (working_binary !! Z.to_nat (t st) = Some (-1) ->
   back_off st' = back_off st * 2).
Proof.
  intros Hstep.
  destruct Hstep as
    [rc cw Hrc Hcw Hwb Heq
    | rc cw ss1 rc1 v sw1 Hlt64 Hrc Hcw Hwb Heq Hss1 Hrc1 Hnw
    | rc cw sw1 Hin Hrc Hcw Hwb Hsw1
    | rc cw wb Hrc Hcw Hwb Hn0 Hn1];
    proj; split; intros E; rewrite E in Hwb; try reflexivity;
    injection Hwb; intros; lia.
Qed.

Lemma loss_run_good (st st' : sim_state) (k : nat) :
  good st ->
  loss_run total_data total_packets rcwnd working_binary st k st' ->
  good st' /\ back_off st' = back_off st * 2 ^ Z.of_nat k.
Proof.
  intros Hg Hrun. induction Hrun as [| k st1 st2 Hrun IH Hc Hwb Hb].
  - split; [assumption | simpl; lia].
  - destruct IH as [Hg1 Hbo].
    assert (step' st1 st2 Next) as Hstep.
    { destruct Hg1 as (Hwf & Hlt & Hb2 & _). apply loop_body_step; auto. lia. }
    split; [eapply step_good; eauto |].
    destruct (step_back_off _ _ _ Hstep) as [_ Hl].
    rewrite (Hl Hwb), Hbo, Nat2Z.inj_succ, Z.pow_succ_r by lia. lia.
Qed.

End Backoff.

(** C7. The backoff multiplier starts at 2; a pass over a normal step
    leaves it at 2, a pass over a lost step doubles it; hence [k] loss
    steps in a row multiply it by [2 ^ k] (2, 4, 8, ... after a normal
    step). *)
Theorem backoff_multiplier_rule
    (total_data : Z) (total_packets : Q) (rcwnd : list Q)
    (working_binary : list Z) (ssthresh0 : list Q)
    (fuel : nat) (st : sim_state) (s : status) :
  length rcwnd = 65%nat -> length working_binary = 65%nat ->
  length ssthresh0 = 65%nat ->
  while_loop total_data total_packets rcwnd working_binary fuel
    (init_state ssthresh0) = Ok (st, s) ->
  back_off (init_state ssthresh0) = 2 /\
  (forall st' f,
     loop_cond total_packets st = true ->
     loop_body total_data total_packets rcwnd working_binary st = Ok (st', f) ->
     (working_binary !! Z.to_nat (t st) = Some 0 -> back_off st' = 2) /\
     (working_binary !! Z.to_nat (t st) = Some (-1) ->
      back_off st' = back_off st * 2)) /\
  (forall k st',
     loss_run total_data total_packets rcwnd working_binary st k st' ->
     back_off st' = back_off st * 2 ^ Z.of_nat k).
Proof.
  intros Hrc Hwb Hss Hrun.
  pose proof (run_good _ _ _ _ Hrc Hwb _ _ _ _ Hss Hrun) as Hg.
  split; [reflexivity |]. split.
  - intros st' f Hc Hb. destruct Hg as (Hwf & Hlt & Hb2 & _).
    assert (step total_data total_packets rcwnd working_binary st st' f) as Hstep
      by (apply loop_body_step; auto; lia).
    eapply step_back_off; [.. | exact Hstep]; assumption.
  - intros k st' Hl.
    now destruct (loss_run_good _ _ _ _ Hrc Hwb _ _ _ Hg Hl).
Qed.

Lemma backoff_multiplier_rule_witness :
  back_off after_two_losses = 2 * 2 ^ 2.
Proof.
  refine (proj2 (proj2 (backoff_multiplier_rule 10 10 rcwnd_default all_lost
            (ssthresh_uniform 2) 0 _ Running eq_refl eq_refl eq_refl eq_refl))
          2%nat after_two_losses _).
  eapply loss_run_S; [eapply loss_run_S; [apply loss_run_0 | | |] | | |];
    try reflexivity.
Defined.

Section LossStep.

Variable total_data : Z.
Variable total_packets : Q.
Variable rcwnd : list Q.
Variable working_binary : list Z.

Local Abbreviation step' := (step total_data total_packets rcwnd working_binary).

(** Only a loss step writes the threshold array. *)
Lemma step_ssthresh_kept (st st' : sim_state) (f : flow) :
  step' st st' f ->
  working_binary !! Z.to_nat (t st) <> Some (-1) ->
  ssthresh st' = ssthresh st.
Proof.
  intros Hstep Hn.
  destruct Hstep as
    [rc cw Hrc Hcw Hwb Heq
    | rc cw ss1 rc1 v sw1 Hlt64 Hrc Hcw Hwb Heq Hss1 Hrc1 Hnw
    | rc cw sw1 Hin Hrc Hcw Hwb Hsw1
    | rc cw wb Hrc Hcw Hwb Hn0 Hn1]; proj; try reflexivity.
  contradiction.
Qed.

End LossStep.

(** [int()] truncates towards zero. *)
Lemma int_negate (x : Q) : Py.int (- x) = - Py.int x.
Proof.
  unfold Py.int. destruct x as [n d]. simpl. apply Z.quot_opp_l. discriminate.
Qed.

Lemma int_truncate (x : Q) : Py.int x = truncate x.
Proof.
  unfold truncate. destruct (Qle_bool 0 x) eqn:E.
  - apply Qle_bool_iff in E. now apply int_floor.
  - assert (x < 0)%Q as Hneg.
    { destruct (Qlt_le_dec x 0) as [|Hpos]; [assumption |].
      apply Qle_bool_iff in Hpos. congruence. }
    unfold Qceiling. change (Qfloor (- x)) with (Py.floor (- x)).
    rewrite <- (int_floor (- x)) by lra.
    rewrite int_negate. lia.
Qed.

Lemma truncate_comp (x y : Q) : (x == y)%Q -> truncate x = truncate y.
Proof.
  intros E. unfold truncate.
  destruct (Qle_bool 0 x) eqn:Ex, (Qle_bool 0 y) eqn:Ey.
  - now apply Qfloor_comp.
  - apply Qle_bool_iff in Ex. rewrite E in Ex. apply Qle_bool_iff in Ex. congruence.
  - apply Qle_bool_iff in Ey. rewrite <- E in Ey. apply Qle_bool_iff in Ey. congruence.
  - now apply Qceiling_comp.
Qed.

(** The flight size of a pass, with [min] and truncation written out. *)
Lemma flight_eq (total_packets : Q) (st : sim_state) (rc cw : Q) :
  flight total_packets st (send_window rc cw)
  = Z.min (Z.min (truncate rc) (truncate cw))
          (truncate (total_packets - inject_Z (total_sent st))).
Proof.
  unfold flight, send_window. rewrite !min_spec, !int_truncate.
  now rewrite (truncate_comp _ _ (sub_eq total_packets (inject_Z (total_sent st)))).
Qed.

(** [max(2, f / 2)] is 2 up to a flight of 4 and [f / 2] beyond. *)
Lemma revised_ssthresh_eq (f : Z) :
  revised_ssthresh f = if f <=? 4 then 2%Q else (inject_Z f / 2)%Q.
Proof.
  unfold revised_ssthresh, Py.max.
  destruct (Py.ltb 2 (inject_Z f / 2)) eqn:E;
    [apply ltb_lt in E | apply ltb_ge in E];
    unfold Qdiv in E; change (/ 2)%Q with (1 # 2)%Q in E;
    destruct (Z.leb_spec f 4) as [H | H]; try reflexivity; exfalso.
  - assert (inject_Z f <= inject_Z 4)%Q as Hq by (rewrite <- Zle_Qle; lia).
    change (inject_Z 4) with 4%Q in Hq. lra.
  - assert (inject_Z 4 < inject_Z f)%Q as Hq by (rewrite <- Zlt_Qlt; lia).
    change (inject_Z 4) with 4%Q in Hq. lra.
Qed.

(** C3. A loss step processed at step [t] with backoff multiplier [b],
    [t + b] inside the horizon, from any state whose arrays have their 65
    entries (every state of a run is one): the pass returns, the next
    processed step is [t + b], [cwnd[t + b]] is 1 whatever it was,
    [ssthresh[x]] is [max(2, f / 2)], that is 2 when [f <= 4] and [f / 2]
    otherwise, for every [x] from [t + b] through 64, [f] being the flight
    size [min(min(int(rcwnd[t]), int(cwnd[t])), int(total_packets -
    total_sent))] of the loss step; the thresholds of the steps before
    [t + b] are kept and [total_sent] is unchanged.  No pass other than a
    loss step writes [ssthresh], so the revision stays until a later
    loss. *)
Theorem loss_step_effect
    (total_data : Z) (total_packets : Q) (rcwnd : list Q)
    (working_binary : list Z) (st : sim_state) (rc cw : Q) :
  length rcwnd = 65%nat -> length working_binary = 65%nat ->
  wf st -> 0 <= back_off st -> t st + back_off st <= 64 ->
  working_binary !! Z.to_nat (t st) = Some (-1) ->
  rcwnd !! Z.to_nat (t st) = Some rc ->
  cwnd st !! Z.to_nat (t st) = Some cw ->
  let f := Z.min (Z.min (truncate rc) (truncate cw))
                 (truncate (total_packets - inject_Z (total_sent st))) in
  (exists st',
     loop_body total_data total_packets rcwnd working_binary st = Ok (st', Next) /\
     t st' = t st + back_off st /\
     back_off st' = 2 * back_off st /\
     cwnd st' !! Z.to_nat (t st + back_off st) = Some 1%Q /\
     (forall x, t st + back_off st <= x <= 64 ->
        ssthresh st' !! Z.to_nat x
        = Some (if f <=? 4 then 2%Q else (inject_Z f / 2)%Q)) /\
     (forall x, 0 <= x < t st + back_off st ->
        ssthresh st' !! Z.to_nat x = ssthresh st !! Z.to_nat x) /\
     total_sent st' = total_sent st) /\
  (forall st1 st2 fl,
     wf st1 -> 0 <= back_off st1 -> t st1 < 65 ->
     working_binary !! Z.to_nat (t st1) <> Some (-1) ->
     loop_body total_data total_packets rcwnd working_binary st1 = Ok (st2, fl) ->
     ssthresh st2 = ssthresh st1).
Proof.
  intros Hrc Hwb Hwf Hb Hin Hlost Hrct Hcwt f.
  pose proof Hwf as (Hlc & Hls & Hlss & Ht).
  split.
  - destruct (lookup_in_range
                (<[Z.to_nat (t st) := send_window rc cw]> (sndwnd st))
                (t st + back_off st)) as [sw1 Hsw1]; [len |].
    eexists. split.
    + apply (loop_body_loss _ _ _ _ Hrc Hwb st rc cw sw1); auto; lia.
    + proj. rewrite revised_ssthresh_eq, flight_eq. fold f.
      split; [reflexivity |]. split; [lia |]. split; [| split; [| split]].
      * apply list_lookup_insert_eq. lia.
      * intros x Hx. apply fill_from_lookup_ge. lia.
      * intros x Hx. apply fill_from_lookup_lt. lia.
      * reflexivity.
  - intros st1 st2 fl Hwf1 Hb1 Hlt1 Hn Hbody.
    apply (step_ssthresh_kept total_data total_packets rcwnd working_binary st1 st2 fl);
      [| exact Hn].
    now apply loop_body_step.
Qed.

Lemma loss_step_effect_witness :
  while_loop 1000 1000 rcwnd_wide loss_at_4 4 (init_state (ssthresh_uniform 2))
    = Ok (state_at_loss, Running) /\
  exists st',
    loop_body 1000 1000 rcwnd_wide loss_at_4 state_at_loss = Ok (st', Next) /\
    t st' = 6 /\ back_off st' = 4 /\
    cwnd st' !! 6%nat = Some 1%Q /\
    (forall x, 6 <= x <= 64 -> ssthresh st' !! Z.to_nat x = Some (inject_Z 5 / 2)%Q) /\
    (forall x, 0 <= x < 6 -> ssthresh st' !! Z.to_nat x = Some 2%Q) /\
    total_sent st' = 10.
Proof.
  split; [vm_compute; reflexivity |].
  assert (wf state_at_loss) as Hwf by (repeat split; try reflexivity; discriminate).
  assert (0 <= back_off state_at_loss) as Hb0 by discriminate.
  assert (t state_at_loss + back_off state_at_loss <= 64) as Hin by discriminate.
  assert (loss_at_4 !! Z.to_nat (t state_at_loss) = Some (-1)) as Hlost by reflexivity.
  assert (rcwnd_wide !! Z.to_nat (t state_at_loss) = Some 100%Q) as Hrc by reflexivity.
  assert (cwnd state_at_loss !! Z.to_nat (t state_at_loss) = Some 5%Q) as Hcw
    by reflexivity.
  pose proof (proj1 (loss_step_effect 1000 1000 rcwnd_wide loss_at_4 state_at_loss
                       100 5 eq_refl eq_refl Hwf Hb0 Hin Hlost Hrc Hcw)) as H.
  cbv zeta in H.
  replace (Z.min (Z.min (truncate 100) (truncate 5))
             (truncate (1000 - inject_Z (total_sent state_at_loss)))) with 5 in H
    by (vm_compute; reflexivity).
  change (t state_at_loss + back_off state_at_loss) with 6 in H.
  change (2 * back_off state_at_loss) with 4 in H.
  change (total_sent state_at_loss) with 10 in H.
  change (Z.to_nat 6) with 6%nat in H.
  change (5 <=? 4) with false in H. cbv iota in H.
  destruct H as (st' & Hbody & Ht & Hb & Hcw' & Hss & Hkeep & Hsent).
  exists st'. split; [exact Hbody |]. split; [exact Ht |]. split; [exact Hb |].
  split; [exact Hcw' |]. split; [exact Hss |]. split; [| exact Hsent].
  intros x Hx. rewrite (Hkeep x Hx). apply lookup_replicate_2. lia.
Defined.

(** ** The step horizon *)

(** The loop is never left, and never stops for lack of fuel, at a step
    beyond 64: every pass that moves [t] writes [cwnd[t]] right after. *)
Lemma loop_stays_below_horizon
    (total_data : Z) (total_packets : Q) (rcwnd : list Q)
    (working_binary : list Z) (ssthresh0 : list Q)
    (fuel : nat) (st : sim_state) (s : status) :
  length rcwnd = 65%nat -> length working_binary = 65%nat ->
  length ssthresh0 = 65%nat ->
  while_loop total_data total_packets rcwnd working_binary fuel
    (init_state ssthresh0) = Ok (st, s) ->
  t st < 65.
Proof.
  intros Hrc Hwb Hss Hrun.
  now destruct (run_good _ _ _ _ Hrc Hwb _ _ _ _ Hss Hrun) as (_ & Hlt & _).
Qed.

(** Hence no run is ever reported as [HORIZON_EXHAUSTED]. *)
Lemma horizon_never_reported
    (total_data : Z) (total_packets : Q) (rcwnd : list Q)
    (working_binary : list Z) (ssthresh0 : list Q)
    (fuel : nat) (r : sim_state * status) :
  length rcwnd = 65%nat -> length working_binary = 65%nat ->
  length ssthresh0 = 65%nat ->
  while_loop total_data total_packets rcwnd working_binary fuel
    (init_state ssthresh0) = Ok r ->
  ~ HORIZON_EXHAUSTED total_packets r.
Proof.
  intros Hrc Hwb Hss Hrun (_ & Hge & _). destruct r as [st s].
  pose proof (loop_stays_below_horizon _ _ _ _ _ _ _ _ Hrc Hwb Hss Hrun).
  simpl in Hge. lia.
Qed.

Lemma run_simulation_raise
    (total_data : Z) (total_packets : Q) (rcwnd : list Q)
    (working_binary : list Z) (ssthresh0 : list Q) (n m : nat) (e : exn) :
  while_loop total_data total_packets rcwnd working_binary n
    (init_state ssthresh0) = Raise e ->
  run_simulation total_data total_packets rcwnd working_binary (n + m) ssthresh0
  = Raise e.
Proof.
  intros H. unfold run_simulation.
  now rewrite (while_loop_raise _ _ _ _ n m _ e H).
Qed.

(** C1 (the code departs from the claim).  A transfer of 1000 packets
    through the default receiver window of one segment: without loss the
    loop is still running at step 64 after 64 passes, and the pass over
    step 64 raises [IndexError] ([update_cwnd] is called with [t = 65]);
    when every step is lost, the sixth loss step skips from 62 to 126 and
    the write [cwnd[126] = 1] raises [IndexError]. *)
Theorem simulation_loop_index_error :
  (exists st,
     while_loop 1000 1000 rcwnd_default no_loss 64
       (init_state (ssthresh_uniform 100)) = Ok (st, Running) /\
     t st = 64 /\ total_sent st = 64 /\
     loop_cond 1000 st = true /\
     loop_body 1000 1000 rcwnd_default no_loss st = Raise IndexError) /\
  (forall n,
     run_simulation 1000 1000 rcwnd_default no_loss (65 + n)
       (ssthresh_uniform 100) = Raise IndexError) /\
  (exists st,
     while_loop 1000 1000 rcwnd_default all_lost 5
       (init_state (ssthresh_uniform 100)) = Ok (st, Running) /\
     t st = 62 /\ back_off st = 64 /\
     loop_cond 1000 st = true /\
     loop_body 1000 1000 rcwnd_default all_lost st = Raise IndexError) /\
  (forall n,
     run_simulation 1000 1000 rcwnd_default all_lost (6 + n)
       (ssthresh_uniform 100) = Raise IndexError).
Proof.
  split; [| split; [| split]].
  - eexists. split; [vm_compute; reflexivity |]. now vm_compute.
  - intros n. apply run_simulation_raise. now vm_compute.
  - eexists. split; [vm_compute; reflexivity |]. now vm_compute.
  - intros n. apply run_simulation_raise. now vm_compute.
Qed.

Lemma main_long_transfer (fuel : nat) :
  main fuel session_long_transfer
  = (r ← run_simulation 1000 1000 rcwnd_default no_loss fuel (ssthresh_uniform 100);
     Ok (r, [])).
Proof. reflexivity. Qed.

(** C4 (the code departs from the claim).  The operator asks for 1000
    packets and leaves the receiver window at its default of one segment,
    so at most 65 packets fit in the horizon; the program does not end in
    a reported [HORIZON_EXHAUSTED] outcome: it raises [IndexError]. *)
Theorem horizon_exhausted_raises (n : nat) :
  main (65 + n) session_long_transfer = Raise IndexError.
Proof.
  rewrite main_long_transfer.
  now rewrite (run_simulation_raise 1000 1000 rcwnd_default no_loss
                 (ssthresh_uniform 100) 65 n IndexError) by now vm_compute.
Qed.

(** C5 (the code departs from the claim).  With a round trip of half a
    second, a loss interval from 30 s to 33 s covers steps 60 to 65;
    [get_working_binary] indexes the 65-element list at 65 and raises
    [IndexError]. *)
Theorem get_working_binary_index_error (rest : tape) :
  get_working_binary (1 # 2) (30 :: 33 :: rest)%Q = Raise IndexError.
Proof. reflexivity. Qed.

(** A negative start is not rejected either: the interval from -1 s to
    1 s marks steps 63 and 64 (Python's negative indices) besides 0 and 1. *)
Lemma get_working_binary_wraps :
  get_working_binary (1 # 2) [-1; 1; 100]%Q
  = Ok (<[0%nat := -1]> (<[1%nat := -1]> (<[63%nat := -1]> (<[64%nat := -1]> no_loss))), []).
Proof. reflexivity. Qed.

(** ** The slow-start threshold *)

Lemma revised_ssthresh_ge_2 (fl : Z) : (2 <= revised_ssthresh fl)%Q.
Proof. unfold revised_ssthresh. apply max_ge_l. Qed.

Lemma revised_ssthresh_le (fl : Z) (old : Q) :
  (revised_ssthresh fl <= old)%Q <-> (2 <= old)%Q /\ (inject_Z fl / 2 <= old)%Q.
Proof.
  unfold revised_ssthresh.
  pose proof (max_ge_l 2 (inject_Z fl / 2)).
  pose proof (max_ge_r 2 (inject_Z fl / 2)).
  split.
  - intros H1. split; lra.
  - intros [H2 H3]. destruct (max_cases 2 (inject_Z fl / 2)) as [-> | ->]; assumption.
Qed.

Lemma state_at_loss_reached :
  while_loop 1000 1000 rcwnd_wide loss_at_4 4 (init_state (ssthresh_uniform 2))
  = Ok (state_at_loss, Running).
Proof. vm_compute. reflexivity. Qed.

Lemma state_after_loss_reached :
  loop_body 1000 1000 rcwnd_wide loss_at_4 state_at_loss
  = Ok (state_after_loss, Next).
Proof. vm_compute. reflexivity. Qed.

(** C6 as stated fails: with a threshold of 2 segments, a wide receiver
    window and step 4 lost, the window has grown to 5 segments when the
    loss is processed, and the threshold of steps 6 to 64 goes from 2 up
    to 5/2. *)
Lemma ssthresh_can_increase : ~ ssthresh_non_increasing.
Proof.
  intros H.
  assert ((5 # 2) <= 2)%Q as Habs.
  { refine (H 1000 1000%Q rcwnd_wide loss_at_4 (ssthresh_uniform 2) 4%nat
              state_at_loss state_after_loss Running 6 2%Q (5 # 2)
              eq_refl eq_refl eq_refl _ state_at_loss_reached _ _
              state_after_loss_reached _ _ _).
    - apply Forall_replicate. lra.
    - now vm_compute.
    - now vm_compute.
    - now vm_compute.
    - now vm_compute.
    - now vm_compute. }
  revert Habs. unfold Qle. simpl. lia.
Qed.

(** C6, amended.  A loss step writes [max(2, f / 2)], [f] the flight size
    at the loss step, into every entry from the new step through 64; the
    written value is at most the value an entry held exactly when that
    value was at least 2 and at least [f / 2]. *)
Theorem loss_revision_compared
    (total_data : Z) (total_packets : Q) (rcwnd : list Q)
    (working_binary : list Z) (ssthresh0 : list Q)
    (fuel : nat) (st st' : sim_state) (s : status) (rc cw : Q) (x : Z) (old : Q) :
  length rcwnd = 65%nat -> length working_binary = 65%nat ->
  length ssthresh0 = 65%nat ->
  while_loop total_data total_packets rcwnd working_binary fuel
    (init_state ssthresh0) = Ok (st, s) ->
  loop_cond total_packets st = true ->
  working_binary !! Z.to_nat (t st) = Some (-1) ->
  rcwnd !! Z.to_nat (t st) = Some rc ->
  cwnd st !! Z.to_nat (t st) = Some cw ->
  loop_body total_data total_packets rcwnd working_binary st = Ok (st', Next) ->
  t st' <= x <= 64 ->
  ssthresh st !! Z.to_nat x = Some old ->
  let f := flight total_packets st (send_window rc cw) in
  ssthresh st' !! Z.to_nat x = Some (Py.max 2 (inject_Z f / 2)) /\
  ((Py.max 2 (inject_Z f / 2) <= old)%Q <->
   (2 <= old)%Q /\ (inject_Z f / 2 <= old)%Q).
Proof.
  intros Hrc Hwb Hss Hrun Hc Hlost Hrct Hcwt Hb Hx Hold f.
  pose proof (run_good _ _ _ _ Hrc Hwb _ _ _ _ Hss Hrun) as (Hwf & Hlt & Hb2 & _).
  split; [| apply revised_ssthresh_le].
  assert (step total_data total_packets rcwnd working_binary st st' Next) as Hstep
    by (apply loop_body_step; auto; lia).
  destruct Hwf as (Hlc & Hls & Hlss & Ht).
  destruct Hstep as
      [rc' cw' Hrc' Hcw' Hwb' Heq
      | rc' cw' ss1 rc1 v sw1 Hlt64 Hrc' Hcw' Hwb' Heq Hss1 Hrc1 Hnw
      | rc' cw' sw1 Hin Hrc' Hcw' Hwb' Hsw1
      | rc' cw' wb Hrc' Hcw' Hwb' Hn0 Hn1];
    try (rewrite Hlost in Hwb'; discriminate);
    [| rewrite Hlost in Hwb'; injection Hwb' as <-; contradiction].
  rewrite Hrct in Hrc'. rewrite Hcwt in Hcw'.
  injection Hrc' as <-. injection Hcw' as <-.
  revert Hx. proj. intros Hx. apply fill_from_lookup_ge. lia.
Qed.

Lemma loss_revision_compared_witness :
  ssthresh state_after_loss !! 6%nat = Some (5 # 2) /\
  ((5 # 2 <= 2)%Q <-> (2 <= 2)%Q /\ (5 # 2 <= 2)%Q).
Proof.
  refine (loss_revision_compared 1000 1000 rcwnd_wide loss_at_4 (ssthresh_uniform 2)
            4 state_at_loss state_after_loss Running 100 5 6 2
            eq_refl eq_refl eq_refl state_at_loss_reached _ _ _ _
            state_after_loss_reached _ _); now vm_compute.
Defined.

Lemma fill_from_Forall {A} (P : A -> Prop) (k : nat) (v : A) (l : list A) :
  Forall P l -> P v -> Forall P (Py.fill_from k v l).
Proof.
  intros Hl Hv. unfold Py.fill_from. apply Forall_app. split.
  - now apply Forall_take.
  - now apply Forall_replicate.
Qed.

Lemma finalize_keeps (working_binary : list Z) (st st' : sim_state) :
  finalize working_binary st = Ok st' ->
  cwnd st' = cwnd st /\ ssthresh st' = ssthresh st /\
  total_sent st' = total_sent st /\ back_off st' = back_off st.
Proof.
  unfold finalize. intros H.
  apply bind_ok in H as (s1 & _ & H). apply bind_ok in H as (s2 & _ & H).
  injection H as <-. now proj.
Qed.

Section Threshold.

Variable total_data : Z.
Variable total_packets : Q.
Variable rcwnd : list Q.
Variable working_binary : list Z.

Local Abbreviation step' := (step total_data total_packets rcwnd working_binary).

Lemma step_ssthresh_ge_2 (st st' : sim_state) (f : flow) :
  step' st st' f ->
  Forall (fun v => 2 <= v)%Q (ssthresh st) ->
  Forall (fun v => 2 <= v)%Q (ssthresh st').
Proof.
  intros Hstep H.
  destruct Hstep as
    [rc cw Hrc Hcw Hwb Heq
    | rc cw ss1 rc1 v sw1 Hlt64 Hrc Hcw Hwb Heq Hss1 Hrc1 Hnw
    | rc cw sw1 Hin Hrc Hcw Hwb Hsw1
    | rc cw wb Hrc Hcw Hwb Hn0 Hn1]; proj; try assumption.
  apply fill_from_Forall; [assumption | apply revised_ssthresh_ge_2].
Qed.

End Threshold.

(** C9 as stated fails for the initial threshold: with segments of
    10 kbyte and an initial threshold of 10 kbyte, [initialize_parameters]
    builds a threshold array of 1 segment at every step. *)
Lemma initial_ssthresh_below_2 : ~ initial_ssthresh_at_least_2.
Proof.
  intros H.
  specialize (H session_low_threshold []
                {| p_total_data := 100; p_mss := 10; p_rtt := 1 # 2;
                   p_total_packets := 10; p_ssthresh := replicate 65 1%Q;
                   p_rcwnd := replicate 65 1%Q |} eq_refl).
  apply (Forall_lookup_1 _ _ 0%nat 1%Q) in H; [| reflexivity].
  revert H. unfold Qle. simpl. lia.
Qed.

(** The threshold array that [initialize_parameters] builds holds the
    operator's threshold divided by the segment size at every step. *)
Lemma initialize_parameters_ssthresh (tp tp' : tape) (p : parameters) :
  initialize_parameters tp = Ok (p, tp') ->
  exists v, p_ssthresh p = replicate 65 v /\ p_rcwnd p = replicate 65 1%Q.
Proof.
  unfold initialize_parameters. intros H.
  apply bind_ok in H as ([total_data tp1] & _ & H).
  apply bind_ok in H as ([mss tp2] & _ & H).
  apply bind_ok in H as (total_packets & _ & H).
  apply bind_ok in H as ([rtt tp3] & _ & H).
  apply bind_ok in H as ([ssthresh_val tp4] & _ & H).
  apply bind_ok in H as (v & _ & H).
  injection H as <- <-. exists v. now split.
Qed.

(** C9, amended.  Every loss revision writes a value of at least 2; so
    when the initial threshold (the operator's value divided by the
    segment size) is at least 2, [ssthresh[t] >= 2] holds for every [t]
    in every state of the run, the final one included. *)
Theorem ssthresh_at_least_2
    (total_data : Z) (total_packets : Q) (rcwnd : list Q)
    (working_binary : list Z) (ssthresh0 : list Q)
    (fuel : nat) (st : sim_state) (s : status) :
  length rcwnd = 65%nat -> length working_binary = 65%nat ->
  length ssthresh0 = 65%nat ->
  Forall (fun v => 2 <= v)%Q ssthresh0 ->
  run_simulation total_data total_packets rcwnd working_binary fuel ssthresh0
    = Ok (st, s) ->
  Forall (fun v => 2 <= v)%Q (ssthresh st) /\
  (forall f : Z, (2 <= Py.max 2 (inject_Z f / 2))%Q).
Proof.
  intros Hrc Hwb Hss H2 Hrun. split; [| intros f; apply max_ge_l].
  unfold run_simulation in Hrun.
  apply bind_ok in Hrun as ([st1 s1] & Hloop & Hfin).
  assert (Forall (fun v => 2 <= v)%Q (ssthresh st1)) as H1.
  { assert (good st1 /\ Forall (fun v => 2 <= v)%Q (ssthresh st1)) as [_ ?];
      [| assumption].
    refine (while_loop_invariant total_data total_packets rcwnd working_binary
              (fun st => good st /\ Forall (fun v => 2 <= v)%Q (ssthresh st))
              _ fuel _ st1 s1 _ Hloop).
    - intros st0 st0' f [Hg Hf] Hc Hb.
      assert (step total_data total_packets rcwnd working_binary st0 st0' f) as Hstep.
      { destruct Hg as (Hwf & Hlt & Hb2 & _). apply loop_body_step; auto; lia. }
      split; [exact (step_good _ _ _ _ Hrc Hwb _ _ _ Hg Hstep)
             | exact (step_ssthresh_ge_2 _ _ _ _ _ _ _ Hstep Hf)].
    - split; [eapply good_init; eassumption | assumption]. }
  destruct s1 as [| e].
  - now injection Hfin as <- <-.
  - apply bind_ok in Hfin as (st2 & Hf & Hret). injection Hret as <- <-.
    destruct (finalize_keeps _ _ _ Hf) as (_ & -> & _). assumption.
Qed.

Lemma ssthresh_at_least_2_witness :
  Forall (fun v => 2 <= v)%Q (ssthresh state_after_loss) /\
  (forall f : Z, (2 <= Py.max 2 (inject_Z f / 2))%Q).
Proof.
  refine (ssthresh_at_least_2 1000 1000 rcwnd_wide loss_at_4 (ssthresh_uniform 2)
            5 state_after_loss Running eq_refl eq_refl eq_refl _ _).
  - apply Forall_replicate. lra.
  - vm_compute. reflexivity.
Defined.

(** ** How the loop is left *)

Section Exit.

Variable total_data : Z.
Variable total_packets : Q.
Variable rcwnd : list Q.
Variable working_binary : list Z.

Local Abbreviation body := (loop_body total_data total_packets rcwnd working_binary).
Local Abbreviation cond := (loop_cond total_packets).
Local Abbreviation loop := (while_loop total_data total_packets rcwnd working_binary).

(** What a result of the loop says about the passes behind it, for a
    property [P] kept by the passes that fall through. *)
Lemma while_loop_result (P : sim_state -> Prop) :
  (forall st st', P st -> cond st = true -> body st = Ok (st', Next) -> P st') ->
  forall fuel st0 st s, P st0 -> loop fuel st0 = Ok (st, s) ->
  match s with
  | Running => P st
  | Exited ExitCond => P st /\ cond st = false
  | Exited ExitBreak =>
      exists st1, P st1 /\ cond st1 = true /\ body st1 = Ok (st, Break)
  end.
Proof.
  intros Hpass. induction fuel as [|fuel IH]; intros st0 st s HP Hrun; simpl in Hrun.
  - now injection Hrun as <- <-.
  - destruct (cond st0) eqn:C.
    + destruct (body st0) as [[st1 f]|e] eqn:B; [| discriminate].
      cbn [mbind result_bind] in Hrun. destruct f.
      * apply (IH st1); [eapply Hpass; eauto | assumption].
      * injection Hrun as <- <-. eauto.
    + injection Hrun as <- <-. auto.
Qed.

End Exit.

(** ** A total that is not a whole number of packets *)

Section Fractional.

Variable total_data : Z.
Variable total_packets : Q.
Variable rcwnd : list Q.
Variable working_binary : list Z.

Hypothesis fractional : forall z : Z, ~ (total_packets == inject_Z z)%Q.

Local Abbreviation step' := (step total_data total_packets rcwnd working_binary).

Lemma completion_test_false (z : Z) : Py.eqb (inject_Z z) total_packets = false.
Proof.
  destruct (Py.eqb (inject_Z z) total_packets) eqn:E; [| reflexivity].
  apply eqb_eq in E. exfalso. apply (fractional z). now symmetry.
Qed.

Lemma flight_le (st : sim_state) (sw : Z) :
  (inject_Z (total_sent st) < total_packets)%Q ->
  (inject_Z (total_sent st + flight total_packets st sw) < total_packets)%Q.
Proof.
  intros H. unfold flight. rewrite min_spec.
  pose proof (sub_eq total_packets (inject_Z (total_sent st))) as E.
  assert (0 <= Py.sub total_packets (inject_Z (total_sent st)))%Q as Hs by lra.
  pose proof (int_le _ Hs) as Hi.
  set (r := Py.int (Py.sub total_packets (inject_Z (total_sent st)))) in *.
  assert (inject_Z (Z.min sw r) <= inject_Z r)%Q as Hm
    by (rewrite <- Zle_Qle; lia).
  assert (inject_Z (total_sent st + Z.min sw r) <= total_packets)%Q as Hle
    by (rewrite inject_Z_plus; lra).
  destruct (Qlt_le_dec (inject_Z (total_sent st + Z.min sw r)) total_packets)
    as [|Hge]; [assumption |].
  exfalso. apply (fractional (total_sent st + Z.min sw r)). lra.
Qed.

Lemma step_unsent (st st' : sim_state) (f : flow) :
  step' st st' f ->
  (inject_Z (total_sent st) < total_packets)%Q ->
  f = Next /\ (inject_Z (total_sent st') < total_packets)%Q.
Proof.
  intros Hstep H.
  destruct Hstep as
    [rc cw Hrc Hcw Hwb Heq
    | rc cw ss1 rc1 v sw1 Hlt64 Hrc Hcw Hwb Heq Hss1 Hrc1 Hnw
    | rc cw sw1 Hin Hrc Hcw Hwb Hsw1
    | rc cw wb Hrc Hcw Hwb Hn0 Hn1]; proj.
  - now rewrite completion_test_false in Heq.
  - split; [reflexivity | now apply flight_le].
  - now split.
  - now split.
Qed.

(** With less than one packet left the flight size is the smaller of the
    truncated receiver window and 0. *)
Lemma flight_below_one (st : sim_state) (rc cw : Q) :
  (inject_Z (total_sent st) < total_packets)%Q ->
  (total_packets - inject_Z (total_sent st) < 1)%Q ->
  (1 <= cw)%Q ->
  flight total_packets st (send_window rc cw) = Z.min (truncate rc) 0.
Proof.
  intros Hlt Hrem Hcw1. unfold flight, send_window.
  pose proof (sub_eq total_packets (inject_Z (total_sent st))) as E.
  rewrite (int_small (Py.sub _ _)) by lra.
  pose proof (int_ge_1 cw Hcw1). rewrite !min_spec, int_truncate. lia.
Qed.

Lemma truncate_above_minus_1 (rc : Q) : (- (1) < rc)%Q -> 0 <= truncate rc.
Proof.
  intros H. rewrite <- int_truncate.
  destruct (Qlt_le_dec rc 0) as [Hneg | Hpos].
  - assert (Py.int rc = - Py.int (- rc)) as ->
      by (rewrite int_negate; lia).
    rewrite (int_small (- rc)) by lra. lia.
  - now apply int_nonneg.
Qed.

Lemma step_nothing_sent (st st' : sim_state) (f : flow) :
  Forall (fun rc => - (1) < rc)%Q rcwnd ->
  good st -> step' st st' f ->
  (inject_Z (total_sent st) < total_packets)%Q ->
  (total_packets - inject_Z (total_sent st) < 1)%Q ->
  total_sent st' = total_sent st.
Proof.
  intros Hrcn (_ & _ & _ & H1 & _) Hstep Hlt Hrem.
  destruct Hstep as
    [rc cw Hrc Hcw Hwb Heq
    | rc cw ss1 rc1 v sw1 Hlt64 Hrc Hcw Hwb Heq Hss1 Hrc1 Hnw
    | rc cw sw1 Hin Hrc Hcw Hwb Hsw1
    | rc cw wb Hrc Hcw Hwb Hn0 Hn1]; proj; try reflexivity.
  - now rewrite completion_test_false in Heq.
  - rewrite flight_below_one; [| assumption | assumption |].
    + pose proof (truncate_above_minus_1 rc (Forall_lookup_1 _ _ _ _ Hrcn Hrc)). lia.
    + apply (Forall_lookup_1 _ _ _ _ H1 Hcw).
Qed.

End Fractional.

Lemma loop_cond_false (total_packets : Q) (st : sim_state) :
  loop_cond total_packets st = false ->
  (inject_Z (total_sent st) < total_packets)%Q -> 65 <= t st.
Proof.
  unfold loop_cond. intros H Hlt. apply ltb_lt in Hlt. rewrite Hlt in H.
  simpl in H. now apply Z.ltb_ge in H.
Qed.

(** A run for a total that is not positive never enters the loop. *)
Lemma while_loop_nothing_to_send
    (total_data : Z) (total_packets : Q) (rcwnd : list Q)
    (working_binary : list Z) (fuel : nat) (st0 st : sim_state) (s : status) :
  (total_packets <= inject_Z (total_sent st0))%Q ->
  while_loop total_data total_packets rcwnd working_binary fuel st0 = Ok (st, s) ->
  st = st0 /\ s <> Exited ExitBreak /\ loop_cond total_packets st = false.
Proof.
  intros Hle Hrun.
  assert (loop_cond total_packets st0 = false) as Hc.
  { unfold loop_cond. now rewrite (proj2 (ltb_ge _ _) Hle). }
  destruct fuel as [|fuel]; cbn [while_loop] in Hrun.
  - injection Hrun as <- <-. repeat split; [discriminate | assumption].
  - rewrite Hc in Hrun. injection Hrun as <- <-.
    repeat split; [discriminate | assumption].
Qed.

Lemma state_negative_window_reached :
  while_loop 5 (5 # 2) rcwnd_negative_from_2 no_loss 2
    (init_state (ssthresh_uniform 100))
  = Ok (state_negative_window, Running).
Proof. vm_compute. reflexivity. Qed.

Lemma five_halves_fractional (z : Z) : ~ (5 # 2 == inject_Z z)%Q.
Proof. unfold Qeq. simpl. lia. Qed.

(** C10 as stated fails: for a total of two and a half packets and a
    receiver window that an override makes -3 segments from step 2 on, two
    packets are sent by steps 0 and 1, half a packet is left when step 2
    is processed, and the flight size of that pass is
    [min(min(int(-3), int(3)), int(0.5))], which is -3 and not 0. *)
Lemma flight_negative_below_one_packet : ~ flights_stop_below_one_packet.
Proof.
  intros H.
  specialize (H 5 (5 # 2)%Q rcwnd_negative_from_2 no_loss (ssthresh_uniform 100)
                2%nat state_negative_window Running (- (3))%Q 3%Q
                eq_refl eq_refl eq_refl five_halves_fractional
                state_negative_window_reached eq_refl eq_refl eq_refl eq_refl).
  revert H. vm_compute. discriminate.
Qed.

(** C10, amended.  When [total_packets] is not a whole number: the
    completion test is false for every integer, so the loop is never left
    through [break] (no [COMPLETE] outcome).  In a pass executed with less
    than one packet left, the flight size is
    [min(int(rcwnd[t]), 0)]: 0 when the receiver window of the step is
    above -1, negative otherwise; and when the receiver window is above -1
    at every step, [total_sent] never changes again from then on. *)
Theorem fractional_total_never_completes
    (total_data : Z) (total_packets : Q) (rcwnd : list Q)
    (working_binary : list Z) (ssthresh0 : list Q)
    (fuel : nat) (st : sim_state) (s : status) :
  length rcwnd = 65%nat -> length working_binary = 65%nat ->
  length ssthresh0 = 65%nat ->
  (forall z : Z, ~ (total_packets == inject_Z z)%Q) ->
  while_loop total_data total_packets rcwnd working_binary fuel
    (init_state ssthresh0) = Ok (st, s) ->
  (forall z : Z, Py.eqb (inject_Z z) total_packets = false) /\
  ~ COMPLETE (st, s) /\
  (loop_cond total_packets st = true ->
   (total_packets - inject_Z (total_sent st) < 1)%Q ->
   (forall rc cw,
      rcwnd !! Z.to_nat (t st) = Some rc ->
      cwnd st !! Z.to_nat (t st) = Some cw ->
      flight total_packets st (send_window rc cw) = Z.min (truncate rc) 0 /\
      ((- (1) < rc)%Q -> flight total_packets st (send_window rc cw) = 0)) /\
   (Forall (fun rc => - (1) < rc)%Q rcwnd ->
    forall fuel' st' s',
      while_loop total_data total_packets rcwnd working_binary fuel' st
        = Ok (st', s') ->
      total_sent st' = total_sent st)).
Proof.
  intros Hrc Hwb Hss Hfrac Hrun.
  split; [intros z; now apply completion_test_false |].
  destruct (Qlt_le_dec 0 total_packets) as [Hpos | Hneg].
  2:{ destruct (while_loop_nothing_to_send total_data total_packets rcwnd
                  working_binary fuel (init_state ssthresh0) st s Hneg Hrun)
        as (-> & Hnb & Hc).
      split; [exact Hnb |]. intros Hc'. congruence. }
  set (P := fun st => good st /\ (inject_Z (total_sent st) < total_packets)%Q).
  assert (forall st0 st1 f, P st0 ->
            loop_body total_data total_packets rcwnd working_binary st0 = Ok (st1, f) ->
            f = Next /\ P st1) as Hpass.
  { intros st0 st1 f [Hg Hlt] Hb.
    assert (step total_data total_packets rcwnd working_binary st0 st1 f) as Hstep.
    { destruct Hg as (Hwf & Ht & Hb2 & _). apply loop_body_step; auto; lia. }
    destruct (step_unsent _ _ _ _ Hfrac _ _ _ Hstep Hlt) as [-> Hlt1].
    split; [reflexivity |]. split; [| assumption].
    exact (step_good _ _ _ _ Hrc Hwb _ _ _ Hg Hstep). }
  assert (P (init_state ssthresh0)) as Hinit.
  { split; [eapply good_init; eassumption | exact Hpos]. }
  pose proof (while_loop_result total_data total_packets rcwnd working_binary P
                (fun st0 st1 HP _ Hb => proj2 (Hpass st0 st1 Next HP Hb))
                fuel _ st s Hinit Hrun) as Hres.
  assert (~ COMPLETE (st, s)) as Hnc.
  { unfold COMPLETE. simpl. intros ->.
    destruct Hres as (st1 & HP1 & _ & Hb). now destruct (Hpass _ _ _ HP1 Hb). }
  split; [assumption |].
  assert (P st) as [Hg Hlt].
  { destruct s as [| [|]]; [assumption | now destruct Hres |].
    exfalso. now apply Hnc. }
  intros _ Hrem. split.
  - intros rc cw Hrct Hcwt.
    destruct Hg as (_ & _ & _ & H1 & _).
    pose proof (flight_below_one total_packets st rc cw Hlt Hrem
                  (Forall_lookup_1 _ _ _ _ H1 Hcwt)) as Hfl.
    split; [exact Hfl |]. intros Hrcn. rewrite Hfl.
    pose proof (truncate_above_minus_1 rc Hrcn). lia.
  - intros Hrcn fuel' st' s' Hrun'.
    refine (proj2 (while_loop_invariant total_data total_packets rcwnd working_binary
              (fun st0 => P st0 /\ total_sent st0 = total_sent st)
              _ fuel' st st' s' (conj (conj Hg Hlt) eq_refl) Hrun')).
    intros st0 st1 f [[Hg0 Hlt0] Heq] _ Hb.
    destruct (Hpass _ _ _ (conj Hg0 Hlt0) Hb) as [_ HP1].
    split; [assumption |]. rewrite <- Heq.
    assert (step total_data total_packets rcwnd working_binary st0 st1 f) as Hstep.
    { destruct Hg0 as (Hwf & Ht & Hb2 & _). apply loop_body_step; auto; lia. }
    apply (step_nothing_sent _ _ _ _ Hfrac _ _ _ Hrcn Hg0 Hstep Hlt0).
    now rewrite Heq.
Qed.

Lemma fractional_total_never_completes_witness :
  while_loop 5 (5 # 2) rcwnd_default no_loss 3 (init_state (ssthresh_uniform 100))
  = Ok (state_half_packet_left, Running) /\
  (forall z : Z, Py.eqb (inject_Z z) (5 # 2) = false) /\
  ~ COMPLETE (state_half_packet_left, Running) /\
  flight (5 # 2) state_half_packet_left (send_window 1 4) = 0 /\
  exists st',
    while_loop 5 (5 # 2) rcwnd_default no_loss 10 state_half_packet_left
    = Ok (st', Running) /\
    t st' = 13 /\ total_sent st' = 2.
Proof.
  assert (while_loop 5 (5 # 2) rcwnd_default no_loss 3
            (init_state (ssthresh_uniform 100))
          = Ok (state_half_packet_left, Running)) as Hrun
    by (vm_compute; reflexivity).
  split; [exact Hrun |].
  destruct (fractional_total_never_completes 5 (5 # 2) rcwnd_default no_loss
              (ssthresh_uniform 100) 3 state_half_packet_left Running
              eq_refl eq_refl eq_refl five_halves_fractional Hrun)
    as (Htest & Hnot & Hlast).
  split; [exact Htest |]. split; [exact Hnot |].
  assert (loop_cond (5 # 2) state_half_packet_left = true) as Hcond by reflexivity.
  assert ((5 # 2) - inject_Z (total_sent state_half_packet_left) < 1)%Q as Hrem
    by reflexivity.
  destruct (Hlast Hcond Hrem) as [Hflight Hsent].
  split.
  - apply (Hflight 1%Q 4%Q eq_refl eq_refl). reflexivity.
  - assert (Forall (fun rc => - (1) < rc)%Q rcwnd_default) as Hwindow.
    { apply Forall_forall. intros x Hx.
      apply elem_of_replicate in Hx as [-> _]. reflexivity. }
    eexists. split; [vm_compute; reflexivity |]. split; [reflexivity |].
    apply (Hsent Hwindow 10%nat _ Running). vm_compute. reflexivity.
Defined.

(** ** Growth without loss *)

Section NoLoss.

Variable total_data : Z.
Variable total_packets : Q.
Variable rcwnd : list Q.
Variable working_binary : list Z.

Hypothesis no_lost_step : Forall (fun w => w = 0) working_binary.

Local Abbreviation step' := (step total_data total_packets rcwnd working_binary).


End NoLoss.



(** ** Rounding of equal rationals *)

Lemma round2_comp (x y : Q) : (x == y)%Q -> Py.round2 x = Py.round2 y.
Proof.
  intros H. unfold Py.round2.
  rewrite (round_half_even_comp (x * 100) (y * 100)); [reflexivity |].
  now rewrite H.
Qed.

(** The sibling loop in [update_rcwnd] is bounded by the horizon: for a
    time that is not negative (and not beyond the exit test) it writes
    exactly the entries from [int(update_time)] through 64 and raises
    nothing. *)
Lemma update_rcwnd_override_in_range (rcwnd : list Q) (update_time new_val : Q) :
  length rcwnd = 65%nat ->
  (0 <= update_time)%Q -> Py.ltb 65 update_time = false ->
  Py.for_range (Py.int update_time) 65 (fun idx r => Py.set r idx new_val) rcwnd
  = Ok (Py.fill_from (Z.to_nat (Py.int update_time)) new_val rcwnd).
Proof.
  intros Hlen H0 H65. apply ltb_ge in H65.
  pose proof (int_nonneg _ H0) as Hn. pose proof (int_le _ H0) as Hle.
  assert (inject_Z (Py.int update_time) <= inject_Z 65)%Q as Hz
    by (change (inject_Z 65) with 65%Q; lra).
  rewrite <- Zle_Qle in Hz.
  replace 65 with (Z.of_nat (length rcwnd)) at 1 by lia.
  apply for_range_fill. lia.
Qed.


(** ** Termination *)

Section Termination.

Variable total_data : Z.
Variable total_packets : Q.
Variable rcwnd : list Q.
Variable working_binary : list Z.

Hypothesis rcwnd_length : length rcwnd = 65%nat.
Hypothesis working_binary_length : length working_binary = 65%nat.
Hypothesis markers : Forall (fun w => w = 0 \/ w = -1) working_binary.

Local Abbreviation step' := (step total_data total_packets rcwnd working_binary).
Local Abbreviation loop := (while_loop total_data total_packets rcwnd working_binary).

(** With the markers [get_working_binary] writes (0 and -1), every pass
    that falls through moves to a later step. *)
Lemma step_advances (st st' : sim_state) :
  2 <= back_off st -> step' st st' Next -> t st < t st'.
Proof.
  intros Hb Hstep. inversion Hstep as
    [rc cw Hrc Hcw Hwb Heq
    | rc cw ss1 rc1 v sw1 Hlt64 Hrc Hcw Hwb Heq Hss1 Hrc1 Hnw
    | rc cw sw1 Hin Hrc Hcw Hwb Hsw1
    | rc cw wb Hrc Hcw Hwb Hn0 Hn1]; subst; proj; try lia.
  destruct (Forall_lookup_1 _ _ _ _ markers Hwb); contradiction.
Qed.

(** So the loop is left, or raises, within 65 passes. *)
Lemma while_loop_terminates (fuel : nat) (st st' : sim_state) :
  good st -> 65 - t st <= Z.of_nat fuel ->
  loop fuel st <> Ok (st', Running).
Proof.
  revert st. induction fuel as [|fuel IH]; intros st Hg Hfuel.
  - destruct Hg as (_ & Hlt & _). lia.
  - simpl. destruct (loop_cond total_packets st); [| discriminate].
    destruct (loop_body total_data total_packets rcwnd working_binary st)
      as [[st1 f]|e] eqn:Hb; cbn [mbind result_bind]; [| discriminate].
    assert (step' st st1 f) as Hstep.
    { destruct Hg as (Hwf & Ht & Hb2 & _). apply loop_body_step; auto; lia. }
    destruct f; [| discriminate].
    apply IH.
    + exact (step_good _ _ _ _ rcwnd_length working_binary_length _ _ _ Hg Hstep).
    + destruct Hg as (_ & _ & Hb2 & _).
      pose proof (step_advances st st1 Hb2 Hstep). lia.
Qed.

End Termination.

(** ** The scenarios of the specification, run on the model *)

(** Four slow-start increments from 3 give exactly 7. *)
Example slow_start_increments :
  next_window 3 4 10 100 = Ok (7%Q, 7).
Proof. reflexivity. Qed.

(** Five packets, a threshold and a receiver window of 100 segments, no
    loss: 1, 2 and 2 packets are sent at steps 0, 1 and 2, and the loop is
    left through [break] at step 2. *)
Example small_transfer_completes :
  exists st,
    while_loop 5 5 rcwnd_wide no_loss 3 (init_state (ssthresh_uniform 100))
    = Ok (st, Exited ExitBreak) /\ t st = 2 /\ total_sent st = 5.
Proof. eexists. split; [vm_compute; reflexivity | now vm_compute]. Qed.

(** A loss interval covering steps 2 and 3 (from 1 s to 2 s at a round
    trip of half a second). *)
Example loss_interval_marks :
  get_working_binary (1 # 2) [1; 2; 100]%Q
  = Ok (<[2%nat := -1]> (<[3%nat := -1]> no_loss), []).
Proof. reflexivity. Qed.

(** * [update_cwnd] in binary64 *)

(** ** Integer parts and rounding against their definitions on values *)

Lemma truncate_Z (z : Z) : truncate (inject_Z z) = z.
Proof. rewrite <- int_truncate. apply int_inject. Qed.

Lemma cond_Zopp_mul (s : bool) (a b : Z) :
  cond_Zopp s a * b = cond_Zopp s (a * b).
Proof. destruct s; simpl; lia. Qed.

Lemma cond_Zopp_negb (s : bool) (a : Z) : cond_Zopp (negb s) a = - cond_Zopp s a.
Proof. destruct s; simpl; lia. Qed.

Lemma shiftl_Zneg (a : Z) (p : positive) :
  Z.shiftl a (Zneg p) = a / Zpos (2 ^ p).
Proof.
  change (Z.shiftl a (Zneg p)) with (Z.shiftr a (Zpos p)).
  rewrite Z.shiftr_div_pow2 by lia. now rewrite Pos2Z.inj_pow.
Qed.

Lemma truncate_scale (s : bool) (m : positive) (e : Z) :
  truncate (B64.scale (cond_Zopp s (Zpos m)) e)
  = cond_Zopp s (Z.shiftl (Zpos m) e).
Proof.
  rewrite <- int_truncate. destruct e as [|p|p]; cbn [B64.scale].
  - now rewrite int_inject.
  - rewrite int_inject, Z.shiftl_mul_pow2 by lia. apply cond_Zopp_mul.
  - rewrite shiftl_Zneg. unfold Py.int. cbn [Qnum Qden].
    destruct s; cbn [cond_Zopp].
    + rewrite Z.quot_opp_l by discriminate. f_equal.
      apply Z.quot_div_nonneg; lia.
    + apply Z.quot_div_nonneg; lia.
Qed.

Lemma int_truncation (x : B64.num) : B64.int x = Rule.truncation x.
Proof.
  destruct x as [z | [s | s | | s m e]]; unfold Rule.truncation; cbn [B64.int B64.val B64.fval].
  - now rewrite truncate_Z.
  - reflexivity.
  - reflexivity.
  - reflexivity.
  - now rewrite truncate_scale.
Qed.

Lemma ceiling_scale (s : bool) (m : positive) (e : Z) :
  Qceiling (B64.scale (cond_Zopp s (Zpos m)) e)
  = - Z.shiftl (cond_Zopp (negb s) (Zpos m)) e.
Proof.
  rewrite cond_Zopp_negb. destruct e as [|p|p]; cbn [B64.scale].
  - rewrite Qceiling_Z, Z.shiftl_0_r. lia.
  - rewrite Qceiling_Z, Z.shiftl_mul_pow2 by lia. lia.
  - rewrite shiftl_Zneg. reflexivity.
Qed.

Lemma ceil_ceiling (x : B64.num) : B64.ceil x = Rule.ceiling x.
Proof.
  destruct x as [z | [s | s | | s m e]]; unfold Rule.ceiling; cbn [B64.ceil B64.val B64.fval].
  - now rewrite Qceiling_Z.
  - reflexivity.
  - reflexivity.
  - reflexivity.
  - now rewrite ceiling_scale.
Qed.

(** The ceiling is the floor, or the floor plus one. *)
Lemma ceiling_floor (y : Q) :
  (Qceiling y = Qfloor y /\ (y == inject_Z (Qfloor y))%Q) \/
  (Qceiling y = Qfloor y + 1 /\ (inject_Z (Qfloor y) < y)%Q).
Proof.
  pose proof (Qfloor_le y) as Hfl. pose proof (Qlt_floor y) as Hfu.
  pose proof (Qle_ceiling y) as Hcl. pose proof (Qceiling_lt y) as Hcu.
  assert (Qfloor y <= Qceiling y) as H1.
  { rewrite Zle_Qle. lra. }
  assert (Qceiling y - 1 < Qfloor y + 1) as H2.
  { rewrite Zlt_Qlt. lra. }
  destruct (Z.eq_dec (Qceiling y) (Qfloor y)) as [E | N].
  - left. split; [assumption |]. rewrite E in Hcl. lra.
  - right. assert (Qceiling y = Qfloor y + 1) as E by lia.
    split; [assumption |].
    rewrite E in Hcu. replace (Qfloor y + 1 - 1) with (Qfloor y) in Hcu by lia.
    assumption.
Qed.

Lemma round_half_even_nearest (y : Q) :
  Py.round_half_even y = Rule.nearest_even y.
Proof.
  unfold Py.round_half_even, Rule.nearest_even.
  destruct (ceiling_floor y) as [[-> Hy] | [-> Hy]].
  - destruct (y - inject_Z (Qfloor y) ?= 1 # 2)%Q eqn:C1;
      destruct (y - inject_Z (Qfloor y) ?= inject_Z (Qfloor y) - y)%Q eqn:C2;
      qcompare; try lra; try reflexivity; now destruct (Z.even _).
  - rewrite inject_Z_plus. change (inject_Z 1) with 1%Q.
    destruct (y - inject_Z (Qfloor y) ?= 1 # 2)%Q eqn:C1;
      destruct (y - inject_Z (Qfloor y) ?= inject_Z (Qfloor y) + 1 - y)%Q eqn:C2;
      qcompare; try lra; reflexivity.
Qed.

Lemma round2_two_decimals (x : B64.num) : B64.round2 x = Rule.two_decimals x.
Proof.
  destruct x as [z | [s | s | | s m e]]; cbn [B64.round2 Rule.two_decimals];
    try reflexivity.
  now rewrite round_half_even_nearest.
Qed.

(** ** [update_cwnd] as a function of four values *)

Lemma ack_increment_rule (t : Z) (ssthresh cwnd : list B64.num) (cw ss : B64.num) :
  0 <= t ->
  cwnd !! Z.to_nat t = Some cw ->
  ssthresh !! Z.to_nat t = Some ss ->
  B64.ack_increment t ssthresh cwnd
  = (v ← Rule.increment ss cw; Ok (<[Z.to_nat t := v]> cwnd)).
Proof.
  intros Ht Hc Hs. unfold B64.ack_increment, Rule.increment.
  rewrite (get_in_range _ _ _ Ht Hc), (get_in_range _ _ _ Ht Hs). bnd.
  assert (0 <= t < Z.of_nat (length cwnd)) as R
    by (apply lookup_lt_Some in Hc; lia).
  destruct (B64.ltb cw ss).
  - destruct (B64.add cw (B64.Int 1)); bnd; [now rewrite set_in_range | reflexivity].
  - destruct (B64.div (B64.Int 1) cw) as [inv|]; bnd; [| reflexivity].
    destruct (B64.add cw inv); bnd; [now rewrite set_in_range | reflexivity].
Qed.

Lemma repeat_ack_rule (n : nat) (i t : Z) (ssthresh cwnd : list B64.num)
    (cw ss : B64.num) :
  0 <= t ->
  cwnd !! Z.to_nat t = Some cw ->
  ssthresh !! Z.to_nat t = Some ss ->
  Py.for_loop n i (fun _ => B64.ack_increment t ssthresh) cwnd
  = (v ← Rule.increments n ss cw; Ok (<[Z.to_nat t := v]> cwnd)).
Proof.
  intros Ht. revert i cwnd cw. induction n as [|n IH]; intros i cwnd cw Hc Hs;
    cbn [Py.for_loop Rule.increments]; bnd.
  - now rewrite list_insert_id.
  - rewrite (ack_increment_rule _ _ _ _ _ Ht Hc Hs).
    destruct (Rule.increment ss cw) as [v1|e]; bnd; [| reflexivity].
    rewrite (IH _ _ v1);
      [| apply list_lookup_insert_eq; now apply lookup_lt_Some in Hc | assumption].
    destruct (Rule.increments n ss v1); bnd; [| reflexivity].
    now rewrite list_insert_insert_eq.
Qed.

Lemma update_cwnd_rule (cwnd : list B64.num) (t : Z) (sndwnd : list Z)
    (ssthresh rcwnd : list B64.num) (prev : B64.num) (acks : Z)
    (ss rc : B64.num) :
  1 <= t < Z.of_nat (length cwnd) ->
  t < Z.of_nat (length sndwnd) ->
  cwnd !! Z.to_nat (t - 1) = Some prev ->
  sndwnd !! Z.to_nat (t - 1) = Some acks ->
  ssthresh !! Z.to_nat t = Some ss ->
  rcwnd !! Z.to_nat t = Some rc ->
  B64.update_cwnd cwnd t sndwnd ssthresh rcwnd
  = ('(v, sw) ← Rule.update prev acks ss rc;
     Ok (<[Z.to_nat t := v]> cwnd, <[Z.to_nat t := sw]> sndwnd, v)).
Proof.
  intros Ht Hts Hp Ha Hs Hr.
  unfold B64.update_cwnd, Rule.update, Py.repeat_n, Py.for_range.
  assert (0 <= t - 1) as Ht1 by lia. assert (0 <= t) as Ht0 by lia.
  rewrite (get_in_range _ _ _ Ht1 Hp). bnd.
  rewrite set_in_range by lia. bnd.
  rewrite (get_in_range _ _ _ Ht1 Ha). bnd.
  rewrite (repeat_ack_rule _ _ t ssthresh _ prev ss); try assumption; try lia;
    [| apply list_lookup_insert_eq; lia].
  rewrite Z.sub_0_r.
  destruct (Rule.increments (Z.to_nat acks) ss prev) as [g|e]; bnd; [| reflexivity].
  rewrite list_insert_insert_eq.
  rewrite (get_in_range _ _ _ Ht0 Hr). bnd.
  rewrite int_truncation.
  destruct (Rule.truncation rc) as [a|e]; bnd; [| reflexivity].
  repeat py_step. rewrite int_truncation.
  destruct (Rule.truncation g) as [b|e] eqn:Eg; bnd; [| reflexivity].
  repeat py_step.
  unfold Rule.tie_break. rewrite Eg. bnd. rewrite min_spec.
  destruct (Z.min a b =? b).
  - repeat py_step.
    destruct (B64.sub g (B64.Int b)) as [fr|e]; bnd; [| reflexivity].
    destruct (B64.ltb B64.d055 fr).
    + repeat py_step. rewrite ceil_ceiling.
      destruct (Rule.ceiling g) as [c|e]; bnd; [| reflexivity].
      repeat py_step. now rewrite round2_two_decimals.
    + bnd. repeat py_step. now rewrite round2_two_decimals.
  - bnd. repeat py_step. now rewrite round2_two_decimals.
Qed.

(** C2 as stated fails on the send window: with a window of 4 segments at
    step 3, one acknowledgment, a threshold of 100 segments and a receiver
    window of minus half a segment at step 4, the window grows to 5 and
    [update_cwnd] stores [min(int(-0.5), int(5))], which is 0, in
    [sndwnd[4]]; [min(floor(-0.5), floor(5))] is -1. *)
Lemma update_cwnd_truncates : ~ send_window_is_min_of_floors.
Proof.
  intros H.
  assert (B64.update_cwnd cwnd64_four_at_3 4 (replicate 65 1) ssthresh64_hundred
            rcwnd64_minus_half
          = Ok (<[4%nat := B64.Int 5]> cwnd64_four_at_3,
                <[4%nat := 0]> (replicate 65 1), B64.Int 5)) as Hrun
    by (vm_compute; reflexivity).
  specialize (H cwnd64_four_at_3 4 (replicate 65 1) ssthresh64_hundred
                rcwnd64_minus_half (B64.Int 4) hundred
                (B64.Float (B64.of_Q (- (1) # 2))) (B64.Int 5) 1
                (- (4503599627370496) # 9007199254740992)%Q (inject_Z 5)
                _ _ _ ltac:(lia) eq_refl eq_refl eq_refl eq_refl eq_refl eq_refl
                eq_refl eq_refl eq_refl Hrun).
  revert H. vm_compute. discriminate.
Qed.

(** C2, amended.  For a step [t] from 1 to 64, [update_cwnd] returns, and
    stores in [cwnd[t]], the window that the rule computes on Python
    numbers: start from [cwnd[t-1]]; [sndwnd[t-1]] increments (none when
    it is negative) of 1 below the threshold and of [1 / cwnd[t]]
    otherwise; [sndwnd[t] = min(int(rcwnd[t]), int(cwnd[t]))] with [int]
    truncating towards zero; the ceiling when [sndwnd[t]] equals
    [int(cwnd[t])] and the difference [cwnd[t] - int(cwnd[t])] exceeds
    the float 0.55; at last the float nearest to the nearest multiple of
    1/100.  It stores that send window in [sndwnd[t]], changes nothing
    else, and raises what the rule raises.  With [cwnd[t-1]] 10,
    [ssthresh[t]] 5 and [sndwnd[t-1]] 1 the window returned is the float
    10.1. *)
Theorem update_cwnd_follows_rule
    (cwnd : list B64.num) (t : Z) (sndwnd : list Z)
    (ssthresh rcwnd : list B64.num) (prev : B64.num) (acks : Z)
    (ss rc : B64.num) :
  1 <= t <= 64 ->
  length cwnd = 65%nat -> length sndwnd = 65%nat ->
  cwnd !! Z.to_nat (t - 1) = Some prev ->
  sndwnd !! Z.to_nat (t - 1) = Some acks ->
  ssthresh !! Z.to_nat t = Some ss ->
  rcwnd !! Z.to_nat t = Some rc ->
  B64.update_cwnd cwnd t sndwnd ssthresh rcwnd
  = ('(v, sw) ← Rule.update prev acks ss rc;
     Ok (<[Z.to_nat t := v]> cwnd, <[Z.to_nat t := sw]> sndwnd, v)) /\
  (prev = ten \/ prev = B64.Int 10 -> acks = 1 ->
   ss = five \/ ss = B64.Int 5 ->
   forall i, Rule.truncation rc = Ok i ->
   Rule.update prev acks ss rc = Ok (ten_point_one, Z.min i 10)).
Proof.
  intros Ht Hlc Hls Hp Ha Hs Hr. split.
  - apply update_cwnd_rule; try assumption; lia.
  - intros Hprev -> Hss i Hi. unfold Rule.update. rewrite Hi.
    assert (Rule.increments (Z.to_nat 1) ss prev = Ok ten_point_one) as ->
      by (destruct Hprev as [-> | ->], Hss as [-> | ->]; vm_compute; reflexivity).
    bnd.
    change (Rule.truncation ten_point_one) with (@Ok Z 10). bnd.
    unfold Rule.tie_break.
    change (Rule.truncation ten_point_one) with (@Ok Z 10). bnd.
    destruct (Z.min i 10 =? 10); [| reflexivity].
    replace (B64.sub ten_point_one (B64.Int 10))
      with (@Ok B64.num (B64.Float (S754_finite false 7205759403792768 (-56))))
      by (vm_compute; reflexivity).
    reflexivity.
Qed.

Lemma update_cwnd_follows_rule_witness :
  B64.update_cwnd cwnd64_1_6_at_3 4 (replicate 65 1) (replicate 65 (B64.Int 1))
    rcwnd64_hundred
  = Ok (<[4%nat := two_point_23]> cwnd64_1_6_at_3,
        <[4%nat := 2]> (replicate 65 1), two_point_23) /\
  B64.update_cwnd cwnd64_9_55_at_3 4 (replicate 65 0) ssthresh64_hundred
    rcwnd64_hundred
  = Ok (<[4%nat := B64.Int 10]> cwnd64_9_55_at_3,
        <[4%nat := 9]> (replicate 65 0), B64.Int 10) /\
  B64.update_cwnd cwnd64_ten_at_3 4 (replicate 65 1) ssthresh64_five
    rcwnd64_hundred
  = Ok (<[4%nat := ten_point_one]> cwnd64_ten_at_3,
        <[4%nat := 10]> (replicate 65 1), ten_point_one).
Proof.
  split; [| split].
  - rewrite (proj1 (update_cwnd_follows_rule cwnd64_1_6_at_3 4 (replicate 65 1)
                      (replicate 65 (B64.Int 1)) rcwnd64_hundred
                      (B64.Float (B64.of_Q (16 # 10))) 1 (B64.Int 1) hundred
                      ltac:(lia) eq_refl eq_refl eq_refl eq_refl eq_refl eq_refl)).
    replace (Rule.update (B64.Float (B64.of_Q (16 # 10))) 1 (B64.Int 1) hundred)
      with (@Ok (B64.num * Z) (two_point_23, 2)) by (vm_compute; reflexivity).
    reflexivity.
  - rewrite (proj1 (update_cwnd_follows_rule cwnd64_9_55_at_3 4 (replicate 65 0)
                      ssthresh64_hundred rcwnd64_hundred
                      (B64.Float (B64.of_Q (955 # 100))) 0 hundred hundred
                      ltac:(lia) eq_refl eq_refl eq_refl eq_refl eq_refl eq_refl)).
    replace (Rule.update (B64.Float (B64.of_Q (955 # 100))) 0 hundred hundred)
      with (@Ok (B64.num * Z) (B64.Int 10, 9)) by (vm_compute; reflexivity).
    reflexivity.
  - destruct (update_cwnd_follows_rule cwnd64_ten_at_3 4 (replicate 65 1)
                ssthresh64_five rcwnd64_hundred ten 1 (B64.Int 5) hundred
                ltac:(lia) eq_refl eq_refl eq_refl eq_refl eq_refl eq_refl)
      as [Hrule Hexample].
    rewrite Hrule.
    rewrite (Hexample (or_introl eq_refl) eq_refl (or_intror eq_refl) 100 eq_refl).
    reflexivity.
Defined.

(** * Further properties of the simulation loop *)

(** ** The states of a run *)




(** ** Exceptions raised by a pass *)




(** ** Packets sent *)

Lemma flight_within (total_packets : Q) (st : sim_state) (sw : Z) :
  (inject_Z (total_sent st) <= total_packets)%Q ->
  (inject_Z (total_sent st + flight total_packets st sw) <= total_packets)%Q.
Proof.
  intros H. unfold flight. rewrite min_spec.
  pose proof (sub_eq total_packets (inject_Z (total_sent st))) as E.
  assert (0 <= Py.sub total_packets (inject_Z (total_sent st)))%Q as Hs by lra.
  pose proof (int_le _ Hs) as Hi.
  set (r := Py.int (Py.sub total_packets (inject_Z (total_sent st)))) in *.
  assert (inject_Z (Z.min sw r) <= inject_Z r)%Q as Hm
    by (rewrite <- Zle_Qle; lia).
  rewrite inject_Z_plus. lra.
Qed.

Lemma flight_nonneg (total_packets : Q) (st : sim_state) (rc cw : Q) :
  (0 <= rc)%Q -> (1 <= cw)%Q ->
  (inject_Z (total_sent st) <= total_packets)%Q ->
  0 <= flight total_packets st (send_window rc cw).
Proof.
  intros Hrc Hcw H. unfold flight, send_window. rewrite !min_spec.
  pose proof (sub_eq total_packets (inject_Z (total_sent st))) as E.
  assert (0 <= Py.sub total_packets (inject_Z (total_sent st)))%Q as Hs by lra.
  pose proof (int_nonneg _ Hs). pose proof (int_nonneg rc Hrc).
  pose proof (int_ge_1 cw Hcw). lia.
Qed.

Lemma step_unsent_kept
    (total_data : Z) (total_packets : Q) (rcwnd : list Q)
    (working_binary : list Z) (st st' : sim_state) :
  step total_data total_packets rcwnd working_binary st st' Next ->
  (inject_Z (total_sent st) < total_packets)%Q ->
  (inject_Z (total_sent st') < total_packets)%Q.
Proof.
  intros Hstep H. inversion Hstep as
    [rc cw Hrc Hcw Hwb Heq
    | rc cw ss1 rc1 v sw1 Hlt64 Hrc Hcw Hwb Heq Hss1 Hrc1 Hnw
    | rc cw sw1 Hin Hrc Hcw Hwb Hsw1
    | rc cw wb Hrc Hcw Hwb Hn0 Hn1]; subst; proj; try assumption.
  pose proof (flight_within total_packets st (send_window rc cw)) as Hle.
  destruct (Qlt_le_dec
              (inject_Z (total_sent st + flight total_packets st (send_window rc cw)))
              total_packets) as [|Hge]; [assumption |].
  assert (Py.eqb (inject_Z (total_sent st
                    + flight total_packets st (send_window rc cw)))
            total_packets = true) as Habs by (apply eqb_eq; lra).
  congruence.
Qed.

(** When there is something to send, the loop is only left through
    [break], with every packet sent. *)
Lemma exit_through_break
    (total_data : Z) (total_packets : Q) (rcwnd : list Q)
    (working_binary : list Z) (ssthresh0 : list Q)
    (fuel : nat) (st : sim_state) (e : exit) :
  length rcwnd = 65%nat -> length working_binary = 65%nat ->
  length ssthresh0 = 65%nat ->
  (0 < total_packets)%Q ->
  while_loop total_data total_packets rcwnd working_binary fuel
    (init_state ssthresh0) = Ok (st, Exited e) ->
  e = ExitBreak /\ (inject_Z (total_sent st) == total_packets)%Q /\ t st <= 64.
Proof.
  intros Hrc Hwb Hss Hpos Hrun.
  pose proof (run_good _ _ _ _ Hrc Hwb _ _ _ _ Hss Hrun) as (_ & Hlt & _).
  set (P := fun st => good st /\ (inject_Z (total_sent st) < total_packets)%Q).
  assert (P (init_state ssthresh0)) as Hinit
    by (split; [now apply good_init | exact Hpos]).
  assert (forall st0 st1, P st0 -> loop_cond total_packets st0 = true ->
            loop_body total_data total_packets rcwnd working_binary st0
              = Ok (st1, Next) -> P st1) as Hpass.
  { intros st0 st1 [Hg H0] _ Hb.
    assert (step total_data total_packets rcwnd working_binary st0 st1 Next) as Hstep.
    { destruct Hg as (Hwf & Ht & Hb2 & _). apply loop_body_step; auto; lia. }
    split; [exact (step_good _ _ _ _ Hrc Hwb _ _ _ Hg Hstep) |].
    exact (step_unsent_kept _ _ _ _ _ _ Hstep H0). }
  pose proof (while_loop_result total_data total_packets rcwnd working_binary P
                Hpass fuel _ st (Exited e) Hinit Hrun) as Hres.
  destruct e.
  - destruct Hres as [[Hg Hu] Hc].
    pose proof (loop_cond_false _ _ Hc Hu). lia.
  - destruct Hres as (st1 & [Hg1 Hu1] & _ & Hb).
    assert (step total_data total_packets rcwnd working_binary st1 st Break) as Hstep.
    { destruct Hg1 as (Hwf & Ht & Hb2 & _). apply loop_body_step; auto; lia. }
    split; [reflexivity |]. split; [| lia].
    inversion Hstep as [rc cw Hrc' Hcw Hwb' Heq | | |]; subst; proj.
    now apply eqb_eq.
Qed.

(** X3. When there is something to send ([total_packets > 0]), the loop
    is only ever left through [break], with [total_sent] equal to
    [total_packets]: a run that returns has sent every packet, and the
    loop condition never ends a run. *)
Theorem normal_return_means_complete
    (total_data : Z) (total_packets : Q) (rcwnd : list Q)
    (working_binary : list Z) (ssthresh0 : list Q)
    (fuel : nat) (st : sim_state) (e : exit) :
  length rcwnd = 65%nat -> length working_binary = 65%nat ->
  length ssthresh0 = 65%nat ->
  (0 < total_packets)%Q ->
  while_loop total_data total_packets rcwnd working_binary fuel
    (init_state ssthresh0) = Ok (st, Exited e) ->
  e = ExitBreak /\ (inject_Z (total_sent st) == total_packets)%Q /\ t st <= 64.
Proof. apply exit_through_break. Qed.

Lemma normal_return_means_complete_witness :
  exists st,
    while_loop 5 5 rcwnd_wide no_loss 3 (init_state (ssthresh_uniform 100))
      = Ok (st, Exited ExitBreak) /\
    ExitBreak = ExitBreak /\ (inject_Z (total_sent st) == 5)%Q /\ t st <= 64.
Proof.
  eexists. split; [vm_compute; reflexivity |].
  refine (normal_return_means_complete 5 5 rcwnd_wide no_loss (ssthresh_uniform 100)
            3 _ ExitBreak eq_refl eq_refl eq_refl _ _).
  - reflexivity.
  - vm_compute. reflexivity.
Defined.

(** X4. With a receiver window that is never negative and a total that is
    not negative, [total_sent] is never negative, never exceeds
    [total_packets], and never decreases from one state of a run to a
    later one. *)
Theorem total_sent_bounds
    (total_data : Z) (total_packets : Q) (rcwnd : list Q)
    (working_binary : list Z) (ssthresh0 : list Q)
    (fuel fuel' : nat) (st st' : sim_state) (s s' : status) :
  length rcwnd = 65%nat -> length working_binary = 65%nat ->
  length ssthresh0 = 65%nat ->
  Forall (fun rc => 0 <= rc)%Q rcwnd ->
  (0 <= total_packets)%Q ->
  while_loop total_data total_packets rcwnd working_binary fuel
    (init_state ssthresh0) = Ok (st, s) ->
  while_loop total_data total_packets rcwnd working_binary fuel' st
    = Ok (st', s') ->
  0 <= total_sent st /\ total_sent st <= total_sent st' /\
  (inject_Z (total_sent st') <= total_packets)%Q.
Proof.
  intros Hrc Hwb Hss Hrcn Hpos Hrun Hrun'.
  set (P := fun st => good st /\ 0 <= total_sent st /\
                      (inject_Z (total_sent st) <= total_packets)%Q).
  assert (forall st0 st1 f, P st0 ->
            loop_body total_data total_packets rcwnd working_binary st0
              = Ok (st1, f) ->
            P st1 /\ total_sent st0 <= total_sent st1) as Hpass.
  { intros st0 st1 f (Hg & H0 & Hle) Hb.
    assert (step total_data total_packets rcwnd working_binary st0 st1 f) as Hstep.
    { destruct Hg as (Hwf & Ht & Hb2 & _). apply loop_body_step; auto; lia. }
    pose proof (step_good _ _ _ _ Hrc Hwb _ _ _ Hg Hstep) as Hg1.
    destruct Hg as (_ & _ & _ & H1 & _).
    destruct Hstep as
      [rc cw Hrc' Hcw Hwb' Heq
      | rc cw ss1 rc1 v sw1 Hlt64 Hrc' Hcw Hwb' Heq Hss1 Hrc1 Hnw
      | rc cw sw1 Hin Hrc' Hcw Hwb' Hsw1
      | rc cw wb Hrc' Hcw Hwb' Hn0 Hn1];
      (split; [split; [exact Hg1 | split] |]); proj; try assumption; try lia.
    all: pose proof (flight_nonneg total_packets st0 rc cw
                       (Forall_lookup_1 _ _ _ _ Hrcn Hrc')
                       (Forall_lookup_1 _ _ _ _ H1 Hcw) Hle);
         pose proof (flight_within total_packets st0 (send_window rc cw) Hle);
         try assumption; lia. }
  assert (P st) as HP.
  { refine (while_loop_invariant total_data total_packets rcwnd working_binary P
              _ fuel _ st s _ Hrun).
    - intros st0 st1 f HP0 _ Hb. now destruct (Hpass _ _ _ HP0 Hb).
    - split; [now apply good_init |]. split; [simpl; lia | exact Hpos]. }
  assert (P st' /\ total_sent st <= total_sent st') as [(_ & _ & Hle') Hmono].
  { refine (while_loop_invariant total_data total_packets rcwnd working_binary
              (fun st0 => P st0 /\ total_sent st <= total_sent st0)
              _ fuel' st st' s' _ Hrun').
    - intros st0 st1 f [HP0 Hm] _ Hb.
      destruct (Hpass _ _ _ HP0 Hb). split; [assumption | lia].
    - split; [assumption | lia]. }
  destruct HP as (_ & H0 & _). auto.
Qed.

Lemma total_sent_bounds_witness :
  0 <= total_sent state_at_loss /\
  total_sent state_at_loss <= total_sent state_after_loss /\
  (inject_Z (total_sent state_after_loss) <= 1000)%Q.
Proof.
  refine (total_sent_bounds 1000 1000 rcwnd_wide loss_at_4 (ssthresh_uniform 2)
            4 1 state_at_loss state_after_loss Running Running
            eq_refl eq_refl eq_refl _ _ state_at_loss_reached _).
  - apply Forall_replicate. lra.
  - lra.
  - vm_compute. reflexivity.
Defined.

(** ** The send window against the congestion window *)






(** ** The trailing loops *)

Lemma mark_loop (wb : list Z) (n k : nat) (s : list Z) :
  (k + n <= length wb)%nat -> (k + n <= length s)%nat ->
  exists s',
    Py.for_loop n (Z.of_nat k)
      (fun x s => w ← Py.get wb x; if w =? -1 then Py.set s x (-1) else Ok s) s
    = Ok s' /\
    length s' = length s /\
    forall i : nat,
      s' !! i = if (k <=? i)%nat && (i <? k + n)%nat
                   && bool_decide (wb !! i = Some (-1))
                then Some (-1) else s !! i.
Proof.
  revert k s. induction n as [|n IH]; intros k s Hwb Hs.
  - exists s. repeat split. intros i.
    destruct (Nat.leb_spec k i), (Nat.ltb_spec i (k + 0)); simpl; try reflexivity; lia.
  - destruct (lookup_lt_is_Some_2 wb k) as [w Hw]; [lia |].
    cbn [Py.for_loop].
    rewrite (get_in_range wb (Z.of_nat k) w) by (rewrite ?Nat2Z.id; auto; lia).
    cbn [mbind result_bind].
    replace (Z.of_nat k + 1) with (Z.of_nat (S k)) by lia.
    destruct (Z.eqb_spec w (-1)) as [-> | Hne].
    + rewrite set_in_range by lia. cbn [mbind result_bind]. rewrite Nat2Z.id.
      destruct (IH (S k) (<[k := -1]> s)) as (s' & -> & Hlen & Hlook);
        [lia | rewrite length_insert; lia |].
      exists s'. split; [reflexivity |]. split; [now rewrite Hlen, length_insert |].
      intros i. rewrite Hlook. destruct (Nat.eq_dec i k) as [-> | Hik].
      * rewrite list_lookup_insert_eq by lia.
        rewrite (bool_decide_eq_true_2 _ Hw).
        destruct (Nat.leb_spec (S k) k), (Nat.leb_spec k k),
          (Nat.ltb_spec k (k + S n)); simpl; try reflexivity; lia.
      * rewrite list_lookup_insert_ne by lia.
        destruct (Nat.leb_spec (S k) i), (Nat.leb_spec k i),
          (Nat.ltb_spec i (S k + n)), (Nat.ltb_spec i (k + S n));
          simpl; try reflexivity; lia.
    + cbn [mbind result_bind].
      destruct (IH (S k) s) as (s' & -> & Hlen & Hlook); [lia | lia |].
      exists s'. split; [reflexivity |]. split; [assumption |].
      intros i. rewrite Hlook. destruct (Nat.eq_dec i k) as [-> | Hik].
      * rewrite (bool_decide_eq_false_2 (wb !! k = Some (-1))) by congruence.
        rewrite !andb_false_r. reflexivity.
      * destruct (Nat.leb_spec (S k) i), (Nat.leb_spec k i),
          (Nat.ltb_spec i (S k + n)), (Nat.ltb_spec i (k + S n));
          simpl; try reflexivity; lia.
Qed.

(** X6. The trailing loops never raise on a state whose step is between 0
    and 65: they set the step to 65, leave [cwnd], [ssthresh],
    [total_sent] and [back_off] alone, and replace by the sentinel -1 the
    send window of every step from the current one on (the step at which
    the transfer completed included) and of every step marked lost; every
    other send window is kept. *)
Theorem finalize_marks_inactive
    (working_binary : list Z) (st : sim_state) :
  length working_binary = 65%nat -> length (sndwnd st) = 65%nat ->
  0 <= t st <= 65 ->
  exists st',
    finalize working_binary st = Ok st' /\
    t st' = 65 /\ cwnd st' = cwnd st /\ ssthresh st' = ssthresh st /\
    total_sent st' = total_sent st /\ back_off st' = back_off st /\
    forall (i : nat) (w x : Z),
      working_binary !! i = Some w -> sndwnd st !! i = Some x ->
      sndwnd st' !! i
      = Some (if (t st <=? Z.of_nat i) || (w =? -1) then -1 else x).
Proof.
  intros Hwb Hls Ht. unfold finalize.
  assert (Py.for_range (t st) 65 (fun i s => Py.set s i (-1)) (sndwnd st)
          = Ok (Py.fill_from (Z.to_nat (t st)) (-1) (sndwnd st))) as ->.
  { replace 65 with (Z.of_nat (length (sndwnd st))) by lia.
    apply for_range_fill. lia. }
  cbn [mbind result_bind].
  unfold Py.for_range. replace (Z.to_nat (65 - 0)) with 65%nat by lia.
  destruct (mark_loop working_binary 65 0
              (Py.fill_from (Z.to_nat (t st)) (-1) (sndwnd st)))
    as (s' & Hloop & Hlen & Hlook); [lia | rewrite fill_from_length; lia |].
  change (Z.of_nat 0) with 0 in Hloop. rewrite Hloop. cbn [mbind result_bind].
  eexists. split; [reflexivity |]. proj.
  repeat split; try lia.
  intros i w x Hw Hx. rewrite Hlook.
  assert (i < 65)%nat as Hi by (apply lookup_lt_Some in Hw; lia).
  destruct (Nat.leb_spec 0 i), (Nat.ltb_spec i (0 + 65)); try lia. cbn [andb].
  destruct (Z.eqb_spec w (-1)) as [-> | Hne].
  - rewrite (bool_decide_eq_true_2 _ Hw). now rewrite orb_true_r.
  - rewrite (bool_decide_eq_false_2 (working_binary !! i = Some (-1)))
      by congruence.
    rewrite orb_false_r. destruct (Z.leb_spec (t st) (Z.of_nat i)).
    + apply fill_from_lookup_ge. lia.
    + rewrite fill_from_lookup_lt by lia. assumption.
Qed.

Lemma finalize_marks_inactive_witness :
  exists st',
    finalize loss_at_4 state_after_loss = Ok st' /\
    t st' = 65 /\ cwnd st' = cwnd state_after_loss /\
    ssthresh st' = ssthresh state_after_loss /\
    total_sent st' = total_sent state_after_loss /\
    back_off st' = back_off state_after_loss /\
    forall (i : nat) (w x : Z),
      loss_at_4 !! i = Some w -> sndwnd state_after_loss !! i = Some x ->
      sndwnd st' !! i
      = Some (if (t state_after_loss <=? Z.of_nat i) || (w =? -1) then -1 else x).
Proof.
  refine (finalize_marks_inactive loss_at_4 state_after_loss eq_refl eq_refl _).
  vm_compute. split; discriminate.
Defined.

(** * Further properties of [update_cwnd] *)







Lemma int_of_integer (x : Q) (m : Z) : (x == inject_Z m)%Q -> Py.int x = m.
Proof.
  unfold Qeq, Py.int. simpl. intros H. rewrite Z.mul_1_r in H. rewrite H.
  apply Z.quot_mul. discriminate.
Qed.

Lemma round2_integer (x : Q) (m : Z) :
  (x == inject_Z m)%Q -> Py.round2 x = inject_Z m.
Proof.
  intros H. rewrite (round2_comp x (inject_Z m) H).
  unfold Py.round2.
  transitivity (Qred (inject_Z m)); [| apply inject_Z_Qred]. apply Qred_complete.
  rewrite (round_half_even_comp _ (inject_Z (m * 100)))
    by (rewrite inject_Z_mult; reflexivity).
  rewrite round_half_even_Z, Qmake_Qdiv, inject_Z_mult.
  change (inject_Z 100) with 100%Q. change (inject_Z (Z.pos 100)) with 100%Q. field.
Qed.

Lemma tie_break_integer (sw : Z) (g : Q) (m : Z) :
  (g == inject_Z m)%Q -> tie_break sw g = g.
Proof.
  intros H. unfold tie_break. rewrite (int_of_integer g m H).
  destruct (Py.ltb (55 # 100) (Py.sub g (inject_Z m))) eqn:E.
  - apply ltb_lt in E. rewrite sub_eq in E. lra.
  - now rewrite andb_false_r.
Qed.

Lemma grow_slow_start (n : nat) (ss cw : Q) (k : Z) :
  (cw == inject_Z k)%Q ->
  ((0 < n)%nat -> (inject_Z (k + Z.of_nat n) - 1 < ss)%Q) ->
  exists g, grow n ss cw = Ok g /\ (g == inject_Z (k + Z.of_nat n))%Q.
Proof.
  revert cw k. induction n as [|n IH]; intros cw k He Hss; simpl grow.
  - exists cw. split; [reflexivity |]. now rewrite Z.add_0_r.
  - specialize (Hss ltac:(lia)).
    rewrite Nat2Z.inj_succ, <- Z.add_1_r, Z.add_assoc in Hss.
    rewrite !inject_Z_plus in Hss. change (inject_Z 1) with 1%Q in Hss.
    assert (0 <= inject_Z (Z.of_nat n))%Q as Hn
      by (change 0%Q with (inject_Z 0); rewrite <- Zle_Qle; lia).
    unfold grow_once.
    assert (Py.ltb cw ss = true) as -> by (apply ltb_lt; lra).
    cbn [mbind result_bind].
    destruct (IH (Py.add cw 1) (k + 1)) as (g & -> & Hg).
    + rewrite add_eq, He, inject_Z_plus. reflexivity.
    + intros _. rewrite !inject_Z_plus. change (inject_Z 1) with 1%Q. lra.
    + exists g. split; [reflexivity |]. rewrite Hg.
      rewrite Nat2Z.inj_succ, <- Z.add_1_r, !inject_Z_plus. ring.
Qed.

(** X8. Slow start is exact on whole windows: when the previous window is
    the integer [k], [n >= 0] acknowledgments arrive and [k + n - 1] is
    still below the threshold, [update_cwnd] returns exactly [k + n] (no
    tie-break, no rounding) and stores [min(int(rcwnd[t]), k + n)] as the
    send window.  With [n = k] the window doubles. *)
Theorem update_cwnd_slow_start
    (cwnd : list Q) (t : Z) (sndwnd : list Z) (ssthresh rcwnd : list Q)
    (prev : Q) (k n : Z) (ss rc : Q) :
  1 <= t <= 64 ->
  length cwnd = 65%nat -> length sndwnd = 65%nat ->
  cwnd !! Z.to_nat (t - 1) = Some prev ->
  sndwnd !! Z.to_nat (t - 1) = Some n ->
  ssthresh !! Z.to_nat t = Some ss ->
  rcwnd !! Z.to_nat t = Some rc ->
  (prev == inject_Z k)%Q -> 0 <= n ->
  (0 < n -> (inject_Z (k + n) - 1 < ss)%Q) ->
  update_cwnd cwnd t sndwnd ssthresh rcwnd
  = Ok (<[Z.to_nat t := inject_Z (k + n)]> cwnd,
        <[Z.to_nat t := Py.min (Py.int rc) (k + n)]> sndwnd,
        inject_Z (k + n)).
Proof.
  intros Ht Hlc Hls Hp Ha Hs Hr He Hn Hss.
  rewrite (update_cwnd_eq cwnd t sndwnd ssthresh rcwnd prev n ss rc);
    try assumption; try lia.
  unfold next_window.
  destruct (grow_slow_start (Z.to_nat n) ss prev k He) as (g & -> & Hg).
  { intros Hpos. rewrite Z2Nat.id by lia. apply Hss. lia. }
  rewrite Z2Nat.id in Hg by lia.
  cbn [mbind result_bind].
  rewrite (tie_break_integer _ g (k + n) Hg), (round2_integer g (k + n) Hg),
    (int_of_integer g (k + n) Hg).
  reflexivity.
Qed.

Lemma update_cwnd_slow_start_witness :
  update_cwnd (cwnd state_at_loss) 2 (sndwnd state_at_loss) (replicate 65 100%Q)
    rcwnd_wide
  = Ok (<[Z.to_nat 2 := inject_Z (2 + 2)]> (cwnd state_at_loss),
        <[Z.to_nat 2 := Py.min (Py.int 100) (2 + 2)]> (sndwnd state_at_loss),
        inject_Z (2 + 2)).
Proof.
  refine (update_cwnd_slow_start (cwnd state_at_loss) 2 (sndwnd state_at_loss)
            (replicate 65 100%Q) rcwnd_wide 2 2 2 100 100 _ eq_refl eq_refl
            eq_refl eq_refl eq_refl eq_refl _ _ _).
  - lia.
  - reflexivity.
  - lia.
  - intros _. vm_compute. reflexivity.
Defined.

Lemma get_negative {A} (l : list A) (i : Z) (x : A) :
  - Z.of_nat (length l) <= i < 0 ->
  l !! Z.to_nat (Z.of_nat (length l) + i) = Some x ->
  Py.get l i = Ok x.
Proof.
  intros Hi Hx. unfold Py.get, Py.index.
  destruct (Z.leb_spec 0 i); [lia |]. cbn [andb].
  destruct (Z.leb_spec (- Z.of_nat (length l)) i); [| lia].
  destruct (Z.ltb_spec i 0); [| lia]. cbn [andb mbind result_bind].
  now rewrite Hx.
Qed.

(** X10. Edge behaviour of [update_cwnd].  Called with [t = 0] it does
    not fail: Python's index -1 makes it take the entries of step 64 as
    the previous step.  With a previous window of 0 that is not below the
    threshold and at least one acknowledgment it raises
    [ZeroDivisionError]. *)
Theorem update_cwnd_edges
    (cwnd : list Q) (sndwnd : list Z) (ssthresh rcwnd : list Q) :
  length cwnd = 65%nat -> length sndwnd = 65%nat ->
  (forall last acks ss rc,
     cwnd !! 64%nat = Some last -> sndwnd !! 64%nat = Some acks ->
     ssthresh !! 0%nat = Some ss -> rcwnd !! 0%nat = Some rc ->
     update_cwnd cwnd 0 sndwnd ssthresh rcwnd
     = ('(v, sw) ← next_window last acks ss rc;
        Ok (<[0%nat := v]> cwnd, <[0%nat := sw]> sndwnd, v))) /\
  (forall t prev acks ss,
     1 <= t <= 64 ->
     cwnd !! Z.to_nat (t - 1) = Some prev -> sndwnd !! Z.to_nat (t - 1) = Some acks ->
     ssthresh !! Z.to_nat t = Some ss ->
     (prev == 0)%Q -> (ss <= 0)%Q -> 1 <= acks ->
     update_cwnd cwnd t sndwnd ssthresh rcwnd = Raise ZeroDivisionError).
Proof.
  intros Hlc Hls. split.
  - intros last acks ss rc Hl Ha Hs Hr.
    unfold update_cwnd, next_window, Py.repeat_n, Py.for_range.
    assert (Py.get cwnd (0 - 1) = Ok last) as ->.
    { apply get_negative; rewrite Hlc; [lia | exact Hl]. }
    cbn [mbind result_bind].
    rewrite (set_in_range cwnd 0) by lia. cbn [mbind result_bind].
    assert (Py.get sndwnd (0 - 1) = Ok acks) as ->.
    { apply get_negative; rewrite Hls; [lia | exact Ha]. }
    cbn [mbind result_bind]. change (Z.to_nat 0) with 0%nat.
    rewrite (repeat_ack_eq _ _ 0 ssthresh _ last ss); try assumption; try lia;
      [| apply list_lookup_insert_eq; lia].
    rewrite Z.sub_0_r. change (Z.to_nat 0) with 0%nat.
    destruct (grow (Z.to_nat acks) ss last) as [g|e]; cbn [mbind result_bind];
      [| reflexivity].
    rewrite list_insert_insert_eq.
    rewrite (get_in_range rcwnd 0 rc) by (auto; lia). cbn [mbind result_bind].
    change 0%nat with (Z.to_nat 0).
    repeat py_step.
    fold (tie_break (Py.min (Py.int rc) (Py.int g)) g). unfold tie_break.
    destruct ((Py.min (Py.int rc) (Py.int g) =? Py.int g) && _); bnd;
      repeat py_step; reflexivity.
  - intros t prev acks ss Ht Hp Ha Hs H0 Hss Hacks.
    unfold update_cwnd, Py.repeat_n, Py.for_range.
    assert (0 <= t - 1) as Ht1 by lia. assert (0 <= t) as Ht0 by lia.
    rewrite (get_in_range _ _ _ Ht1 Hp). bnd.
    rewrite set_in_range by lia. bnd.
    rewrite (get_in_range _ _ _ Ht1 Ha). bnd.
    rewrite (repeat_ack_eq _ _ t ssthresh _ prev ss); try assumption; try lia;
      [| apply list_lookup_insert_eq; lia].
    rewrite Z.sub_0_r.
    destruct (Z.to_nat acks) as [|n] eqn:En; [lia |].
    simpl grow. unfold grow_once.
    assert (Py.ltb prev ss = false) as -> by (apply ltb_ge; lra).
    unfold Py.div.
    assert (Py.eqb prev 0 = true) as -> by now apply eqb_eq.
    reflexivity.
Qed.

Lemma update_cwnd_edges_witness :
  update_cwnd (replicate 65 0%Q) 1 (replicate 65 1) (replicate 65 0%Q) rcwnd_wide
  = Raise ZeroDivisionError.
Proof.
  refine (proj2 (update_cwnd_edges (replicate 65 0%Q) (replicate 65 1)
                   (replicate 65 0%Q) rcwnd_wide eq_refl eq_refl)
            1 0%Q 1 0%Q _ eq_refl eq_refl eq_refl _ _ _).
  - lia.
  - reflexivity.
  - unfold Qle; simpl; lia.
  - lia.
Defined.

(** * Further properties of the input functions *)

Lemma for_loop_set_keeps {A} (P : A -> Prop) (n : nat) (i : Z) (v : A)
    (l l' : list A) :
  Py.for_loop n i (fun idx r => Py.set r idx v) l = Ok l' ->
  length l' = length l /\ (P v -> Forall P l -> Forall P l').
Proof.
  revert i l. induction n as [|n IH]; intros i l; simpl.
  - intros [= <-]. auto.
  - intros H. apply bind_ok in H as (l1 & Hset & Hrest).
    destruct (IH _ _ Hrest) as [Hlen Hall].
    pose proof (set_length _ _ _ _ Hset) as Hlen1.
    split; [congruence |].
    intros Hv Hl. apply Hall; [assumption |].
    unfold Py.set in Hset. apply bind_ok in Hset as (k & _ & [= <-]).
    now apply Forall_insert.
Qed.

Lemma get_working_binary_from_keeps (n : nat) :
  forall (wb : list Z) (rtt : Q) (tp tp' : tape) (wb' : list Z),
    (length tp <= n)%nat ->
    get_working_binary_from wb rtt tp = Ok (wb', tp') ->
    length wb' = length wb /\
    (Forall (fun w => w = 0 \/ w = -1) wb -> Forall (fun w => w = 0 \/ w = -1) wb') /\
    (length tp' < length tp)%nat.
Proof.
  induction n as [|n IH]; intros wb rtt tp tp' wb' Hn H.
  - destruct tp; [discriminate | simpl in Hn; lia].
  - destruct tp as [|x tp1]; [discriminate |]. simpl in H.
    apply bind_ok in H as (start_error & _ & H).
    destruct (Py.ltb 100 start_error).
    + injection H as <- <-. simpl. repeat split; auto.
    + destruct tp1 as [|y tp2]; [discriminate |].
      apply bind_ok in H as (end_error & _ & H).
      apply bind_ok in H as (wb1 & Hloop & H).
      unfold Py.for_range in Hloop.
      destruct (for_loop_set_keeps (fun w => w = 0 \/ w = -1) _ _ _ _ _ Hloop)
        as [Hlen1 Hall1].
      destruct (IH wb1 rtt tp2 tp' wb' ltac:(simpl in Hn; lia) H)
        as (Hlen & Hall & Htp).
      split; [congruence |]. split; [| simpl; lia].
      intros Hwb. apply Hall, Hall1; auto.
Qed.

(** X11. Whatever the operator enters, a loss schedule that
    [get_working_binary] returns has 65 entries, each of them 0 or -1, and
    at least one entry of the tape has been consumed. *)
Theorem get_working_binary_markers
    (rtt : Q) (tp tp' : tape) (working_binary : list Z) :
  get_working_binary rtt tp = Ok (working_binary, tp') ->
  length working_binary = 65%nat /\
  Forall (fun w => w = 0 \/ w = -1) working_binary /\
  (length tp' < length tp)%nat.
Proof.
  unfold get_working_binary. intros H.
  destruct (get_working_binary_from_keeps (length tp) _ _ _ _ _ (le_n _) H)
    as (Hlen & Hall & Htp).
  rewrite length_replicate in Hlen. repeat split; try assumption.
  apply Hall. apply Forall_replicate. now left.
Qed.

Lemma get_working_binary_markers_witness :
  length (<[2%nat := -1]> (<[3%nat := -1]> no_loss)) = 65%nat /\
  Forall (fun w => w = 0 \/ w = -1) (<[2%nat := -1]> (<[3%nat := -1]> no_loss)) /\
  (length (@nil Q) < length [1; 2; 100]%Q)%nat.
Proof.
  exact (get_working_binary_markers (1 # 2) [1; 2; 100]%Q []
           (<[2%nat := -1]> (<[3%nat := -1]> no_loss)) eq_refl).
Defined.

Lemma update_rcwnd_keeps (n : nat) :
  forall (rcwnd : list Q) (rtt : Q) (mss : Z) (tp tp' : tape) (rcwnd' : list Q),
    (length tp <= n)%nat ->
    update_rcwnd rcwnd rtt mss tp = Ok (rcwnd', tp') ->
    length rcwnd' = length rcwnd /\ (length tp' < length tp)%nat.
Proof.
  induction n as [|n IH]; intros rcwnd rtt mss tp tp' rcwnd' Hn H.
  - destruct tp; [discriminate | simpl in Hn; lia].
  - destruct tp as [|x tp1]; [discriminate |]. simpl in H.
    apply bind_ok in H as (update_time & _ & H).
    destruct (Py.ltb 65 update_time).
    + injection H as <- <-. simpl. split; auto.
    + destruct tp1 as [|y tp2]; [discriminate |].
      apply bind_ok in H as (new_int & _ & H).
      apply bind_ok in H as (new_val & _ & H).
      apply bind_ok in H as (rc1 & Hloop & H).
      unfold Py.for_range in Hloop.
      destruct (for_loop_set_keeps (fun _ => True) _ _ _ _ _ Hloop) as [Hlen1 _].
      destruct (IH rc1 rtt mss tp2 tp' rcwnd' ltac:(simpl in Hn; lia) H)
        as (Hlen & Htp).
      split; [congruence | simpl; lia].
Qed.

(** * The program as a whole *)

(** X12. Whenever [main] returns (with fuel for 65 passes, which always
    suffices), the loop has been left, the trailing loops have moved the
    step to 65, and, if the file is not empty, the loop was left through
    [break] with [total_sent] equal to [total_packets]: [main] either
    raises an exception or sends the whole file. *)
Theorem main_returns_complete
    (fuel : nat) (tp tp' : tape) (st : sim_state) (s : status) :
  (65 <= fuel)%nat ->
  main fuel tp = Ok (st, s, tp') ->
  exists p tp1,
    initialize_parameters tp = Ok (p, tp1) /\
    exists e, s = Exited e /\ t st = 65 /\
      ((0 < p_total_packets p)%Q ->
       e = ExitBreak /\ (inject_Z (total_sent st) == p_total_packets p)%Q).
Proof.
  intros Hfuel H. unfold main in H.
  apply bind_ok in H as ([p tp1] & Hinit & H).
  apply bind_ok in H as ([rcwnd tp2] & Hrc & H).
  apply bind_ok in H as ([w1 tp3] & _ & H).
  unfold simulate_tcp_behavior in H.
  apply bind_ok in H as ([wb tp4] & Hwb & H).
  apply bind_ok in H as ([st0 s0] & Hrun & H). injection H as -> -> _.
  exists p, tp1. split; [assumption |].
  destruct (initialize_parameters_ssthresh _ _ _ Hinit) as (v & Hss & Hrc0).
  assert (length (p_ssthresh p) = 65%nat) as Hlss
    by (rewrite Hss; apply length_replicate).
  assert (length rcwnd = 65%nat) as Hlrc.
  { destruct (update_rcwnd_keeps (length tp1) _ _ _ _ _ _ (le_n _) Hrc) as [-> _].
    rewrite Hrc0. apply length_replicate. }
  unfold get_working_binary in Hwb.
  destruct (get_working_binary_from_keeps (length tp3) _ _ _ _ _ (le_n _) Hwb)
    as (Hlwb & Hall & _).
  rewrite length_replicate in Hlwb.
  assert (Forall (fun w => w = 0 \/ w = -1) wb) as Hmark
    by (apply Hall, Forall_replicate; now left).
  unfold run_simulation in Hrun.
  apply bind_ok in Hrun as ([st1 s1] & Hloop & Hfin).
  destruct s1 as [| e].
  - exfalso.
    apply (while_loop_terminates (p_total_data p) (p_total_packets p) rcwnd wb
             Hlrc Hlwb Hmark fuel (init_state (p_ssthresh p)) st1);
      [now apply good_init | cbn [t init_state]; lia | exact Hloop].
  - apply bind_ok in Hfin as (st2 & Hf & Hret). injection Hret as <- <-.
    exists e. split; [reflexivity |].
    pose proof (run_good _ _ _ _ Hlrc Hlwb _ _ _ _ Hlss Hloop) as (_ & Hlt & _).
    destruct (finalize_keeps _ _ _ Hf) as (_ & _ & Hts & _).
    split.
    + unfold finalize in Hf.
      apply bind_ok in Hf as (x1 & _ & Hf). apply bind_ok in Hf as (x2 & _ & Hf).
      injection Hf as <-. proj. lia.
    + intros Hpos.
      destruct (exit_through_break _ _ _ _ _ _ _ _ Hlrc Hlwb Hlss Hpos Hloop)
        as (-> & Heq & _).
      split; [reflexivity | now rewrite Hts].
Qed.

Lemma main_returns_complete_witness :
  exists st,
    main 65 [5; 1; 1 # 2; 100; 0; 100; 100; 100; 100]%Q
      = Ok (st, Exited ExitBreak, []) /\
    exists p tp1,
      initialize_parameters [5; 1; 1 # 2; 100; 0; 100; 100; 100; 100]%Q
        = Ok (p, tp1) /\
      exists e, Exited ExitBreak = Exited e /\ t st = 65 /\
        ((0 < p_total_packets p)%Q ->
         e = ExitBreak /\ (inject_Z (total_sent st) == p_total_packets p)%Q).
Proof.
  eexists. split; [vm_compute; reflexivity |].
  refine (main_returns_complete 65 _ [] _ _ (le_n _) _).
  vm_compute. reflexivity.
Defined.

(** ** How a run ends *)




(** ** Receiver-window overrides *)

Lemma entry_int_integer (z : Z) : entry_int (inject_Z z) = Ok z.
Proof. unfold entry_int. now rewrite inject_Z_Qred. Qed.

Lemma div_nonzero (a b : Q) : ~ (b == 0)%Q -> Py.div a b = Ok (Qred (a / b)).
Proof.
  intros H. unfold Py.div. destruct (Py.eqb b 0) eqn:E; [| reflexivity].
  apply eqb_eq in E. contradiction.
Qed.

Lemma inject_Z_nonzero (z : Z) : z <> 0 -> ~ (inject_Z z == 0)%Q.
Proof. intros H E. apply H. unfold Qeq in E. simpl in E. lia. Qed.

(** ** Marking a range of steps *)

Lemma for_loop_mark (n k : nat) (l : list Z) :
  (k + n <= length l)%nat ->
  exists l',
    Py.for_loop n (Z.of_nat k) (fun idx w => Py.set w idx (-1)) l = Ok l' /\
    length l' = length l /\
    forall i : nat,
      l' !! i = if (k <=? i)%nat && (i <? k + n)%nat then
                  (if (i <? length l)%nat then Some (-1) else None)
                else l !! i.
Proof.
  revert k l. induction n as [|n IH]; intros k l Hk.
  - exists l. repeat split. intros i.
    destruct (Nat.leb_spec k i), (Nat.ltb_spec i (k + 0)); simpl; try reflexivity; lia.
  - cbn [Py.for_loop]. rewrite set_in_range by lia. cbn [mbind result_bind].
    rewrite Nat2Z.id.
    replace (Z.of_nat k + 1) with (Z.of_nat (S k)) by lia.
    destruct (IH (S k) (<[k := -1]> l)) as (l' & Hrun & Hlen & Hlk); [len |].
    exists l'. split; [exact Hrun |]. split; [now rewrite Hlen, length_insert |].
    intros i. rewrite Hlk, length_insert.
    destruct (Nat.eq_dec i k) as [-> | Hne].
    + destruct (Nat.leb_spec (S k) k); [lia |].
      destruct (Nat.leb_spec k k); [| lia].
      destruct (Nat.ltb_spec k (k + S n)); [| lia].
      destruct (Nat.ltb_spec k (length l)); [| lia].
      cbn [andb]. apply list_lookup_insert_eq. lia.
    + rewrite list_lookup_insert_ne by lia.
      destruct (Nat.leb_spec (S k) i), (Nat.leb_spec k i),
        (Nat.ltb_spec i (S k + n)), (Nat.ltb_spec i (k + S n));
        cbn [andb]; try reflexivity; lia.
Qed.

Lemma for_range_mark (lo hi : Z) (l : list Z) :
  0 <= lo -> hi <= Z.of_nat (length l) ->
  exists l',
    Py.for_range lo hi (fun idx w => Py.set w idx (-1)) l = Ok l' /\
    length l' = length l /\
    forall i : nat, (i < length l)%nat ->
      l' !! i = if (lo <=? Z.of_nat i) && (Z.of_nat i <? hi) then Some (-1)
                else l !! i.
Proof.
  intros Hlo Hhi. unfold Py.for_range.
  destruct (Z_lt_le_dec lo hi) as [Hlt | Hge].
  - destruct (for_loop_mark (Z.to_nat (hi - lo)) (Z.to_nat lo) l) as
      (l' & Hrun & Hlen & Hlk); [lia |].
    rewrite Z2Nat.id in Hrun by lia.
    exists l'. split; [exact Hrun |]. split; [exact Hlen |].
    intros i Hi. rewrite Hlk.
    destruct (Nat.ltb_spec i (length l)); [| lia].
    destruct (Nat.leb_spec (Z.to_nat lo) i), (Z.leb_spec lo (Z.of_nat i)),
      (Nat.ltb_spec i (Z.to_nat lo + Z.to_nat (hi - lo))),
      (Z.ltb_spec (Z.of_nat i) hi); cbn [andb]; try reflexivity; lia.
  - replace (Z.to_nat (hi - lo)) with 0%nat by lia.
    exists l. repeat split. intros i Hi.
    destruct (Z.leb_spec lo (Z.of_nat i)), (Z.ltb_spec (Z.of_nat i) hi);
      cbn [andb]; try reflexivity; lia.
Qed.

(** ** Loops over negative indices *)

Lemma for_loop_app {T} (a b : nat) (i : Z) (body : Z -> T -> result T) (s : T) :
  Py.for_loop (a + b) i body s
  = (s' ← Py.for_loop a i body s; Py.for_loop b (i + Z.of_nat a) body s').
Proof.
  revert i s. induction a as [|a IH]; intros i s.
  - cbn [Nat.add Py.for_loop mbind result_bind]. now rewrite Z.add_0_r.
  - cbn [Nat.add Py.for_loop].
    destruct (body i s) as [s1|e]; cbn [mbind result_bind]; [| reflexivity].
    rewrite IH. now replace (i + 1 + Z.of_nat a) with (i + Z.of_nat (S a)) by lia.
Qed.

Lemma set_negative {A} (l : list A) (i : Z) (x : A) :
  - Z.of_nat (length l) <= i < 0 ->
  Py.set l i x = Ok (<[Z.to_nat (Z.of_nat (length l) + i) := x]> l).
Proof.
  intros Hi. unfold Py.set, Py.index.
  destruct (Z.leb_spec 0 i); [lia |]. cbn [andb].
  destruct (Z.leb_spec (- Z.of_nat (length l)) i); [| lia].
  destruct (Z.ltb_spec i 0); [| lia]. reflexivity.
Qed.

Lemma for_loop_set_wrapped {A} (a : nat) (i : Z) (v : A) (l : list A) :
  - Z.of_nat (length l) <= i -> i + Z.of_nat a <= 0 ->
  exists l', Py.for_loop a i (fun idx r => Py.set r idx v) l = Ok l' /\
             length l' = length l.
Proof.
  revert i l. induction a as [|a IH]; intros i l Hlo Hhi.
  - exists l. auto.
  - cbn [Py.for_loop]. rewrite (set_negative l i v) by lia.
    cbn [mbind result_bind].
    destruct (IH (i + 1) (<[Z.to_nat (Z.of_nat (length l) + i) := v]> l))
      as (l' & Hrun & Hlen); [len | lia |].
    exists l'. split; [exact Hrun |]. now rewrite Hlen, length_insert.
Qed.

Lemma fill_from_0 {A} (v : A) (l : list A) :
  Py.fill_from 0 v l = replicate (length l) v.
Proof. unfold Py.fill_from. rewrite take_0, Nat.sub_0_r. reflexivity. Qed.

Lemma for_range_set_wrapped {A} (k : Z) (v : A) (l : list A) :
  - Z.of_nat (length l) <= k <= 0 ->
  Py.for_range k (Z.of_nat (length l)) (fun idx r => Py.set r idx v) l
  = Ok (replicate (length l) v).
Proof.
  intros Hk. unfold Py.for_range.
  replace (Z.to_nat (Z.of_nat (length l) - k))
    with (Z.to_nat (- k) + length l)%nat by lia.
  rewrite for_loop_app.
  destruct (for_loop_set_wrapped (Z.to_nat (- k)) k v l) as (l' & -> & Hlen);
    [lia | lia |].
  cbn [mbind result_bind].
  replace (k + Z.of_nat (Z.to_nat (- k))) with (Z.of_nat 0) by lia.
  rewrite for_loop_fill by lia. now rewrite fill_from_0, Hlen.
Qed.

Lemma for_range_set_below {A} (k hi : Z) (v : A) (l : list A) :
  k < - Z.of_nat (length l) -> k < hi ->
  Py.for_range k hi (fun idx r => Py.set r idx v) l = Raise IndexError.
Proof.
  intros Hk Hhi. unfold Py.for_range.
  destruct (Z.to_nat (hi - k)) as [|n] eqn:E; [lia |].
  cbn [Py.for_loop]. unfold Py.set, Py.index.
  destruct (Z.leb_spec 0 k); [lia |]. cbn [andb].
  destruct (Z.leb_spec (- Z.of_nat (length l)) k); [lia |]. reflexivity.
Qed.

(** ** The parameters *)

Lemma get_user_input_int_integer (z : Z) (tp : tape) :
  get_user_input_int (inject_Z z :: tp) = Ok (z, tp).
Proof.
  unfold get_user_input_int, get_user_input. cbn [mbind result_bind].
  now rewrite entry_int_integer.
Qed.

Lemma initialize_parameters_integers (td mss sv : Z) (rtt : Q) (rest : tape) :
  mss <> 0 ->
  initialize_parameters (inject_Z td :: inject_Z mss :: rtt :: inject_Z sv :: rest)
  = Ok ({| p_total_data := td; p_mss := mss; p_rtt := rtt;
           p_total_packets := Qred (inject_Z td / inject_Z mss);
           p_ssthresh := replicate 65 (Qred (inject_Z sv / inject_Z mss));
           p_rcwnd := replicate 65 1%Q |}, rest).
Proof.
  intros Hm. unfold initialize_parameters.
  rewrite !get_user_input_int_integer. cbn [mbind result_bind].
  rewrite !get_user_input_int_integer. cbn [mbind result_bind].
  rewrite (div_nonzero (inject_Z td)) by now apply inject_Z_nonzero.
  cbn [mbind result_bind get_user_input].
  rewrite !get_user_input_int_integer. cbn [mbind result_bind].
  rewrite (div_nonzero (inject_Z sv)) by now apply inject_Z_nonzero.
  reflexivity.
Qed.

(** ** Division by zero *)

(** X20. A round-trip time of 0 is accepted by [initialize_parameters]
    but makes the first division by it fail: with integer entries and a
    non-zero segment size, [main] raises [ZeroDivisionError] at the first
    entry of the receiver-window input, whatever that entry is. *)
Theorem main_zero_rtt
    (fuel : nat) (td mss sv : Z) (rtt x : Q) (rest : tape) :
  mss <> 0 -> (rtt == 0)%Q ->
  main fuel (inject_Z td :: inject_Z mss :: rtt :: inject_Z sv :: x :: rest)
  = Raise ZeroDivisionError.
Proof.
  intros Hm Hr. unfold main.
  rewrite initialize_parameters_integers by assumption.
  cbn [mbind result_bind p_total_data p_mss p_rtt p_total_packets p_ssthresh p_rcwnd
       update_rcwnd].
  unfold Py.div. now rewrite (proj2 (eqb_eq rtt 0) Hr).
Qed.

Lemma main_zero_rtt_witness :
  main 65 (inject_Z 5 :: inject_Z 1 :: 0%Q :: inject_Z 100 :: 100%Q :: [])
  = Raise ZeroDivisionError.
Proof.
  apply (main_zero_rtt 65 5 1 100 0 100 []); [discriminate | reflexivity].
Defined.

(** ** Slow start over a run *)

Lemma int_lower (x : Q) (m : Z) : 0 <= m -> (inject_Z m <= x)%Q -> m <= Py.int x.
Proof.
  intros Hm H.
  assert (0 <= x)%Q as H0.
  { apply Qle_trans with (inject_Z m); [| assumption].
    change 0%Q with (inject_Z 0). now rewrite <- Zle_Qle. }
  rewrite int_floor by assumption. unfold Py.floor.
  rewrite <- (Qfloor_Z m). now apply Qfloor_resp_le.
Qed.

Lemma min_right (a b : Z) : b <= a -> Py.min a b = b.
Proof. unfold Py.min. destruct (Z.ltb_spec b a); lia. Qed.

Lemma min_left (a b : Z) : a <= b -> Py.min a b = a.
Proof. unfold Py.min. destruct (Z.ltb_spec b a); lia. Qed.

Lemma next_window_slow_start (prev : Q) (k n : Z) (ss rc : Q) :
  (prev == inject_Z k)%Q -> 0 <= n ->
  (0 < n -> (inject_Z (k + n) - 1 < ss)%Q) ->
  next_window prev n ss rc = Ok (inject_Z (k + n), Py.min (Py.int rc) (k + n)).
Proof.
  intros He Hn Hss. unfold next_window.
  destruct (grow_slow_start (Z.to_nat n) ss prev k He) as (g & -> & Hg).
  { intros Hpos. rewrite Z2Nat.id by lia. apply Hss. lia. }
  rewrite Z2Nat.id in Hg by lia.
  cbn [mbind result_bind].
  rewrite (tie_break_integer _ g (k + n) Hg), (round2_integer g (k + n) Hg),
    (int_of_integer g (k + n) Hg).
  reflexivity.
Qed.

Lemma slow_start_passes (total_data : Z) (total_packets : Q)
    (rcwnd ss0 : list Q) (n : nat) :
  length rcwnd = 65%nat -> length ss0 = 65%nat -> (n <= 64)%nat ->
  Forall (fun rc => (inject_Z (2 ^ Z.of_nat n) <= rc)%Q) rcwnd ->
  Forall (fun s => (inject_Z (2 ^ Z.of_nat n - 1) < s)%Q) ss0 ->
  (inject_Z (2 ^ Z.of_nat n - 1) < total_packets)%Q ->
  forall (j i : nat) (st : sim_state),
    (i + j <= n)%nat ->
    wf st -> t st = Z.of_nat i -> ssthresh st = ss0 ->
    total_sent st = 2 ^ Z.of_nat i - 1 ->
    (forall k, (k <= i)%nat -> cwnd st !! k = Some (inject_Z (2 ^ Z.of_nat k))) ->
    (forall k, (k < i)%nat -> sndwnd st !! k = Some (2 ^ Z.of_nat k)) ->
    exists st',
      while_loop total_data total_packets rcwnd no_loss j st = Ok (st', Running) /\
      wf st' /\ t st' = Z.of_nat (i + j) /\ ssthresh st' = ss0 /\
      total_sent st' = 2 ^ Z.of_nat (i + j) - 1 /\
      (forall k, (k <= i + j)%nat ->
                 cwnd st' !! k = Some (inject_Z (2 ^ Z.of_nat k))) /\
      (forall k, (k < i + j)%nat -> sndwnd st' !! k = Some (2 ^ Z.of_nat k)).
Proof.
  intros Hrc Hss0 Hn Hwin Hthr Htot.
  assert (length no_loss = 65%nat) as Hwb by apply length_replicate.
  induction j as [|j IH]; intros i st Hij Hwf Ht Hss Hsent Hcw Hsw.
  - exists st. rewrite Nat.add_0_r. cbn [while_loop]. auto 10.
  - pose proof Hwf as (Hlc & Hls & Hlss & Ht0).
    set (p := 2 ^ Z.of_nat i) in *.
    assert (0 < p) as Hp by (apply Z.pow_pos_nonneg; lia).
    assert (2 ^ Z.of_nat (S i) = 2 * p) as Hp1
      by (rewrite Nat2Z.inj_succ, Z.pow_succ_r by lia; reflexivity).
    assert (2 * p <= 2 ^ Z.of_nat n) as Hpn
      by (rewrite <- Hp1; apply Z.pow_le_mono_r; lia).
    assert (inject_Z (2 * p - 1) < total_packets)%Q as Htot1.
    { apply Qle_lt_trans with (inject_Z (2 ^ Z.of_nat n - 1)); [| assumption].
      rewrite <- Zle_Qle. lia. }
    destruct (lookup_in_range rcwnd (t st)) as [rc Hrct]; [lia |].
    destruct (lookup_in_range rcwnd (t st + 1)) as [rc1 Hrc1]; [lia |].
    destruct (lookup_in_range (ssthresh st) (t st + 1)) as [ss1 Hss1]; [lia |].
    assert (cwnd st !! Z.to_nat (t st) = Some (inject_Z p)) as Hcwt
      by (rewrite Ht, Nat2Z.id; apply Hcw; lia).
    assert (no_loss !! Z.to_nat (t st) = Some 0) as Hwbt
      by (apply lookup_replicate_2; lia).
    assert (inject_Z (2 ^ Z.of_nat n) <= rc)%Q as Hrcn
      by exact (Forall_lookup_1 _ _ _ _ Hwin Hrct).
    assert (inject_Z (2 ^ Z.of_nat n - 1) < ss1)%Q as Hss1n
      by (rewrite Hss in Hss1; exact (Forall_lookup_1 _ _ _ _ Hthr Hss1)).
    assert (send_window rc (inject_Z p) = p) as Hsend.
    { unfold send_window. rewrite int_inject. apply min_right.
      apply int_lower; [lia |].
      apply Qle_trans with (inject_Z (2 ^ Z.of_nat n)); [| assumption].
      rewrite <- Zle_Qle. lia. }
    assert (flight total_packets st p = p) as Hfl.
    { unfold flight. apply min_left. apply int_lower; [lia |].
      rewrite sub_eq, Hsent. unfold Z.sub in Htot1 |- *.
      rewrite !inject_Z_plus in Htot1 |- *. rewrite inject_Z_mult in Htot1.
      change (inject_Z 2) with 2%Q in Htot1. lra. }
    assert (Py.eqb (inject_Z (total_sent st + p)) total_packets = false) as Hneq.
    { destruct (Py.eqb (inject_Z (total_sent st + p)) total_packets) eqn:E;
        [| reflexivity].
      apply eqb_eq in E. rewrite Hsent in E.
      replace (p - 1 + p) with (2 * p - 1) in E by lia.
      rewrite E in Htot1. now apply Qlt_irrefl in Htot1. }
    cbn [while_loop].
    assert (loop_cond total_packets st = true) as ->.
    { unfold loop_cond. rewrite andb_true_iff, ltb_lt, Z.ltb_lt. split; [| lia].
      apply Qle_lt_trans with (inject_Z (2 * p - 1)); [| assumption].
      rewrite <- Zle_Qle. lia. }
    rewrite (loop_body_normal total_data total_packets rcwnd no_loss Hrc Hwb
               st rc (inject_Z p) ss1 rc1 Hwf ltac:(lia) Hrct Hcwt Hwbt Hss1 Hrc1);
      rewrite Hsend, Hfl; [| exact Hneq].
    rewrite (next_window_slow_start (inject_Z p) p p ss1 rc1);
      [| reflexivity | lia |].
    2:{ intros _. apply Qle_lt_trans with (inject_Z (2 ^ Z.of_nat n - 1));
          [| assumption].
        assert (inject_Z (p + p) <= inject_Z (2 ^ Z.of_nat n))%Q as Hz
          by (rewrite <- Zle_Qle; lia).
        unfold Z.sub. rewrite (inject_Z_plus (2 ^ Z.of_nat n)).
        change (inject_Z (- (1))) with (- (1))%Q. lra. }
    cbn [mbind result_bind].
    replace (i + S j)%nat with (S i + j)%nat by lia.
    apply IH; cbn [cwnd sndwnd ssthresh total_sent t]; try assumption; try lia.
    + repeat split; cbn [cwnd sndwnd ssthresh t]; rewrite ?length_insert; lia.
    + intros k Hk. rewrite Ht.
      replace (Z.to_nat (Z.of_nat i + 1)) with (S i) by lia.
      destruct (Nat.eq_dec k (S i)) as [-> | Hne].
      * rewrite list_lookup_insert_eq by lia. now rewrite Hp1, <- Z.add_diag.
      * rewrite list_lookup_insert_ne by lia. apply Hcw. lia.
    + intros k Hk. rewrite Ht.
      replace (Z.to_nat (Z.of_nat i + 1)) with (S i) by lia. rewrite Nat2Z.id.
      rewrite list_lookup_insert_ne by lia.
      destruct (Nat.eq_dec k i) as [-> | Hne].
      * rewrite list_lookup_insert_eq by lia. reflexivity.
      * rewrite list_lookup_insert_ne by lia. apply Hsw. lia.
Qed.

(** X21. Slow start doubles the window at every step.  Without losses,
    as long as the receiver window is at least [2^n] at every step, every
    threshold is above [2^n - 1] and more than [2^n - 1] packets are to be
    sent, the first [n] passes are all normal steps: the loop is still
    running at step [n], the congestion window at each step [k <= n] is
    exactly [2^k], the whole window was sent at each earlier step, and
    [2^n - 1] packets have been sent in all. *)
Theorem slow_start_doubles
    (total_data : Z) (total_packets : Q) (rcwnd ss0 : list Q) (n : nat) :
  length rcwnd = 65%nat -> length ss0 = 65%nat -> (n <= 64)%nat ->
  Forall (fun rc => (inject_Z (2 ^ Z.of_nat n) <= rc)%Q) rcwnd ->
  Forall (fun s => (inject_Z (2 ^ Z.of_nat n - 1) < s)%Q) ss0 ->
  (inject_Z (2 ^ Z.of_nat n - 1) < total_packets)%Q ->
  exists st,
    while_loop total_data total_packets rcwnd no_loss n (init_state ss0)
    = Ok (st, Running) /\
    t st = Z.of_nat n /\
    total_sent st = 2 ^ Z.of_nat n - 1 /\
    (forall k, (k <= n)%nat -> cwnd st !! k = Some (inject_Z (2 ^ Z.of_nat k))) /\
    (forall k, (k < n)%nat -> sndwnd st !! k = Some (2 ^ Z.of_nat k)).
Proof.
  intros Hrc Hss0 Hn Hwin Hthr Htot.
  destruct (slow_start_passes total_data total_packets rcwnd ss0 n
              Hrc Hss0 Hn Hwin Hthr Htot n 0%nat (init_state ss0))
    as (st & Hrun & _ & Ht & _ & Hsent & Hcw & Hsw); cbn [init_state cwnd sndwnd
      ssthresh total_sent t]; try reflexivity; try lia.
  - repeat split; cbn [init_state cwnd sndwnd ssthresh t];
      rewrite ?length_replicate; (reflexivity || assumption || lia).
  - intros k Hk. replace k with 0%nat by lia. reflexivity.
  - exists st. auto.
Qed.

Lemma slow_start_doubles_witness :
  exists st,
    while_loop 1000 1000 rcwnd_wide no_loss 5 (init_state (ssthresh_uniform 100))
    = Ok (st, Running) /\
    t st = Z.of_nat 5 /\
    total_sent st = 2 ^ Z.of_nat 5 - 1 /\
    (forall k, (k <= 5)%nat -> cwnd st !! k = Some (inject_Z (2 ^ Z.of_nat k))) /\
    (forall k, (k < 5)%nat -> sndwnd st !! k = Some (2 ^ Z.of_nat k)).
Proof.
  apply (slow_start_doubles 1000 1000 rcwnd_wide (ssthresh_uniform 100) 5).
  - reflexivity.
  - reflexivity.
  - lia.
  - apply Forall_replicate. discriminate.
  - apply Forall_replicate. reflexivity.
  - reflexivity.
Defined.

(** ** The file length inside the simulation *)

Lemma loop_body_forget (total_data total_data' : Z) (total_packets : Q)
    (rcwnd : list Q) (working_binary : list Z) (st st' : sim_state) :
  forget_flight st = forget_flight st' ->
  observe (loop_body total_data total_packets rcwnd working_binary st)
  = observe (loop_body total_data' total_packets rcwnd working_binary st').
Proof.
  destruct st as [c s ss b ts n f], st' as [c' s' ss' b' ts' n' f'].
  unfold forget_flight. cbn [cwnd sndwnd ssthresh back_off total_sent t].
  intros [= <- <- <- <- <- <-].
  unfold loop_body. cbn [cwnd sndwnd ssthresh back_off total_sent t].
  destruct (Py.get rcwnd n) as [rc|]; cbn [mbind result_bind]; [| reflexivity].
  destruct (Py.get c n) as [cw|]; cbn [mbind result_bind]; [| reflexivity].
  destruct (Py.set s n _) as [s1|]; cbn [mbind result_bind]; [| reflexivity].
  destruct (Py.get s1 n) as [sw|]; cbn [mbind result_bind]; [| reflexivity].
  destruct (Py.get working_binary n) as [w|]; cbn [mbind result_bind]; [| reflexivity].
  destruct (w =? 0).
  - destruct (Py.eqb _ total_packets); [reflexivity |].
    destruct (update_cwnd c (n + 1) s1 ss rcwnd) as [[[c1 s2] v]|];
      cbn [mbind result_bind]; [| reflexivity].
    destruct (Py.set c1 (n + 1) v); reflexivity.
  - destruct (w =? -1); [| reflexivity].
    destruct (Py.set c (n + b) 1%Q) as [c1|]; cbn [mbind result_bind]; [| reflexivity].
    destruct (Py.for_range (n + b) 65 _ ss) as [ss1|]; cbn [mbind result_bind];
      [| reflexivity].
    destruct (Py.get s1 (n + b)); reflexivity.
Qed.

Lemma while_loop_forget (total_data total_data' : Z) (total_packets : Q)
    (rcwnd : list Q) (working_binary : list Z) (fuel : nat) :
  forall st st' : sim_state,
    forget_flight st = forget_flight st' ->
    observe (while_loop total_data total_packets rcwnd working_binary fuel st)
    = observe (while_loop total_data' total_packets rcwnd working_binary fuel st').
Proof.
  induction fuel as [|fuel IH]; intros st st' H; cbn [while_loop].
  - unfold observe. cbn [mbind result_bind]. now rewrite H.
  - assert (loop_cond total_packets st = loop_cond total_packets st') as <-.
    { unfold loop_cond.
      change (total_sent st) with (total_sent (forget_flight st)).
      change (t st) with (t (forget_flight st)). now rewrite H. }
    destruct (loop_cond total_packets st).
    + pose proof (loop_body_forget total_data total_data' total_packets rcwnd
                    working_binary st st' H) as Hb.
      destruct (loop_body total_data total_packets rcwnd working_binary st)
        as [[st1 fl]|e],
        (loop_body total_data' total_packets rcwnd working_binary st')
        as [[st1' fl']|e']; cbn [observe mbind result_bind] in Hb |- *;
        try discriminate.
      * assert (forget_flight st1 = forget_flight st1' /\ fl = fl') as [H1 <-]
          by (split; congruence).
        destruct fl.
        -- exact (IH _ _ H1).
        -- unfold observe. cbn [mbind result_bind]. now rewrite H1.
      * injection Hb as <-. reflexivity.
    + unfold observe. cbn [mbind result_bind]. now rewrite H.
Qed.

Lemma finalize_forget (working_binary : list Z) (st st' : sim_state) :
  forget_flight st = forget_flight st' ->
  match finalize working_binary st, finalize working_binary st' with
  | Ok a, Ok b => forget_flight a = forget_flight b
  | Raise e, Raise e' => e = e'
  | _, _ => False
  end.
Proof.
  destruct st as [c s ss b ts n f], st' as [c' s' ss' b' ts' n' f'].
  unfold forget_flight. cbn [cwnd sndwnd ssthresh back_off total_sent t].
  intros [= <- <- <- <- <- <-].
  unfold finalize. cbn [cwnd sndwnd ssthresh back_off total_sent t flight_size].
  destruct (Py.for_range n 65 _ s) as [s1|]; cbn [mbind result_bind]; [| reflexivity].
  destruct (Py.for_range 0 65 _ s1) as [s2|]; cbn [mbind result_bind]; reflexivity.
Qed.

(** X22. The file length does not reach the simulation.  Inside
    [simulate_tcp_behavior] the argument [total_data] is read only by the
    assignment to [flight_size] at the end of a loss step, and that value
    is overwritten at the top of the next pass before anything reads it.
    So two runs that differ only in [total_data] raise the same exception
    or end in the same way with the same arrays, step, multiplier and
    packet count: only the last value left in [flight_size] can differ. *)
Theorem total_data_only_reaches_flight_size
    (total_data total_data' : Z) (total_packets : Q) (rcwnd : list Q)
    (working_binary : list Z) (fuel : nat) (ssthresh0 : list Q) :
  observe (run_simulation total_data total_packets rcwnd working_binary fuel ssthresh0)
  = observe (run_simulation total_data' total_packets rcwnd working_binary fuel
               ssthresh0).
Proof.
  unfold run_simulation.
  pose proof (while_loop_forget total_data total_data' total_packets rcwnd
                working_binary fuel (init_state ssthresh0) (init_state ssthresh0)
                eq_refl) as H.
  destruct (while_loop total_data total_packets rcwnd working_binary fuel
              (init_state ssthresh0)) as [[st s]|e],
    (while_loop total_data' total_packets rcwnd working_binary fuel
       (init_state ssthresh0)) as [[st' s']|e'];
    cbn [observe mbind result_bind] in H |- *; try discriminate.
  - assert (forget_flight st = forget_flight st' /\ s = s') as [H1 <-]
      by (split; congruence).
    clear H. rename H1 into H. destruct s as [| e].
    + unfold observe. cbn [mbind result_bind]. now rewrite H.
    + pose proof (finalize_forget working_binary st st' H) as Hf.
      destruct (finalize working_binary st), (finalize working_binary st');
        cbn [mbind result_bind]; try contradiction.
      * unfold observe. cbn [mbind result_bind]. now rewrite Hf.
      * now rewrite Hf.
  - injection H as <-. reflexivity.
Qed.

(** * The input loops in binary64 *)

Lemma truncate_upper (x : Q) (m : Z) :
  0 <= m -> (x <= inject_Z m)%Q -> truncate x <= m.
Proof.
  intros Hm H. rewrite <- int_truncate.
  destruct (Qlt_le_dec x 0) as [Hneg | Hpos].
  - assert (Py.int x = - Py.int (- x)) as -> by (rewrite int_negate; lia).
    assert (0 <= Py.int (- x)) by (apply int_nonneg; lra). lia.
  - pose proof (int_le x Hpos) as Hle.
    assert (inject_Z (Py.int x) <= inject_Z m)%Q as Hz by lra.
    now rewrite <- Zle_Qle in Hz.
Qed.

(** A quotient that does not exceed a bound has an integer part that does
    not exceed it. *)
Lemma int_within (q : B64.num) (k b : Z) :
  0 <= b -> B64.ltb (B64.Int b) q = false -> B64.int q = Ok k -> k <= b.
Proof.
  intros Hb Hlt Hint. rewrite int_truncation in Hint.
  unfold Rule.truncation in Hint. unfold B64.ltb in Hlt.
  cbn [B64.val] in Hlt.
  destruct (B64.val q) as [| s | v]; try discriminate.
  injection Hint as <-. cbn [B64.xcompare] in Hlt.
  apply truncate_upper; [assumption |].
  destruct (inject_Z b ?= v)%Q eqn:C; try discriminate; qcompare; lra.
Qed.

(** ** Receiver-window overrides *)

Lemma window_in_force_lookup (ovs : list override) :
  forall (rcwnd : list B64.num),
    Forall (fun o => 0 <= o_step o) ovs ->
    forall (i : nat) (old : B64.num), rcwnd !! i = Some old ->
      foldl (fun r o => Py.fill_from (Z.to_nat (o_step o)) (o_window o) r) rcwnd ovs
        !! i
      = Some (match window_in_force ovs (Z.of_nat i) with
              | Some w => w
              | None => old
              end).
Proof.
  induction ovs as [|o ovs IH]; intros rcwnd Hall i old Hold.
  - exact Hold.
  - inversion Hall as [|? ? H0 Hrest]; subst.
    cbn [foldl window_in_force].
    destruct (Z.leb_spec (o_step o) (Z.of_nat i)) as [Hle | Hgt].
    + rewrite (IH _ Hrest i (o_window o)).
      * now destruct (window_in_force ovs (Z.of_nat i)).
      * apply fill_from_lookup_ge. apply lookup_lt_Some in Hold. lia.
    + rewrite (IH _ Hrest i old).
      * now destruct (window_in_force ovs (Z.of_nat i)).
      * rewrite fill_from_lookup_lt by lia. exact Hold.
Qed.

Lemma update_rcwnd_closes (rcwnd : list B64.num) (rtt : B64.num) (mss : Z)
    (stop : Q) (rest : tape) :
  closes rtt 65 stop ->
  B64.update_rcwnd rcwnd rtt mss (stop :: rest) = Ok (rcwnd, rest).
Proof.
  intros (q & Hq & Hlt). cbn [B64.update_rcwnd]. rewrite Hq. bnd. now rewrite Hlt.
Qed.

Lemma update_rcwnd_fold (rtt : B64.num) (mss : Z) (stop : Q) (rest : tape)
    (ovs : list override) :
  closes rtt 65 stop ->
  Forall (fun o => override_read rtt mss o /\ 0 <= o_step o) ovs ->
  forall rcwnd : list B64.num,
    length rcwnd = 65%nat ->
    B64.update_rcwnd rcwnd rtt mss (overrides_entries ovs ++ stop :: rest)
    = Ok (foldl (fun r o => Py.fill_from (Z.to_nat (o_step o)) (o_window o) r)
            rcwnd ovs, rest).
Proof.
  intros Hstop Hall.
  induction Hall as [|o ovs [(q & Hq & Hlt & Hint & Hw) H0] Hrest IH];
    intros rcwnd Hlen.
  - now apply update_rcwnd_closes.
  - cbn [overrides_entries app B64.update_rcwnd foldl].
    rewrite Hq. bnd. rewrite Hlt, entry_int_integer. bnd.
    rewrite Hw. bnd. rewrite Hint. bnd.
    pose proof (int_within q (o_step o) 65 ltac:(lia) Hlt Hint) as H65.
    replace 65 with (Z.of_nat (length rcwnd)) at 1 by lia.
    rewrite for_range_fill by lia. bnd.
    apply IH. now rewrite fill_from_length.
Qed.

(** X14. Well-formed receiver-window input.  When every override entered
    has a quotient [time / rtt] that does not exceed 65 and whose integer
    part, its step, is not negative, an integer value, and a quotient
    [value / mss], and the closing entry has a quotient above 65,
    [update_rcwnd] raises nothing, reads exactly these entries, and leaves
    at each step the window [value / mss] of the last override entered
    whose step is not after it; the steps before every override keep their
    window.  All quotients are the binary64 ones: for a round trip of 0.1
    seconds, the time 0.3 falls in step 2. *)
Theorem update_rcwnd_last_override_wins
    (rcwnd : list B64.num) (rtt : B64.num) (mss : Z) (ovs : list override)
    (stop : Q) (rest : tape) :
  length rcwnd = 65%nat ->
  Forall (fun o => override_read rtt mss o /\ 0 <= o_step o) ovs ->
  closes rtt 65 stop ->
  exists r,
    B64.update_rcwnd rcwnd rtt mss (overrides_entries ovs ++ stop :: rest)
    = Ok (r, rest) /\
    length r = 65%nat /\
    forall (i : nat) (old : B64.num), rcwnd !! i = Some old ->
      r !! i = Some (match window_in_force ovs (Z.of_nat i) with
                     | Some w => w
                     | None => old
                     end).
Proof.
  intros Hlen Hall Hstop.
  eexists. split; [now apply update_rcwnd_fold |]. split.
  - clear Hall. revert rcwnd Hlen. induction ovs as [|o ovs IH]; intros rcwnd Hlen.
    + exact Hlen.
    + cbn [foldl]. apply IH. now rewrite fill_from_length.
  - apply window_in_force_lookup.
    eapply Forall_impl; [exact Hall |]. now intros o [_ H0].
Qed.

Lemma update_rcwnd_last_override_wins_witness :
  B64.update_rcwnd (replicate 65 (B64.Int 1)) tenth 2
    (overrides_entries overrides_tenth ++ 100%Q :: [])
  = Ok (rcwnd64_after_overrides, []) /\
  forall (i : nat) (old : B64.num), replicate 65 (B64.Int 1) !! i = Some old ->
    rcwnd64_after_overrides !! i
    = Some (match window_in_force overrides_tenth (Z.of_nat i) with
            | Some w => w
            | None => old
            end).
Proof.
  assert (B64.update_rcwnd (replicate 65 (B64.Int 1)) tenth 2
            (overrides_entries overrides_tenth ++ 100%Q :: [])
          = Ok (rcwnd64_after_overrides, [])) as Hrun by (vm_compute; reflexivity).
  split; [exact Hrun |].
  destruct (update_rcwnd_last_override_wins (replicate 65 (B64.Int 1)) tenth 2
              overrides_tenth 100 []) as (r & Hr & _ & Hlookup).
  - reflexivity.
  - unfold overrides_tenth.
    repeat (apply Forall_cons; split;
            [split; [eexists; repeat split; vm_compute; reflexivity
                    | vm_compute; discriminate] |]).
    apply Forall_nil. exact I.
  - eexists. split; vm_compute; reflexivity.
  - rewrite Hrun in Hr. injection Hr as <-. exact Hlookup.
Defined.

(** ** Loss intervals *)

Lemma get_working_binary_from_intervals (rtt : B64.num) (stop : Q) (rest : tape)
    (ivs : list interval) :
  closes rtt 100 stop ->
  Forall (fun iv => interval_read rtt iv /\ 0 <= i_first iv /\ i_stop iv <= 65) ivs ->
  forall wb0 : list Z,
    length wb0 = 65%nat ->
    exists wb,
      B64.get_working_binary_from wb0 rtt (intervals_entries ivs ++ stop :: rest)
      = Ok (wb, rest) /\
      length wb = 65%nat /\
      forall i : nat, (i < 65)%nat ->
        wb !! i = if marked ivs (Z.of_nat i) then Some (-1) else wb0 !! i.
Proof.
  intros (qs & Hqs & Hlts) Hall.
  induction Hall as [|iv ivs [(q & q' & Hq & Hlt & Hint & Hq' & Hint') [H0 H65]] Hrest IH];
    intros wb0 Hlen.
  - exists wb0. cbn [intervals_entries app B64.get_working_binary_from].
    rewrite Hqs. bnd. rewrite Hlts. auto.
  - cbn [intervals_entries app B64.get_working_binary_from].
    rewrite Hq. bnd. rewrite Hlt, Hq'. bnd. rewrite Hint. bnd. rewrite Hint'. bnd.
    destruct (for_range_mark (i_first iv) (i_stop iv) wb0)
      as (wb1 & Hrun & Hlen1 & Hlk1); [assumption | lia |].
    rewrite Hrun. bnd.
    destruct (IH wb1) as (wb & Hwb & Hlenwb & Hlk); [congruence |].
    exists wb. split; [exact Hwb |]. split; [exact Hlenwb |].
    intros i Hi. rewrite (Hlk i Hi), (Hlk1 i) by lia.
    unfold marked. cbn [existsb]. fold (marked ivs (Z.of_nat i)).
    destruct (marked ivs (Z.of_nat i)); [now rewrite orb_true_r |].
    now rewrite orb_false_r.
Qed.

(** X15. Well-formed loss input.  When every interval entered has a start
    whose quotient [start / rtt] does not exceed 100, integer parts of
    [start / rtt] and [end / rtt] that exist, a first step that is not
    negative and a last bound of at most 65, and the closing entry has a
    quotient above 100, [get_working_binary] raises nothing, reads exactly
    these entries, and marks with -1 exactly the steps lying in some
    interval [int(start / rtt) <= i < int(end / rtt)]; every other step
    stays 0.  All quotients are the binary64 ones: for a round trip of 0.1
    seconds, the interval from 0.3 to 0.5 marks the steps 2, 3 and 4. *)
Theorem get_working_binary_marks_intervals
    (rtt : B64.num) (ivs : list interval) (stop : Q) (rest : tape) :
  Forall (fun iv => interval_read rtt iv /\ 0 <= i_first iv /\ i_stop iv <= 65) ivs ->
  closes rtt 100 stop ->
  exists wb,
    B64.get_working_binary rtt (intervals_entries ivs ++ stop :: rest)
    = Ok (wb, rest) /\
    length wb = 65%nat /\
    forall i : nat, (i < 65)%nat ->
      wb !! i = Some (if marked ivs (Z.of_nat i) then -1 else 0).
Proof.
  intros Hall Hstop.
  destruct (get_working_binary_from_intervals rtt stop rest ivs Hstop Hall
              (replicate 65 0) (length_replicate _ _)) as (wb & Hwb & Hlen & Hlk).
  exists wb. split; [exact Hwb |]. split; [exact Hlen |].
  intros i Hi. rewrite (Hlk i Hi).
  destruct (marked ivs (Z.of_nat i)); [reflexivity |].
  now apply lookup_replicate_2.
Qed.

Lemma get_working_binary_marks_intervals_witness :
  B64.get_working_binary tenth (intervals_entries intervals_tenth ++ 100%Q :: [])
  = Ok (working_binary_after_intervals, []) /\
  forall i : nat, (i < 65)%nat ->
    working_binary_after_intervals !! i
    = Some (if marked intervals_tenth (Z.of_nat i) then -1 else 0).
Proof.
  assert (B64.get_working_binary tenth
            (intervals_entries intervals_tenth ++ 100%Q :: [])
          = Ok (working_binary_after_intervals, [])) as Hrun
    by (vm_compute; reflexivity).
  split; [exact Hrun |].
  destruct (get_working_binary_marks_intervals tenth intervals_tenth 100 [])
    as (wb & Hwb & _ & Hlookup).
  - unfold intervals_tenth.
    repeat (apply Forall_cons; split;
            [split; [do 2 eexists; repeat split; vm_compute; reflexivity
                    | split; vm_compute; discriminate] |]).
    apply Forall_nil. exact I.
  - eexists. split; vm_compute; reflexivity.
  - rewrite Hrun in Hwb. injection Hwb as <-. exact Hlookup.
Defined.

(** ** Override steps before 0 *)

(** X17. Override steps before 0.  An override whose step
    [int(time / rtt)] is from -65 to 0 raises nothing: Python's negative
    indices wrap, and the whole window, all 65 steps, takes the new value.
    A step below -65 raises [IndexError].  The step is that of the
    binary64 quotient: for a round trip of 0.1 seconds the time -6.6 has
    the quotient -65.99999999999999 and the step -65. *)
Theorem update_rcwnd_negative_step
    (rcwnd : list B64.num) (rtt : B64.num) (mss : Z) (o : override) (tp : tape) :
  length rcwnd = 65%nat ->
  override_read rtt mss o ->
  (- (65) <= o_step o <= 0 ->
   B64.update_rcwnd rcwnd rtt mss (o_time o :: inject_Z (o_value o) :: tp)
   = B64.update_rcwnd (replicate 65 (o_window o)) rtt mss tp) /\
  (o_step o < - (65) ->
   B64.update_rcwnd rcwnd rtt mss (o_time o :: inject_Z (o_value o) :: tp)
   = Raise IndexError).
Proof.
  intros Hlen (q & Hq & Hlt & Hint & Hw).
  assert (B64.update_rcwnd rcwnd rtt mss (o_time o :: inject_Z (o_value o) :: tp)
          = (rcwnd' ← Py.for_range (o_step o) 65
                        (fun idx r => Py.set r idx (o_window o)) rcwnd;
             B64.update_rcwnd rcwnd' rtt mss tp)) as ->.
  { cbn [B64.update_rcwnd]. rewrite Hq. bnd. rewrite Hlt, entry_int_integer. bnd.
    rewrite Hw. bnd. rewrite Hint. reflexivity. }
  split; intros Hk.
  - replace 65 with (Z.of_nat (length rcwnd)) at 1 by lia.
    rewrite for_range_set_wrapped by lia. now rewrite Hlen.
  - rewrite for_range_set_below by lia. reflexivity.
Qed.

Lemma update_rcwnd_negative_step_witness :
  B64.update_rcwnd (replicate 65 (B64.Int 1)) tenth 2
    ((- (66) # 10)%Q :: inject_Z 8 :: [100%Q])
  = B64.update_rcwnd
      (replicate 65 (B64.Float (S754_finite false 4503599627370496 (-50))))
      tenth 2 [100%Q].
Proof.
  apply (proj1 (update_rcwnd_negative_step (replicate 65 (B64.Int 1)) tenth 2
                  {| o_time := - (66) # 10; o_value := 8; o_step := - (65);
                     o_window := B64.Float (S754_finite false 4503599627370496 (-50)) |}
                  [100%Q] eq_refl
                  ltac:(eexists; repeat split; vm_compute; reflexivity))).
  split; discriminate.
Defined.
